(** * BAW Cesium viewer: the comments subsystem

    A shallow embedding of [LocalCommentsAPI] and of the placement part of
    [CommentsManager] (BAW Cesium Viewer - Comments System, versions 2.1.0
    and 2.0.0), together with the properties of the specification that
    concern them.  The later parts embed the other methods of the
    workflow of the manager of version 2.1.0 and [HiddenFeaturesSystem]
    of the utilities, and prove further properties of the code: the CSV
    lines read back, the states that the store reaches, the markers, and
    the list of hidden features.

    Conventions of the embedding.
    - A JavaScript string is a [string]; each character is one code unit
      (the embedding covers code units below 256).
    - A JavaScript number is a binary64 value, [spec_float] of the standard
      library with [prec = 53] and [emax = 1024].
    - The object [data.comments], used as a map from scene names to arrays,
      is an association list of its own properties in the order of
      [Object.keys] and [Object.entries]: the array indices first, in
      ascending order, then the other names in the order of their
      creation.  A name that is no own property may be one that the
      object inherits from [Object.prototype]; reading it gives a
      function or an object, not undefined ([comments_at]).  The cache is
      a [Map], whose keys are in the order of their insertion.
    - A method that may throw is a function from the state to a completion
      (a returned value or a thrown error) and a new state.
    - [localStorage] holds one item; [setItem] may throw, as it does
      when the quota is exceeded, and whether it does is part of the
      state and may change between the calls of the methods.  The item
      is the document that its text denotes, a text that does not parse,
      or the empty text.
    - The document is typed: a value that [JSON.parse] returns and that is
      not of the durable schema is no document, and where the code would
      install such a value the embedding stops ([importData] is partial). *)

From Stdlib Require Import Bool Ascii String List ZArith NArith Lia.
From Stdlib Require Import SpecFloat DecimalString DecimalPos DecimalN Permutation.
Import ListNotations.
Local Open Scope string_scope.
Local Open Scope list_scope.

Set Implicit Arguments.
Set Warnings "-register-all".

(** ** ECMAScript built-ins used by the source *)
Module JS.

(** *** Strings *)

Definition quote : ascii := Ascii.ascii_of_nat 34.
Definition comma : ascii := ","%char.
Definition LF : ascii := Ascii.ascii_of_nat 10.

(** [!s] is false exactly for the empty string. *)
Definition truthy (s : string) : bool :=
  match s with EmptyString => false | String _ _ => true end.

(** WhiteSpace and LineTerminator code units below 256: TAB, LF, VT, FF,
    CR, SP and NBSP. *)
Definition is_ws (c : ascii) : bool :=
  let n := Ascii.nat_of_ascii c in
  ((9 <=? n) && (n <=? 13) || (n =? 32) || (n =? 160))%nat.

Fixpoint trimStart (s : string) : string :=
  match s with
  | String c r => if is_ws c then trimStart r else s
  | EmptyString => EmptyString
  end.

(** [trimEnd] keeps a character when something that is not white space
    follows it or when it is not white space itself. *)
Fixpoint trimEnd (s : string) : string :=
  match s with
  | EmptyString => EmptyString
  | String c r =>
      match trimEnd r with
      | EmptyString => if is_ws c then EmptyString else String c EmptyString
      | r' => String c r'
      end
  end.

Definition trim (s : string) : string := trimEnd (trimStart s).

(** [s.split(sep)] for a separator of one character: the result is never
    empty, and the empty string splits into one empty string. *)
Fixpoint split (sep : ascii) (s : string) : list string :=
  match s with
  | EmptyString => [EmptyString]
  | String c r =>
      if Ascii.eqb c sep then EmptyString :: split sep r
      else match split sep r with
           | h :: t => String c h :: t
           | [] => [String c EmptyString]
           end
  end.

(** [a.join(sep)]. *)
Fixpoint join (sep : string) (l : list string) : string :=
  match l with
  | [] => EmptyString
  | [x] => x
  | x :: r => x ++ sep ++ join sep r
  end.

(** [s.replace] with the global pattern of one double quote and the
    replacement of two: every double quote is doubled. *)
Fixpoint replace_quotes (s : string) : string :=
  match s with
  | EmptyString => EmptyString
  | String c r =>
      if Ascii.eqb c quote then String quote (String quote (replace_quotes r))
      else String c (replace_quotes r)
  end.

(** *** Numbers *)

Definition number := spec_float.
Definition prec : Z := 53.
Definition emax : Z := 1024.

Definition NaN : number := S754_nan.

(** The Number value of an integer, rounded to nearest, ties to even. *)
Definition of_Z (z : Z) : number := binary_normalize prec emax z 0 false.

Definition digit_char (d : N) : ascii :=
  Ascii.ascii_of_N (48 + d mod 10).

(** Decimal representation of a natural number, without leading zeros. *)
Definition decimal (n : N) : string :=
  NilZero.string_of_uint (N.to_uint n).

(** The last [k] decimal digits of [n], padded with zeros on the left. *)
Fixpoint fixed_digits (k : nat) (n : N) : string :=
  match k with
  | O => EmptyString
  | S k' => fixed_digits k' (n / 10) ++ String (digit_char n) EmptyString
  end.

(** The integer nearest to [m * 2^e * 10^f]; of two such, the larger. *)
Definition scaled_round (f : nat) (m : positive) (e : Z) : N :=
  let p := (Z.pos m * 10 ^ Z.of_nat f)%Z in
  Z.to_N (if (0 <=? e)%Z then p * 2 ^ e
          else (2 * p + 2 ^ (- e)) / (2 * 2 ^ (- e)))%Z.

(** The integer part of [m * 2^e]. *)
Definition magnitude_floor (m : positive) (e : Z) : N :=
  Z.to_N (if (0 <=? e)%Z then Z.pos m * 2 ^ e else Z.pos m / 2 ^ (- e))%Z.

(** The value of the number to which the integer [v] rounds, when that
    number is an integer again. *)
Definition rounds_to (v X : N) : bool :=
  match of_Z (Z.of_N v) with
  | S754_finite false m e => (0 <=? e)%Z && (Z.pos m * 2 ^ e =? Z.of_N X)%Z
  | _ => false
  end.

Definition dist (a b : N) : N := if (a <=? b)%N then b - a else a - b.

(** Number::toString for an integer value [X >= 10^21]: the shortest
    digit string [s] with [k] digits whose value [s * 10^(n-k)] rounds to
    [X], in exponential notation.  [shortest fuel k] tries [k], [k+1], ... *)
Fixpoint shortest (fuel : nat) (k : nat) (d : nat) (X : N) : N * nat * nat :=
  let scale := (10 ^ N.of_nat (d - k))%N in
  let lo := (X / scale)%N in
  let hi := (lo + 1)%N in
  let ok_lo := rounds_to (lo * scale) X in
  let ok_hi := rounds_to (hi * scale) X in
  let pick_hi :=
    ok_hi && (negb ok_lo
              || (dist (hi * scale) X <? dist (lo * scale) X)%N
              || ((dist (hi * scale) X =? dist (lo * scale) X)%N && N.even hi)) in
  if pick_hi then
    if (hi =? 10 ^ N.of_nat k)%N then ((10 ^ N.of_nat (k - 1))%N, k, S d)
    else (hi, k, d)
  else if ok_lo then (lo, k, d)
  else match fuel with
       | O => (X, d, d)
       | S fuel' => if (d <=? k)%nat then (X, d, d) else shortest fuel' (S k) d X
       end.

Definition toString_large (X : N) : string :=
  let d := String.length (decimal X) in
  let '(s, k, n) := shortest 17 1 d X in
  let digits := fixed_digits k s in
  match digits with
  | String c EmptyString => String c EmptyString
  | String c r => String c ("." ++ r)
  | EmptyString => EmptyString
  end ++ "e+" ++ decimal (N.of_nat (n - 1)).

(** [x.toFixed(f)] (Number.prototype.toFixed). *)
Definition toFixed (f : nat) (x : number) : string :=
  match x with
  | S754_nan => "NaN"
  | S754_infinity false => "Infinity"
  | S754_infinity true => "-Infinity"
  | S754_zero _ =>
      "0" ++ match f with O => "" | _ => "." ++ fixed_digits f 0 end
  | S754_finite s m e =>
      (if s then "-" else "") ++
      if (10 ^ 21 <=? magnitude_floor m e)%N then
        toString_large (magnitude_floor m e)
      else
        let n := scaled_round f m e in
        decimal (n / 10 ^ N.of_nat f) ++
        match f with O => "" | _ => "." ++ fixed_digits f n end
  end.

(** *** parseFloat *)

Definition is_digit (c : ascii) : bool :=
  let n := Ascii.nat_of_ascii c in ((48 <=? n) && (n <=? 57))%nat.

(** The longest prefix of decimal digits, as a value and a count, and the
    rest of the string. *)
Fixpoint span_digits (acc : N) (cnt : nat) (s : string) : N * nat * string :=
  match s with
  | String c r =>
      if is_digit c
      then span_digits (10 * acc + (Ascii.N_of_ascii c - 48))%N (S cnt) r
      else (acc, cnt, s)
  | EmptyString => (acc, cnt, s)
  end.

Definition read_sign (s : string) : bool * string :=
  match s with
  | String "-" r => (true, r)
  | String "+" r => (false, r)
  | _ => (false, s)
  end.

(** The exponent part, counted only when it has at least one digit. *)
Definition read_exponent (s : string) : Z :=
  match s with
  | String c r =>
      if (Ascii.eqb c "e" || Ascii.eqb c "E")%bool then
        let '(neg, r1) := read_sign r in
        let '(v, cnt, _) := span_digits 0 0 r1 in
        match cnt with
        | O => 0%Z
        | _ => if neg then (- Z.of_N v)%Z else Z.of_N v
        end
      else 0%Z
  | EmptyString => 0%Z
  end.

(** The Number value of [mant * 10^de] with sign [neg]. *)
Definition of_decimal (neg : bool) (mant : N) (de : Z) : number :=
  match mant with
  | N0 => S754_zero neg
  | Npos p =>
      if (0 <=? de)%Z then
        match (Z.pos p * 10 ^ de)%Z with
        | Z.pos q => binary_round prec emax neg q 0
        | _ => S754_zero neg
        end
      else
        let '(q, e, l) :=
          SFdiv_core_binary prec emax (Z.pos p) 0 (10 ^ (- de))%Z 0 in
        binary_round_aux prec emax neg q e l
  end.

Definition parseFloat (s : string) : number :=
  let '(neg, t) := read_sign (trimStart s) in
  if String.prefix "Infinity" t then S754_infinity neg
  else
    let '(ip, ni, r1) := span_digits 0 0 t in
    let '(m, nf, r2) :=
      match r1 with
      | String "." r =>
          let '(m, nf, r2) := span_digits ip 0 r in
          match ni, nf with
          | O, O => (ip, O, r1)
          | _, _ => (m, nf, r2)
          end
      | _ => (ip, O, r1)
      end in
    match ni, nf with
    | O, O => NaN
    | _, _ => of_decimal neg m (read_exponent r2 - Z.of_nat nf)
    end.

End JS.

(** ** Data model *)

(** The renderer's coordinate type.  Its constructor stores [0.0] for an
    argument that is null. *)
Module Cesium.
Record Cartesian3 := { x : JS.number; y : JS.number; z : JS.number }.

Definition new_Cartesian3 (a b c : option JS.number) : Cartesian3 :=
  let dflt v := match v with Some n => n | None => S754_zero false end in
  {| x := dflt a; y := dflt b; z := dflt c |}.
End Cesium.

(** Values that [JSON.parse] returns.  An object lists its own
    properties in the order of [Object.keys]. *)
Inductive json :=
| JNull
| JBool (b : bool)
| JNum (n : JS.number)
| JStr (s : string)
| JArr (l : list json)
| JObj (l : list (string * json)).

(** A comment as it is kept in the document: the durable schema.  A
    coordinate is a number or null, a feature name a string or null. *)
Record Comment := {
  id : string;
  text : string;
  position_x : option JS.number;
  position_y : option JS.number;
  position_z : option JS.number;
  featureName : option string;
  timestamp : string;
  user : string;
  szene : string
}.

(** A comment as [loadComments] and [saveComment] hand it out: the stored
    fields, spread, and the position as a [Cartesian3]. *)
Record SceneComment := {
  stored : Comment;
  position : Cesium.Cartesian3
}.

(** The document: [comments] maps a scene name to its array; [rest] holds
    the other properties of the root object, [metadata] among them. *)
Record Document := {
  comments : list (string * list Comment);
  rest : list (string * json)
}.

(** Property lookup in an object used as a map. *)
Fixpoint lookup {A} (k : string) (m : list (string * A)) : option A :=
  match m with
  | [] => None
  | (k', v) :: r => if String.eqb k' k then Some v else lookup k r
  end.

(** [map.set(k, v)] on a [Map], whose keys are listed in the order of
    their insertion: an existing key keeps its place, a new key comes
    last. *)
Fixpoint Map_set {A} (k : string) (v : A) (m : list (string * A)) : list (string * A) :=
  match m with
  | [] => [(k, v)]
  | (k', v') :: r =>
      if String.eqb k' k then (k', v) :: r else (k', v') :: Map_set k v r
  end.

(** An array index is the canonical decimal form of an integer from 0 to
    2^32 - 2: digits only, and no leading zero but for the index 0. *)
Fixpoint digits_value (s : string) (acc : N) : option N :=
  match s with
  | EmptyString => Some acc
  | String c r =>
      let n := Ascii.nat_of_ascii c in
      if ((48 <=? n) && (n <=? 57))%nat
      then digits_value r (10 * acc + N.of_nat (n - 48))%N
      else None
  end.

Definition array_index (k : string) : option N :=
  match k with
  | EmptyString => None
  | String "0" EmptyString => Some 0%N
  | String "0" _ => None
  | _ =>
      match digits_value k 0 with
      | Some n => if (n <? 4294967295)%N then Some n else None
      | None => None
      end
  end.

(** The own property names of an object are listed with the array
    indices first, in ascending order, and then the other names in the
    order of their creation.  [comes_before k k'] says that a new name
    [k] is listed before the name [k'] that the object has. *)
Definition comes_before (k k' : string) : bool :=
  match array_index k, array_index k' with
  | Some n, Some n' => (n <? n')%N
  | Some _, None => true
  | None, _ => false
  end.

(** Assignment [m[k] = v] to a property that the object has: the name
    keeps its place. *)
Fixpoint replace_value {A} (k : string) (v : A) (m : list (string * A))
    : list (string * A) :=
  match m with
  | [] => []
  | (k', v') :: r =>
      if String.eqb k' k then (k', v) :: r else (k', v') :: replace_value k v r
  end.

(** Assignment [m[k] = v] to a property that the object does not have:
    the name takes its place in the order of the names. *)
Fixpoint define {A} (k : string) (v : A) (m : list (string * A))
    : list (string * A) :=
  match m with
  | [] => [(k, v)]
  | (k', v') :: r =>
      if comes_before k k' then (k, v) :: m else (k', v') :: define k v r
  end.

(** Assignment [m[k] = v]. *)
Definition assign {A} (k : string) (v : A) (m : list (string * A))
    : list (string * A) :=
  match lookup k m with
  | Some _ => replace_value k v m
  | None => define k v m
  end.

(** [Object.keys]. *)
Definition keys {A} (m : list (string * A)) : list string := map fst m.

(** All comments of a document, scene after scene. *)
Definition all_comments (d : Document) : list Comment :=
  concat (map snd (comments d)).

(** What [JSON.stringify] makes of a number: a value that is not finite
    becomes null, and negative zero is written as zero. *)
Definition JSON_number (v : option JS.number) : option JS.number :=
  match v with
  | Some (S754_finite s m e) => Some (S754_finite s m e)
  | Some (S754_zero _) => Some (S754_zero false)
  | _ => None
  end.

Definition JSON_comment (c : Comment) : Comment :=
  {| id := id c; text := text c;
     position_x := JSON_number (position_x c);
     position_y := JSON_number (position_y c);
     position_z := JSON_number (position_z c);
     featureName := featureName c; timestamp := timestamp c;
     user := user c; szene := szene c |}.

Fixpoint JSON_value (j : json) : json :=
  match j with
  | JNum n => match JSON_number (Some n) with Some n' => JNum n' | None => JNull end
  | JArr l => JArr (map JSON_value l)
  | JObj l => JObj (map (fun kv => (fst kv, JSON_value (snd kv))) l)
  | _ => j
  end.

(** The document that the text [JSON.stringify(d)] denotes. *)
Definition JSON_text (d : Document) : Document :=
  {| comments := map (fun kv => (fst kv, map JSON_comment (snd kv))) (comments d);
     rest := map (fun kv => (fst kv, JSON_value (snd kv))) (rest d) |}.

(** ** Errors, completions and [safeExecute] *)

(** The message constants of [BAWUtils.messages], by name, and message
    literals of the source. *)
Inductive message :=
| ERROR_LOADING
| ERROR_STORAGE
| ERROR_SCENE_NOT_FOUND
| ERROR_COMMENT_NOT_FOUND
| ERROR_INVALID_JSON
| ERROR_FILE_IMPORT
| COMMENT_NO_NAME
| COMMENT_NO_TEXT
| COMMENT_SAVED
| Literal (s : string).

Inductive error :=
| Error (m : message)
| TypeError
| SyntaxError
| DOMException.

Inductive completion (A : Type) :=
| Return (a : A)
| Throw (e : error).
Arguments Return {A} a.
Arguments Throw {A} e.

Inductive log_entry :=
| console_error (m : message) (e : error)
| console_warn (m : message).

(** A computation over a state [S] that returns or throws. *)
Definition M (S A : Type) : Type := S -> completion A * S.

Definition ret {S A} (a : A) : M S A := fun st => (Return a, st).
Definition throw {S A} (e : error) : M S A := fun st => (Throw e, st).
Definition bind {S A B} (c : M S A) (k : A -> M S B) : M S B :=
  fun st =>
    match c st with
    | (Return a, st') => k a st'
    | (Throw e, st') => (Throw e, st')
    end.
Definition modify {S} (f : S -> S) : M S unit := fun st => (Return tt, f st).
Definition gets {S A} (f : S -> A) : M S A := fun st => (Return (f st), st).

Declare Scope js_scope.
Delimit Scope js_scope with js.
Notation "x <- c ;; k" := (bind c (fun x => k))
  (at level 61, c at next level, right associativity) : js_scope.
Notation "c ;; k" := (bind c (fun _ => k))
  (at level 61, right associativity) : js_scope.
Local Open Scope js_scope.

(** A state that has a console. *)
Class Console (S : Type) := console_log : log_entry -> S -> S.

(** [Utils.safeExecute(func, errorMessage, fallback)]: run [func]; when it
    throws, log the error and return the fallback.  It never throws. *)
Definition safeExecute {S A} `{Console S}
    (func : M S A) (errorMessage : message) (fallback : A) : S -> A * S :=
  fun st =>
    match func st with
    | (Return a, st') => (a, st')
    | (Throw e, st') => (fallback, console_log (console_error errorMessage e) st')
    end.

(** A call of a method that cannot throw, inside a computation. *)
Definition call {S A} (f : S -> A * S) : M S A :=
  fun st => let '(a, st') := f st in (Return a, st').

(** ** Reading a parsed value *)

(** [v.name] for a value [v] that [JSON.parse] returned: reading a
    property of null throws, an object gives its property, anything else
    gives undefined ([None]). *)
Definition get_property (name : string) (v : json) : completion (option json) :=
  match v with
  | JNull => Throw TypeError
  | JObj props => Return (lookup name props)
  | _ => Return None
  end.

(** [!!v] *)
Definition truthy_value (v : option json) : bool :=
  match v with
  | None | Some JNull => false
  | Some (JBool b) => b
  | Some (JNum (S754_zero _)) | Some (JNum S754_nan) => false
  | Some (JNum _) => true
  | Some (JStr s) => JS.truthy s
  | Some (JArr _) | Some (JObj _) => true
  end.

(** [typeof v === 'object'] *)
Definition typeof_object (v : option json) : bool :=
  match v with
  | Some JNull | Some (JArr _) | Some (JObj _) => true
  | _ => false
  end.

(** A parsed value read at the types of the durable schema. *)
Definition as_string (v : option json) : option string :=
  match v with Some (JStr s) => Some s | _ => None end.

Definition as_nullable_number (v : option json) : option (option JS.number) :=
  match v with
  | Some (JNum n) => Some (Some n)
  | Some JNull => Some None
  | _ => None
  end.

Definition as_nullable_string (v : option json) : option (option string) :=
  match v with
  | Some (JStr s) => Some (Some s)
  | Some JNull => Some None
  | _ => None
  end.

Definition comment_of_json (v : json) : option Comment :=
  match v with
  | JObj p =>
      match as_string (lookup "id" p), as_string (lookup "text" p),
            as_nullable_number (lookup "position_x" p),
            as_nullable_number (lookup "position_y" p),
            as_nullable_number (lookup "position_z" p),
            as_nullable_string (lookup "featureName" p),
            as_string (lookup "timestamp" p), as_string (lookup "user" p),
            as_string (lookup "szene" p) with
      | Some i, Some t, Some px, Some py, Some pz, Some f, Some ts, Some u, Some s =>
          if (length p =? 9)%nat then
            Some {| id := i; text := t; position_x := px; position_y := py;
                    position_z := pz; featureName := f; timestamp := ts;
                    user := u; szene := s |}
          else None
      | _, _, _, _, _, _, _, _, _ => None
      end
  | _ => None
  end.

Fixpoint all_some {A} (l : list (option A)) : option (list A) :=
  match l with
  | [] => Some []
  | Some a :: r => option_map (cons a) (all_some r)
  | None :: _ => None
  end.

Definition scene_of_json (kv : string * json) : option (string * list Comment) :=
  match snd kv with
  | JArr l => option_map (pair (fst kv)) (all_some (map comment_of_json l))
  | _ => None
  end.

(** The document that a parsed value is, when it has the shape of the
    durable schema. *)
Definition fromJSON (v : json) : option Document :=
  match v with
  | JObj props =>
      match lookup "comments" props with
      | Some (JObj scenes) =>
          option_map
            (fun cs => {| comments := cs;
                          rest := filter (fun kv => negb (String.eqb (fst kv) "comments")) props |})
            (all_some (map scene_of_json scenes))
      | _ => None
      end
  | _ => None
  end.

(** ** The state of a [LocalCommentsAPI] and of its surroundings

    [data], [_cache] and [_maxCacheSize] are the fields of the instance
    (version 2.0.0 has no [_maxCacheSize] and does not read it).  The
    rest is the surroundings: [localStorage] is the item under
    [storageKey]; [setItem_throws] says whether [localStorage.setItem]
    throws at present, as it does when the quota is exceeded or the
    storage is disabled; [setItem_calls] counts the calls of
    [localStorage.setItem]; and [console] is what was logged. *)

(** The item under [storageKey]: a text that [JSON.parse] reads as a
    document, a text on which [JSON.parse] throws, or the empty text.  A
    text that [JSON.parse] reads as a value that is not a document is
    outside the embedding. *)
Inductive item :=
| Text (d : Document)
| Unparsable
| Empty.

Record API := {
  data : Document;
  _cache : list (string * list SceneComment);
  _maxCacheSize : nat;
  localStorage : option item;
  setItem_throws : bool;
  setItem_calls : nat;
  console : list log_entry
}.

Definition set_data (d : Document) (st : API) : API :=
  {| data := d; _cache := _cache st; _maxCacheSize := _maxCacheSize st;
     localStorage := localStorage st; setItem_throws := setItem_throws st;
     setItem_calls := setItem_calls st; console := console st |}.

Definition set_cache (c : list (string * list SceneComment)) (st : API) : API :=
  {| data := data st; _cache := c; _maxCacheSize := _maxCacheSize st;
     localStorage := localStorage st; setItem_throws := setItem_throws st;
     setItem_calls := setItem_calls st; console := console st |}.

(** The surroundings change: from now on [localStorage.setItem] throws,
    or no longer throws. *)
Definition storage_refuses (b : bool) (st : API) : API :=
  {| data := data st; _cache := _cache st; _maxCacheSize := _maxCacheSize st;
     localStorage := localStorage st; setItem_throws := b;
     setItem_calls := setItem_calls st; console := console st |}.

#[export] Instance API_console : Console API :=
  fun e st =>
    {| data := data st; _cache := _cache st; _maxCacheSize := _maxCacheSize st;
       localStorage := localStorage st; setItem_throws := setItem_throws st;
       setItem_calls := setItem_calls st; console := console st ++ [e] |}.

(** [localStorage.setItem(storageKey, JSON.stringify(data))]: the call is
    counted; it throws when the storage refuses the write and stores the
    text of the document otherwise. *)
Definition localStorage_setItem : M API unit :=
  fun st =>
    if setItem_throws st then
      (Throw DOMException,
       {| data := data st; _cache := _cache st;
          _maxCacheSize := _maxCacheSize st;
          localStorage := localStorage st; setItem_throws := setItem_throws st;
          setItem_calls := S (setItem_calls st); console := console st |})
    else
      (Return tt,
       {| data := data st; _cache := _cache st;
          _maxCacheSize := _maxCacheSize st;
          localStorage := Some (Text (JSON_text (data st)));
          setItem_throws := setItem_throws st;
          setItem_calls := S (setItem_calls st); console := console st |}).

(** [data.comments = m] *)
Definition set_comments (m : list (string * list Comment)) (st : API) : API :=
  set_data {| comments := m; rest := rest (data st) |} st.

(** The own property [sceneName] of [data.comments]. *)
Definition scene (sceneName : string) (st : API) : option (list Comment) :=
  lookup sceneName (comments (data st)).

(** The names of the properties that [data.comments], as every object
    literal and every object that [JSON.parse] returns, inherits from
    [Object.prototype]. *)
Definition inherited (name : string) : bool :=
  existsb (String.eqb name)
    [ "constructor"; "toString"; "toLocaleString"; "valueOf";
      "hasOwnProperty"; "isPrototypeOf"; "propertyIsEnumerable";
      "__proto__"; "__defineGetter__"; "__defineSetter__";
      "__lookupGetter__"; "__lookupSetter__" ].

(** [data.comments[sceneName]]: the array of an own property; for a name
    that is not an own property, the function or object inherited from
    [Object.prototype], which is truthy and has none of [push], [filter],
    [find] and [map]; or undefined. *)
Inductive property :=
| Own (l : list Comment)
| Inherited
| Undefined.

Definition comments_at (sceneName : string) (st : API) : property :=
  match scene sceneName st with
  | Some l => Own l
  | None => if inherited sceneName then Inherited else Undefined
  end.

(** [data.comments[sceneName] = l] *)
Definition set_scene (sceneName : string) (l : list Comment) (st : API) : API :=
  set_comments (assign sceneName l (comments (data st))) st.

(** [_cache.clear()] *)
Definition cache_clear (st : API) : API := set_cache [] st.

(** [v || null] for a value that is a string or null. *)
Definition or_null (v : option string) : option string :=
  match v with
  | Some s => if JS.truthy s then Some s else None
  | None => None
  end.

(** [v || ''] *)
Definition or_empty (v : option string) : string :=
  match v with
  | Some s => s
  | None => EmptyString
  end.

(** [{...comment, position: new Cesium.Cartesian3(...)}] *)
Definition materialize (c : Comment) : SceneComment :=
  {| stored := c;
     position := Cesium.new_Cartesian3 (position_x c) (position_y c) (position_z c) |}.

(** [c.text = newText; c.timestamp = now] on the first element that
    satisfies [p], which is the element [find] returns. *)
Fixpoint update_found (p : Comment -> bool) (f : Comment -> Comment)
    (l : list Comment) : list Comment :=
  match l with
  | [] => []
  | c :: r => if p c then f c :: r else c :: update_found p f r
  end.

Definition edit (newText now : string) (c : Comment) : Comment :=
  {| id := id c; text := newText;
     position_x := position_x c; position_y := position_y c;
     position_z := position_z c; featureName := featureName c;
     timestamp := now; user := user c; szene := szene c |}.

(** [{ totalComments, scenes, scenesWithComments }] *)
Record Stats := {
  totalComments : nat;
  scenes : nat;
  scenesWithComments : list string
}.

(** [{ comments: {}, metadata: { version } }] *)
Definition getDefaultData (version : string) : Document :=
  {| comments := [];
     rest := [("metadata", JObj [("version", JStr version)])] |}.

(** ** Comments System 2.1.0: [LocalCommentsAPI] *)
Module V21.

(** [BAWUtils.utils.generateId()] and [new Date().toISOString()] read the
    surroundings; a method that calls them takes the values they return
    as its last arguments. *)

(** [loadFromStorage()]: the document that the stored text parses to;
    the default data when there is no item or the item is the empty text,
    and also, after the error was logged, when the text does not parse. *)
Definition loadFromStorage (STORAGE_VERSION : string) : API -> Document * API :=
  safeExecute
    (stored <- gets localStorage ;;
     match stored with
     | Some (Text d) => ret d
     | Some Unparsable => throw SyntaxError
     | Some Empty | None => ret (getDefaultData STORAGE_VERSION)
     end)
    ERROR_LOADING (getDefaultData STORAGE_VERSION).

(** The constructor, on a storage that holds [stored] and accepts
    writes.  [this.data] is not read before it is assigned. *)
Definition constructor (stored : option item) (STORAGE_VERSION : string)
    (CACHE_MAX_SIZE : nat) : API :=
  let this :=
    {| data := getDefaultData STORAGE_VERSION;
       _cache := [];
       _maxCacheSize := CACHE_MAX_SIZE;
       localStorage := stored;
       setItem_throws := false;
       setItem_calls := 0;
       console := [] |} in
  let '(d, this1) := loadFromStorage STORAGE_VERSION this in
  set_data d this1.

Definition saveToStorage : API -> bool * API :=
  safeExecute
    (localStorage_setItem ;;
     modify cache_clear ;;            (* Clear cache on save *)
     ret true)
    ERROR_STORAGE false.

Definition loadComments (sceneName : string) : API -> list SceneComment * API :=
  fun st =>
    if negb (JS.truthy sceneName) then
      ([], console_log
             (console_warn (Literal "No scene name provided to loadComments")) st)
    else
      (* Check cache first *)
      match lookup sceneName (_cache st) with
      | Some cached => (cached, st)
      | None =>
          let '(comments, st1) :=
            safeExecute
              (p <- gets (comments_at sceneName) ;;
               match p with
               | Own l => ret (map materialize l)
               | Undefined => ret []
               | Inherited => throw TypeError
               end)
              (Literal ("Error loading comments for scene: " ++ sceneName)) [] st in
          (* Cache with size limit *)
          let st2 :=
            if (_maxCacheSize st1 <=? length (_cache st1))%nat
            then set_cache (tl (_cache st1)) st1
            else st1 in
          (comments, set_cache (Map_set sceneName comments (_cache st2)) st2)
      end.

Definition saveComment (sceneName commentText : string)
    (position : Cesium.Cartesian3) (featureName : option string)
    (userName : string) (generatedId now : string)
    : API -> option SceneComment * API :=
  safeExecute
    (modify (fun st =>
       match comments_at sceneName st with
       | Undefined => set_scene sceneName [] st
       | _ => st
       end) ;;
     let newComment :=
       {| id := generatedId;
          text := commentText;
          position_x := Some (Cesium.x position);
          position_y := Some (Cesium.y position);
          position_z := Some (Cesium.z position);
          featureName := or_null featureName;
          timestamp := now;
          user := userName;
          szene := sceneName |} in
     arr <- gets (comments_at sceneName) ;;
     match arr with
     | Own l => modify (set_scene sceneName (l ++ [newComment]))
     | _ => throw TypeError
     end ;;
     call saveToStorage ;;
     ret (Some {| stored := newComment; position := position |}))
    (Literal "Error saving comment") None.

Definition updateComment (commentId newText sceneName : string) (now : string)
    : API -> bool * API :=
  safeExecute
    (comments <- gets (comments_at sceneName) ;;
     match comments with
     | Undefined => throw (Error ERROR_SCENE_NOT_FOUND)
     | Inherited => throw TypeError
     | Own l =>
         match find (fun c => String.eqb (id c) commentId) l with
         | None => throw (Error ERROR_COMMENT_NOT_FOUND)
         | Some _ =>
             modify (set_scene sceneName
                       (update_found (fun c => String.eqb (id c) commentId)
                                     (edit newText now) l)) ;;
             call saveToStorage ;;
             ret true
         end
     end)
    (Literal "Error updating comment") false.

Definition deleteComment (commentId sceneName : string) : API -> bool * API :=
  safeExecute
    (arr <- gets (comments_at sceneName) ;;
     match arr with
     | Undefined => throw (Error ERROR_SCENE_NOT_FOUND)
     | Inherited => throw TypeError
     | Own l =>
         let originalLength := length l in
         let l' := filter (fun c => negb (String.eqb (id c) commentId)) l in
         modify (set_scene sceneName l') ;;
         let deleted := (length l' <? originalLength)%nat in
         (if deleted then call saveToStorage ;; ret tt else ret tt) ;;
         ret deleted
     end)
    (Literal "Error deleting comment") false.

(** [String(value).replace(...)]: every double quote is doubled. *)
Definition _escapeCsvValue (value : string) : string :=
  JS.replace_quotes value.

Definition quoted (s : string) : string :=
  String JS.quote s ++ String JS.quote EmptyString.

Definition headers : list string :=
  ["Szene"; "Kommentar"; "Position_X"; "Position_Y"; "Position_Z";
   "Feature"; "Datum"; "ID"; "Benutzer"].

(** [n.toFixed(6)] for a coordinate; on null it throws. *)
Definition coordinate_toFixed (v : option JS.number) : completion string :=
  match v with
  | Some n => Return (JS.toFixed 6 n)
  | None => Throw TypeError
  end.

(** The nine fields of the row of one comment. *)
Definition row_fields (sceneName : string) (comment : Comment)
    : completion (list string) :=
  match coordinate_toFixed (position_x comment),
        coordinate_toFixed (position_y comment),
        coordinate_toFixed (position_z comment) with
  | Return fx, Return fy, Return fz =>
      Return [ quoted (_escapeCsvValue sceneName);
               quoted (_escapeCsvValue (text comment));
               fx; fy; fz;
               quoted (_escapeCsvValue (or_empty (featureName comment)));
               quoted (timestamp comment);
               quoted (id comment);
               quoted (_escapeCsvValue (user comment)) ]
  | Throw e, _, _ | _, Throw e, _ | _, _, Throw e => Throw e
  end.

(** The two nested [forEach] loops: one row per comment, scene after
    scene; the first throw ends them. *)
Fixpoint rows_of (entries : list (string * Comment)) : completion (list string) :=
  match entries with
  | [] => Return []
  | (sceneName, comment) :: r =>
      match row_fields sceneName comment with
      | Throw e => Throw e
      | Return row =>
          match rows_of r with
          | Throw e => Throw e
          | Return rows => Return (JS.join "," row :: rows)
          end
      end
  end.

(** [Object.entries(data.comments)], flattened to the comments. *)
Definition entries (d : Document) : list (string * Comment) :=
  flat_map (fun kv => map (pair (fst kv)) (snd kv)) (comments d).

Definition exportCSV_lines (d : Document) : completion (list string) :=
  match rows_of (entries d) with
  | Throw e => Throw e
  | Return rows => Return (JS.join "," headers :: rows)
  end.

Definition exportCSV : API -> string * API :=
  safeExecute
    (d <- gets data ;;
     match exportCSV_lines d with
     | Throw e => throw e
     | Return rows => ret (JS.join (String JS.LF EmptyString) rows)
     end)
    (Literal "Error exporting CSV") "Error".

(** The loop of [_parseCSVLine] over the characters of the line. *)
Fixpoint parse_chars (line : string) (result : list string) (current : string)
    (inQuotes : bool) : list string :=
  match line with
  | EmptyString => result ++ [current]
  | String char r =>
      if Ascii.eqb char JS.quote then
        parse_chars r result current (negb inQuotes)
      else if Ascii.eqb char JS.comma && negb inQuotes then
        parse_chars r (result ++ [current]) EmptyString inQuotes
      else
        parse_chars r result (current ++ String char EmptyString) inQuotes
  end.

Definition _parseCSVLine (line : string) : list string :=
  parse_chars line [] EmptyString false.

(** [values[i]] of an array that has at least nine elements. *)
Definition at_index (values : list string) (i : nat) : string :=
  nth i values EmptyString.

(** The comment that [importCSV] builds from the values of one row. *)
Definition comment_of_values (values : list string) : Comment :=
  {| text := at_index values 1;
     position_x := Some (JS.parseFloat (at_index values 2));
     position_y := Some (JS.parseFloat (at_index values 3));
     position_z := Some (JS.parseFloat (at_index values 4));
     featureName := or_null (Some (at_index values 5));
     timestamp := at_index values 6;
     id := at_index values 7;
     user := at_index values 8;
     szene := at_index values 0 |}.

(** One turn of the loop of [importCSV]. *)
Definition import_line (line : string) : M API unit :=
  let values := _parseCSVLine line in
  if (9 <=? length values)%nat then
    let sceneName := at_index values 0 in
    modify (fun st =>
      match comments_at sceneName st with
      | Undefined => set_scene sceneName [] st
      | _ => st
      end) ;;
    arr <- gets (comments_at sceneName) ;;
    match arr with
    | Own l => modify (set_scene sceneName (l ++ [comment_of_values values]))
    | _ => throw TypeError
    end
  else ret tt.

Fixpoint import_lines (lines : list string) : M API unit :=
  match lines with
  | [] => ret tt
  | line :: r => import_line line ;; import_lines r
  end.

(** [csvData.split(LF).filter(line => line.trim())] *)
Definition nonblank_lines (csvData : string) : list string :=
  filter (fun line => JS.truthy (JS.trim line)) (JS.split JS.LF csvData).

Definition importCSV (csvData : string) : API -> bool * API :=
  safeExecute
    (let lines := nonblank_lines csvData in
     if (length lines <? 2)%nat then
       throw (Error (Literal "CSV must have at least a header and one data row"))
     else
       modify (set_comments []) ;;
       import_lines (skipn 1 lines) ;;
       call saveToStorage ;;
       modify cache_clear ;;
       ret true)
    ERROR_FILE_IMPORT false.

Definition clearAllData (STORAGE_VERSION : string) (st : API) : API :=
  let st1 := set_data (getDefaultData STORAGE_VERSION) st in
  let st2 := cache_clear st1 in
  snd (saveToStorage st2).

Definition getStats (st : API) : Stats :=
  let scenes := keys (comments (data st)) in
  let totalComments :=
    fold_left (fun total sc =>
                 match scene sc st with
                 | Some l => total + length l
                 | None => total
                 end)%nat scenes 0%nat in
  {| totalComments := totalComments;
     scenes := length scenes;
     scenesWithComments := scenes |}.

(** *** JSON export and import

    [JSON.stringify] and [JSON.parse] are the runtime's.  [JSON_parse]
    gives [None] where [JSON.parse] throws a [SyntaxError]. *)
Section JSON.
Variable JSON_stringify : Document -> string.
Variable JSON_parse : string -> option json.


(** The first two statements of [importData]: parse, then check the
    shape. *)
Definition parse_and_check (jsonData : string) : completion json :=
  match JSON_parse jsonData with
  | None => Throw SyntaxError
  | Some parsed =>
      match get_property "comments" parsed with
      | Throw e => Throw e
      | Return c =>
          if negb (truthy_value c) || negb (typeof_object c)
          then Throw (Error ERROR_INVALID_JSON)
          else Return parsed
      end
  end.

(** [importData].  The assignment [this.data = parsed] needs the parsed
    value as a document.  For a value that passes the check and is not of
    the durable schema the code installs the value and returns true; the
    embedding has no state for that and gives [None], which says nothing
    about the code. *)
Definition importData (jsonData : string) (st : API) : option (bool * API) :=
  match parse_and_check jsonData with
  | Throw e => Some (safeExecute (throw e) ERROR_FILE_IMPORT false st)
  | Return parsed =>
      match fromJSON parsed with
      | None => None
      | Some d =>
          Some (safeExecute
                  (modify (set_data d) ;;
                   call saveToStorage ;;
                   modify cache_clear ;;
                   ret true)
                  ERROR_FILE_IMPORT false st)
      end
  end.
End JSON.

End V21.

(** ** Comments System 2.0.0: [LocalCommentsAPI]

    The methods of the earlier version are not wrapped in [safeExecute]:
    they throw.  [saveComment] takes the values of [Date.now()] and of
    [new Date().toISOString()] as its last arguments. *)
Module V20.

Definition loadFromStorage : API -> Document * API :=
  safeExecute
    (stored <- gets localStorage ;;
     match stored with
     | Some (Text d) => ret d
     | Some Unparsable => throw SyntaxError
     | Some Empty | None => ret (getDefaultData "1.0")
     end)
    (Literal "Error loading from storage") (getDefaultData "1.0").

Definition constructor (stored : option item) : API :=
  let this :=
    {| data := getDefaultData "1.0";
       _cache := [];
       _maxCacheSize := 0;
       localStorage := stored;
       setItem_throws := false;
       setItem_calls := 0;
       console := [] |} in
  let '(d, this1) := loadFromStorage this in
  set_data d this1.

Definition saveToStorage : API -> bool * API :=
  safeExecute
    (localStorage_setItem ;;
     modify cache_clear ;;            (* Clear cache on save *)
     ret true)
    (Literal "Error saving to storage") false.

Definition loadComments (sceneName : string) : M API (list SceneComment) :=
  (* Check cache first *)
  cached <- gets (fun st => lookup sceneName (_cache st)) ;;
  match cached with
  | Some l => ret l
  | None =>
      p <- gets (comments_at sceneName) ;;
      comments <-
        match p with
        | Own l => ret (map materialize l)
        | Undefined => ret []
        | Inherited => throw TypeError
        end ;;
      (* Cache the result *)
      modify (fun st => set_cache (Map_set sceneName comments (_cache st)) st) ;;
      ret comments
  end.

Definition saveComment (sceneName comment : string)
    (position : Cesium.Cartesian3) (featureName : option string)
    (userName : string) (Date_now : N) (now : string) : M API SceneComment :=
  modify (fun st =>
    match comments_at sceneName st with
    | Undefined => set_scene sceneName [] st
    | _ => st
    end) ;;
  let newComment :=
    {| id := JS.decimal Date_now;          (* Date.now().toString() *)
       text := comment;
       position_x := Some (Cesium.x position);
       position_y := Some (Cesium.y position);
       position_z := Some (Cesium.z position);
       featureName := or_null featureName;
       timestamp := now;
       user := userName;
       szene := sceneName |} in
  arr <- gets (comments_at sceneName) ;;
  match arr with
  | Own l => modify (set_scene sceneName (l ++ [newComment]))
  | _ => throw TypeError
  end ;;
  call saveToStorage ;;
  ret {| stored := newComment; position := position |}.

Definition deleteComment (commentId sceneName : string) : M API bool :=
  arr <- gets (comments_at sceneName) ;;
  match arr with
  | Undefined => throw (Error (Literal "Scene not found"))
  | Inherited => throw TypeError
  | Own l =>
      modify (set_scene sceneName
                (filter (fun c => negb (String.eqb (id c) commentId)) l)) ;;
      call saveToStorage ;;
      ret true
  end.

Definition parseCSVLine : string -> list string := V21._parseCSVLine.

Definition importCSV (csvData : string) : M API bool :=
  let lines := V21.nonblank_lines csvData in
  if (length lines <? 2)%nat then
    throw (Error (Literal "CSV must have at least a header and one data row"))
  else
    modify (set_comments []) ;;
    V21.import_lines (skipn 1 lines) ;;
    call saveToStorage ;;
    ret true.

Section JSON.
Variable JSON_parse : string -> option json.

(** [importData] of version 2.0.0; [None] as in [V21.importData]. *)
Definition importData (jsonData : string) (st : API)
    : option (completion bool * API) :=
  match JSON_parse jsonData with
  | None => Some (Throw SyntaxError, st)
  | Some parsed =>
      match get_property "comments" parsed with
      | Throw e => Some (Throw e, st)
      | Return c =>
          if negb (truthy_value c) || negb (typeof_object c)
          then Some (Throw (Error (Literal "Invalid data structure")), st)
          else
            match fromJSON parsed with
            | None => None
            | Some d =>
                Some ((modify (set_data d) ;;
                       call saveToStorage ;;
                       ret true) st)
            end
      end
  end.
End JSON.

End V20.

(** ** [CommentsManager]: the placement workflow

    The fields of the manager that the workflow reads and writes, with the
    parts of the page and of the renderer that it touches: the value of the
    element [commentInput] ([None] when the element is missing), the two
    primitive collections (null before [init]), the viewer, and the toasts
    that were shown.  The console is the one of [api]. *)

Record Billboard := {
  billboard_position : Cesium.Cartesian3;
  billboard_id : string
}.

Record Label := {
  label_position : Cesium.Cartesian3;
  label_text : string;
  label_id : string;
  label_show : bool
}.

Record Viewer := {
  requestRenderMode : bool;
  renders : nat               (* calls of [scene.requestRender] *)
}.

(** [currentSceneComments] is the array that [loadComments] returned,
    which is the array that the cache of the store holds for the scene,
    and [addComment] pushes onto it.  The embedding keeps the list of the
    manager and the entries of the cache as two values.  The two agree
    with the code whenever the cache was emptied before the push, as it
    is when [saveComment] has written to the storage; what is stated
    about the cache of the store after [addComment] is stated for that
    case. *)
Record Manager := {
  api : API;
  isCommentMode : bool;
  pendingPosition : option Cesium.Cartesian3;
  pendingFeature : option string;
  currentSceneComments : list SceneComment;
  billboards : option (list Billboard);
  labels : option (list Label);
  cachedCommentIcon : bool;
  viewer : option Viewer;
  currentGroup : option string;     (* the [name] of the group *)
  userName : string;
  commentInput : option string;
  toasts : list (message * string)
}.

Definition with_api (a : API) (m : Manager) : Manager :=
  {| api := a; isCommentMode := isCommentMode m;
     pendingPosition := pendingPosition m; pendingFeature := pendingFeature m;
     currentSceneComments := currentSceneComments m;
     billboards := billboards m; labels := labels m;
     cachedCommentIcon := cachedCommentIcon m; viewer := viewer m;
     currentGroup := currentGroup m; userName := userName m;
     commentInput := commentInput m; toasts := toasts m |}.

Definition with_mode (b : bool) (m : Manager) : Manager :=
  {| api := api m; isCommentMode := b;
     pendingPosition := pendingPosition m; pendingFeature := pendingFeature m;
     currentSceneComments := currentSceneComments m;
     billboards := billboards m; labels := labels m;
     cachedCommentIcon := cachedCommentIcon m; viewer := viewer m;
     currentGroup := currentGroup m; userName := userName m;
     commentInput := commentInput m; toasts := toasts m |}.

Definition with_pending (p : option Cesium.Cartesian3) (f : option string)
    (m : Manager) : Manager :=
  {| api := api m; isCommentMode := isCommentMode m;
     pendingPosition := p; pendingFeature := f;
     currentSceneComments := currentSceneComments m;
     billboards := billboards m; labels := labels m;
     cachedCommentIcon := cachedCommentIcon m; viewer := viewer m;
     currentGroup := currentGroup m; userName := userName m;
     commentInput := commentInput m; toasts := toasts m |}.

Definition with_comments (l : list SceneComment) (m : Manager) : Manager :=
  {| api := api m; isCommentMode := isCommentMode m;
     pendingPosition := pendingPosition m; pendingFeature := pendingFeature m;
     currentSceneComments := l;
     billboards := billboards m; labels := labels m;
     cachedCommentIcon := cachedCommentIcon m; viewer := viewer m;
     currentGroup := currentGroup m; userName := userName m;
     commentInput := commentInput m; toasts := toasts m |}.

Definition with_visuals (b : option (list Billboard)) (l : option (list Label))
    (icon : bool) (m : Manager) : Manager :=
  {| api := api m; isCommentMode := isCommentMode m;
     pendingPosition := pendingPosition m; pendingFeature := pendingFeature m;
     currentSceneComments := currentSceneComments m;
     billboards := b; labels := l;
     cachedCommentIcon := icon; viewer := viewer m;
     currentGroup := currentGroup m; userName := userName m;
     commentInput := commentInput m; toasts := toasts m |}.

Definition with_viewer (v : option Viewer) (m : Manager) : Manager :=
  {| api := api m; isCommentMode := isCommentMode m;
     pendingPosition := pendingPosition m; pendingFeature := pendingFeature m;
     currentSceneComments := currentSceneComments m;
     billboards := billboards m; labels := labels m;
     cachedCommentIcon := cachedCommentIcon m; viewer := v;
     currentGroup := currentGroup m; userName := userName m;
     commentInput := commentInput m; toasts := toasts m |}.

Definition with_input (v : option string) (m : Manager) : Manager :=
  {| api := api m; isCommentMode := isCommentMode m;
     pendingPosition := pendingPosition m; pendingFeature := pendingFeature m;
     currentSceneComments := currentSceneComments m;
     billboards := billboards m; labels := labels m;
     cachedCommentIcon := cachedCommentIcon m; viewer := viewer m;
     currentGroup := currentGroup m; userName := userName m;
     commentInput := v; toasts := toasts m |}.

(** [BAWUtils.ui.showToast(message, type)] *)
Definition showToast (msg : message) (type : string) (m : Manager) : Manager :=
  {| api := api m; isCommentMode := isCommentMode m;
     pendingPosition := pendingPosition m; pendingFeature := pendingFeature m;
     currentSceneComments := currentSceneComments m;
     billboards := billboards m; labels := labels m;
     cachedCommentIcon := cachedCommentIcon m; viewer := viewer m;
     currentGroup := currentGroup m; userName := userName m;
     commentInput := commentInput m; toasts := toasts m ++ [(msg, type)] |}.

#[export] Instance Manager_console : Console Manager :=
  fun e m => with_api (console_log e (api m)) m.

(** A call of a method of [this.api]. *)
Definition on_api {A} (f : API -> A * API) : M Manager A :=
  fun m => let '(a, st) := f (api m) in (Return a, with_api st m).

Definition on_api_throwing {A} (f : M API A) : M Manager A :=
  fun m => let '(r, st) := f (api m) in (r, with_api st m).

(** The body of [addCommentVisual], the same in both versions: create the
    icon once, add a billboard and a hidden label tagged with the id. *)
Definition addCommentVisual_body (comment : SceneComment) : M Manager unit :=
  modify (fun m => with_visuals (billboards m) (labels m) true m) ;;
  bs <- gets billboards ;;
  match bs with
  | None => throw TypeError
  | Some b =>
      modify (fun m =>
        with_visuals
          (Some (b ++ [{| billboard_position := position comment;
                          billboard_id := "comment_" ++ id (stored comment) |}]))
          (labels m) (cachedCommentIcon m) m)
  end ;;
  let t := text (stored comment) in
  let previewText :=
    if (30 <? String.length t)%nat
    then (String.substring 0 30 t ++ "...")%string else t in
  ls <- gets labels ;;
  match ls with
  | None => throw TypeError
  | Some l =>
      modify (fun m =>
        with_visuals (billboards m)
          (Some (l ++ [{| label_position := position comment;
                          label_text := previewText;
                          label_id := "comment_label_" ++ id (stored comment);
                          label_show := false |}]))
          (cachedCommentIcon m) m)
  end.

(** [scene.requestRender()] when the viewer is in request-render mode. *)
Definition request_render : M Manager unit :=
  v <- gets viewer ;;
  match v with
  | None => throw TypeError
  | Some vw =>
      if requestRenderMode vw then
        modify (with_viewer (Some {| requestRenderMode := true;
                                     renders := S (renders vw) |}))
      else ret tt
  end.

Module CommentsManager21.

Definition addCommentVisual (comment : SceneComment) : Manager -> unit * Manager :=
  safeExecute (addCommentVisual_body comment)
              (Literal "Error adding comment visual") tt.

(** [addComment()].  [updateCommentsDisplay] and [updateDataStatus] only
    write to the page. *)
Definition addComment (generatedId now : string) (m : Manager) : Manager :=
  match commentInput m with
  | None => m
  | Some value =>
      let commentText := JS.trim value in
      if negb (JS.truthy commentText) then
        showToast COMMENT_NO_TEXT "warning" m
      else
        match pendingPosition m with
        | None =>
            showToast (Literal "Bitte klicken Sie zuerst auf die Karte") "warning" m
        | Some pending =>
            let '(success, m1) :=
              safeExecute
                (group <- gets currentGroup ;;
                 match group with
                 | None => throw TypeError
                 | Some name =>
                     feature <- gets pendingFeature ;;
                     user <- gets userName ;;
                     savedComment <-
                       on_api (V21.saveComment name commentText pending feature
                                               user generatedId now) ;;
                     match savedComment with
                     | Some saved =>
                         modify (fun m =>
                           with_comments (currentSceneComments m ++ [saved]) m) ;;
                         call (addCommentVisual saved) ;;
                         modify (with_input (Some EmptyString)) ;;
                         modify (with_pending None None) ;;
                         modify (showToast COMMENT_SAVED "success") ;;
                         request_render ;;
                         ret true
                     | None => ret false
                     end
                 end)
                (Literal "Error adding comment") false m in
            if negb success then
              showToast (Literal "Fehler beim Speichern des Kommentars") "error" m1
            else m1
        end
  end.

End CommentsManager21.

Module CommentsManager20.

Definition exitCommentMode (m : Manager) : Manager :=
  with_pending None None (with_mode false m).

(** [addComment()], with the values of [Date.now()] and of
    [new Date().toISOString()].  The toast of the [catch] block is
    recorded by the literal part of its text. *)
Definition addComment (Date_now : N) (now : string) (m : Manager) : Manager :=
  match pendingPosition m with
  | None => m
  | Some pending =>
      let text := option_map JS.trim (commentInput m) in
      if negb (JS.truthy (or_empty text)) then
        showToast (Literal "Bitte geben Sie einen Kommentar ein") "warning" m
      else if negb (JS.truthy (userName m)) then
        showToast (Literal "Bitte geben Sie Ihren Namen ein") "warning" m
      else
        match currentGroup m with
        | None =>
            showToast (Literal "Bitte laden Sie zuerst eine Szene") "warning" m
        | Some name =>
            let body : M Manager unit :=
              comment <-
                on_api_throwing
                  (V20.saveComment name (or_empty text) pending
                                   (pendingFeature m) (userName m) Date_now now) ;;
              modify (fun m => with_comments (currentSceneComments m ++ [comment]) m) ;;
              addCommentVisual_body comment ;;
              modify (fun m =>
                match commentInput m with
                | Some _ => with_input (Some EmptyString) m
                | None => m
                end) ;;
              modify exitCommentMode ;;
              modify (showToast (Literal "Kommentar gespeichert!") "success") in
            match body m with
            | (Return _, m1) => m1
            | (Throw e, m1) =>
                showToast (Literal "Fehler beim Speichern: ") "error"
                  (console_log
                     (console_error (Literal "Failed to save comment:") e) m1)
            end
        end
  end.

End CommentsManager20.

(** ** Definitions for the statements *)

(** A position, an empty store, and a store with one comment whose text
    holds a comma and two double quotes. *)
Definition example_position : Cesium.Cartesian3 :=
  {| Cesium.x := JS.of_Z 10; Cesium.y := JS.of_Z 20; Cesium.z := JS.of_Z 5 |}.

Definition empty_store : API := V21.constructor None "1.0" 50.

Definition text_with_quotes : string :=
  "He said, " ++ String JS.quote ("hi" ++ String JS.quote EmptyString).

Definition example_store : API :=
  snd (V21.saveComment "Lock A" text_with_quotes example_position None "Anna"
                       "1700000000000" "2023-11-14T22:13:20.000Z" empty_store).

(** The comment of the example store. *)
Definition example_comment : Comment :=
  {| id := "1700000000000";
     text := text_with_quotes;
     position_x := Some (JS.of_Z 10);
     position_y := Some (JS.of_Z 20);
     position_z := Some (JS.of_Z 5);
     featureName := None;
     timestamp := "2023-11-14T22:13:20.000Z";
     user := "Anna";
     szene := "Lock A" |}.

(** The row of a comment as [exportCSV] writes it, given its three
    coordinates: six fields in double quotes, four of them with their
    double quotes doubled, and three bare fields of [toFixed(6)]. *)
Definition csv_row (sceneName : string) (c : Comment) (px py pz : JS.number)
    : list string :=
  [ V21.quoted (JS.replace_quotes sceneName);
    V21.quoted (JS.replace_quotes (text c));
    JS.toFixed 6 px;
    JS.toFixed 6 py;
    JS.toFixed 6 pz;
    V21.quoted (JS.replace_quotes (or_empty (featureName c)));
    V21.quoted (timestamp c);
    V21.quoted (id c);
    V21.quoted (JS.replace_quotes (user c)) ].

(** The ids of all comments of the document. *)
Definition ids (st : API) : list string := map id (all_comments (data st)).

(** A field that starts and ends with a double quote. *)
Definition wrapped_in_quotes (f : string) : bool :=
  match f with
  | String c r =>
      Ascii.eqb c JS.quote &&
      match String.length r with
      | O => false
      | S n => String.eqb (String.substring n 1 r) (String JS.quote EmptyString)
      end
  | EmptyString => false
  end.

Fixpoint all_digits (s : string) : bool :=
  match s with
  | EmptyString => true
  | String c r => JS.is_digit c && all_digits r
  end.

(** An optional minus sign, at least one digit, a point, six digits. *)
Definition six_decimals (s : string) : Prop :=
  exists sign ip fp : string,
    s = (sign ++ ip ++ "." ++ fp)%string /\
    (sign = "" \/ sign = "-") /\
    ip <> "" /\ all_digits ip = true /\
    all_digits fp = true /\ String.length fp = 6%nat.

(** A number that is finite and below [10^21] in magnitude. *)
Definition below_1e21 (x : JS.number) : bool :=
  match x with
  | S754_zero _ => true
  | S754_finite _ m e => (JS.magnitude_floor m e <? 10 ^ 21)%N
  | _ => false
  end.

(** The shape of a data row of the export: the comment has its three
    coordinates; the row is the nine fields of [csv_row] joined by commas;
    the fields 0, 1, 5, 6, 7 and 8 are wrapped in double quotes; and a
    coordinate that is finite and below [10^21] has six decimals. *)
Definition is_row_of (e : string * Comment) (row : string) : Prop :=
  exists px py pz,
    position_x (snd e) = Some px /\ position_y (snd e) = Some py /\
    position_z (snd e) = Some pz /\
    row = JS.join "," (csv_row (fst e) (snd e) px py pz) /\
    length (csv_row (fst e) (snd e) px py pz) = 9%nat /\
    (forall i, In i [0; 1; 5; 6; 7; 8]%nat ->
       wrapped_in_quotes (nth i (csv_row (fst e) (snd e) px py pz) "") = true) /\
    (forall v, In v [px; py; pz] -> below_1e21 v = true ->
       six_decimals (JS.toFixed 6 v)).

(** The arguments of one call of [saveComment]; [call_clock] is the value of
    [Date.now()] in version 2.0.0. *)
Record save_call := {
  call_scene : string;
  call_text : string;
  call_position : Cesium.Cartesian3;
  call_feature : option string;
  call_user : string;
  call_clock : N;
  call_now : string
}.

(** The store after a sequence of [saveComment] calls of version 2.0.0. *)
Fixpoint run_saves (calls : list save_call) (st : API) : API :=
  match calls with
  | [] => st
  | c :: r =>
      run_saves r
        (snd (V20.saveComment (call_scene c) (call_text c) (call_position c)
                              (call_feature c) (call_user c) (call_clock c)
                              (call_now c) st))
  end.

(** The arguments of one call of [saveComment] of version 2.1.0, with the
    id that [generateId] returned. *)
Record save_call21 := {
  call21_scene : string;
  call21_text : string;
  call21_position : Cesium.Cartesian3;
  call21_feature : option string;
  call21_user : string;
  call21_id : string;
  call21_now : string
}.

Fixpoint run_saves21 (calls : list save_call21) (st : API) : API :=
  match calls with
  | [] => st
  | c :: r =>
      run_saves21 r
        (snd (V21.saveComment (call21_scene c) (call21_text c) (call21_position c)
                              (call21_feature c) (call21_user c) (call21_id c)
                              (call21_now c) st))
  end.

(** Two calls in two scenes in the same millisecond, and two calls a
    millisecond apart. *)
Definition call_at (sceneName : string) (clock : N) : save_call :=
  {| call_scene := sceneName; call_text := "Leak at joint";
     call_position := example_position; call_feature := None;
     call_user := "Anna"; call_clock := clock;
     call_now := "2023-11-14T22:13:20.000Z" |}.

Definition same_millisecond : list save_call :=
  [call_at "Lock A" 1700000000000; call_at "Lock B" 1700000000000].

Definition next_millisecond : list save_call :=
  [call_at "Lock A" 1700000000000; call_at "Lock B" 1700000000001].

(** The rows of a CSV text that [importCSV] turns into comments: the
    parsed data lines with at least nine values. *)
Definition imported_rows (data_lines : list string) : list (list string) :=
  filter (fun values => (9 <=? length values)%nat)
         (map V21._parseCSVLine data_lines).

(** What one turn of the loop of [importCSV] does to [data.comments] for
    a row of at least nine values: the comment goes to the end of the array
    of its scene, which is created at the end of the map when missing. *)
Definition add_row (m : list (string * list Comment)) (values : list string)
    : list (string * list Comment) :=
  let sceneName := V21.at_index values 0 in
  assign sceneName
         (match lookup sceneName m with Some l => l | None => [] end
          ++ [V21.comment_of_values values]) m.

(** The rows name no scene that is inherited from [Object.prototype]. *)
Definition rows_named_safely (rows : list (list string)) : Prop :=
  forall values, In values rows -> inherited (V21.at_index values 0) = false.

(** The rows among [rows] whose scene is [sceneName]. *)
Definition rows_of_scene (sceneName : string) (rows : list (list string))
    : list (list string) :=
  filter (fun values => String.eqb (V21.at_index values 0) sceneName) rows.

(** The comment that a row of at least nine values stands for, written
    out field by field: scene, text, three coordinates, feature name,
    timestamp, id and author, in this order; the coordinates are read as
    numbers, and an empty feature name is no feature name.  A row of
    fewer than nine values stands for no comment. *)
Definition comment_of_row (values : list string) : option Comment :=
  match values with
  | sceneName :: commentText :: px :: py :: pz :: feature :: time :: commentId
      :: author :: _ =>
      Some {| id := commentId;
              text := commentText;
              position_x := Some (JS.parseFloat px);
              position_y := Some (JS.parseFloat py);
              position_z := Some (JS.parseFloat pz);
              featureName := match feature with
                             | EmptyString => None
                             | _ => Some feature
                             end;
              timestamp := time;
              user := author;
              szene := sceneName |}
  | _ => None
  end.

(** The comments that the data lines stand for, in the order of the
    lines, and those of them that belong to one scene. *)
Definition comments_of_lines (data_lines : list string) : list Comment :=
  flat_map (fun line =>
              match comment_of_row (V21._parseCSVLine line) with
              | Some c => [c]
              | None => []
              end) data_lines.

Definition comments_of_scene (sceneName : string) (data_lines : list string)
    : list Comment :=
  filter (fun c => String.eqb (szene c) sceneName) (comments_of_lines data_lines).

(** The outcome of [importCSV] on a text whose data lines are
    [data_lines]: the result is [true]; every scene holds, in the order
    of the lines, the comments of the lines of at least nine values that
    name it, and a scene that no such line names has no entry; the
    document holds exactly the comments of those lines, so at most as
    many as there are data lines; the rest of the document is kept; the
    cache is empty; when the storage accepts the write it holds the new
    document and nothing is logged.  Version 2.0.0 returns [true] with the
    same document. *)
Definition imports_rows_of_nine (csvData : string) (st : API)
    (data_lines : list string) : Prop :=
  let '(ok, st') := V21.importCSV csvData st in
  ok = true /\
  (forall s, scene s st' =
             match comments_of_scene s data_lines with
             | [] => None
             | l => Some l
             end) /\
  Permutation (all_comments (data st')) (comments_of_lines data_lines) /\
  (length (all_comments (data st')) <= length data_lines)%nat /\
  rest (data st') = rest (data st) /\
  _cache st' = [] /\
  (setItem_throws st = false ->
   localStorage st' = Some (Text (JSON_text (data st'))) /\
   console st' = console st) /\
  fst (V20.importCSV csvData st) = Return true /\
  data (snd (V20.importCSV csvData st)) = data st'.

(** No data line stands for a comment whose scene is a name inherited
    from [Object.prototype]. *)
Definition no_inherited_scene (data_lines : list string) : Prop :=
  forall c, In c (comments_of_lines data_lines) -> inherited (szene c) = false.

(** A CSV text with a header and two data lines, the second of which has
    two values only. *)
Definition csv_with_short_row : string :=
  "Szene,Kommentar,Position_X,Position_Y,Position_Z,Feature,Datum,ID,Benutzer"
  ++ String JS.LF
       ("Lock A,Leak at joint,10.000000,20.000000,5.000000,,2024-01-01T00:00:00.000Z,17,Anna"
        ++ String JS.LF "Lock A,too short").

(** A CSV text with a header and one data line of nine values whose scene
    is a name inherited from [Object.prototype]. *)
Definition csv_with_inherited_scene : string :=
  "Szene,Kommentar,Position_X,Position_Y,Position_Z,Feature,Datum,ID,Benutzer"
  ++ String JS.LF
       "toString,Leak at joint,10.000000,20.000000,5.000000,,2024-01-01T00:00:00.000Z,17,Anna".

(** The state after [saveToStorage] of version 2.1.0 and of version
    2.0.0. *)
Definition after_save (st : API) : API := snd (V21.saveToStorage st).
Definition after_save20 (st : API) : API := snd (V20.saveToStorage st).

(** The object [newComment] of [saveComment]. *)
Definition new_comment (sceneName commentText : string)
    (pos : Cesium.Cartesian3) (feature : option string)
    (userName generatedId now : string) : Comment :=
  {| id := generatedId;
     text := commentText;
     position_x := Some (Cesium.x pos);
     position_y := Some (Cesium.y pos);
     position_z := Some (Cesium.z pos);
     featureName := or_null feature;
     timestamp := now;
     user := userName;
     szene := sceneName |}.

(** [data.comments] after a comment was pushed to the array of its scene. *)
Definition push_comment (sceneName : string) (c : Comment)
    (m : list (string * list Comment)) : list (string * list Comment) :=
  assign sceneName
         (match lookup sceneName m with Some l => l | None => [] end ++ [c]) m.

(** What [getComments] returns for a scene, read from the document. *)
Definition scene_comments (sceneName : string) (st : API) : list SceneComment :=
  map materialize (match scene sceneName st with Some l => l | None => [] end).

(** [saveComment] and then [loadComments] of the same scene: the call
    returns a record; the list read afterwards is the list of the scene
    before the call with that one record at its end; the record has the
    scene, the text, the position, the feature name (null for an empty
    one, the same otherwise) and the author of the call, the time of the
    call, and the id that was generated. *)
Definition reads_back_new_record (st : API) (sceneKey text0 : string)
    (pos : Cesium.Cartesian3) (feature : option string)
    (author generatedId now : string) : Prop :=
  let '(saved, st1) :=
    V21.saveComment sceneKey text0 pos feature author generatedId now st in
  let '(after, _) := V21.loadComments sceneKey st1 in
  exists record,
    saved = Some record /\
    after = scene_comments sceneKey st ++ [record] /\
    szene (stored record) = sceneKey /\
    text (stored record) = text0 /\
    position record = pos /\
    featureName (stored record) = or_null feature /\
    (feature <> Some EmptyString -> featureName (stored record) = feature) /\
    user (stored record) = author /\
    timestamp (stored record) = now /\
    id (stored record) = generatedId.

(** The example store after its scene was read, so that the cache holds
    it, on a storage that has begun to refuse writes. *)
Definition cached_store_on_full_storage : API :=
  storage_refuses true (snd (V21.loadComments "Lock A" example_store)).

(** A manager in which a position was chosen and the input is blank. *)
Definition example_manager : Manager :=
  {| api := example_store;
     isCommentMode := true;
     pendingPosition := Some example_position;
     pendingFeature := Some "Tor";
     currentSceneComments := [];
     billboards := Some [];
     labels := Some [];
     cachedCommentIcon := false;
     viewer := Some {| requestRenderMode := true; renders := 0 |};
     currentGroup := Some "Lock A";
     userName := "Anna";
     commentInput := Some "   ";
     toasts := [] |}.

(** A finite part of [JSON.parse], for examples: the listed texts parse to
    the listed values, any other text is rejected. *)
Definition JSON_parse_table (t : list (string * json)) : string -> option json :=
  fun s => lookup s t.

(** A name or a string in double quotes, as JSON writes it. *)
Definition json_quoted (s : string) : string :=
  String JS.quote (s ++ String JS.quote EmptyString).



(** The text of an object whose [comments] is an empty array. *)
Definition comments_array_text : string :=
  "{" ++ json_quoted "comments" ++ ":[]}".

(** A parser that knows two texts: an object with no property, and an
    object whose [comments] is an empty array. *)
Definition example_parser : string -> option json :=
  JSON_parse_table [("{}", JObj []);
                    (comments_array_text, JObj [("comments", JArr [])])].

(** The store after an edit of the comment of the example store. *)
Definition edited_store : bool * API :=
  V21.updateComment "1700000000000" "Leak repaired" "Lock A"
                    "2024-02-02T00:00:00.000Z" example_store.



(** ** [CommentsManager] 2.1.0: the other methods of the workflow

    What the renderer answers for one click: the picked tile feature, if
    the pick hit one, as the map of its properties; the position that
    [scene.pickPosition] gives, which may throw; and the position that
    [camera.pickEllipsoid] gives.  A message constant of
    [BAWUtils.messages] that [message] does not list is written as the
    literal of its qualified name. *)
Record Click := {
  picked_feature : option (list (string * string));
  pickPosition : completion (option Cesium.Cartesian3);
  pickEllipsoid : option Cesium.Cartesian3
}.

(** The code units of a-umlaut and o-umlaut. *)
Definition a_umlaut : ascii := Ascii.ascii_of_nat 228.
Definition o_umlaut : ascii := Ascii.ascii_of_nat 246.

Module Workflow21.

(** [this.userName = userName ? userName.trim() : ''] *)
Definition setUserName (name : option string) (m : Manager) : Manager :=
  {| api := api m; isCommentMode := isCommentMode m;
     pendingPosition := pendingPosition m; pendingFeature := pendingFeature m;
     currentSceneComments := currentSceneComments m;
     billboards := billboards m; labels := labels m;
     cachedCommentIcon := cachedCommentIcon m; viewer := viewer m;
     currentGroup := currentGroup m;
     userName := match name with
                 | Some n => if JS.truthy n then JS.trim n else EmptyString
                 | None => EmptyString
                 end;
     commentInput := commentInput m; toasts := toasts m |}.

Definition setCurrentGroup (group : option string) (m : Manager) : Manager :=
  {| api := api m; isCommentMode := isCommentMode m;
     pendingPosition := pendingPosition m; pendingFeature := pendingFeature m;
     currentSceneComments := currentSceneComments m;
     billboards := billboards m; labels := labels m;
     cachedCommentIcon := cachedCommentIcon m; viewer := viewer m;
     currentGroup := group; userName := userName m;
     commentInput := commentInput m; toasts := toasts m |}.

(** [enterCommentMode()]; [updateCommentModeUI] and the indicator only
    write to the page. *)
Definition enterCommentMode (m : Manager) : Manager :=
  if negb (JS.truthy (userName m)) then
    showToast COMMENT_NO_NAME "warning" m
  else
    match currentGroup m with
    | None => showToast (Literal "Bitte laden Sie zuerst eine Szene") "warning" m
    | Some _ =>
        showToast (Literal "Kommentar-Modus aktiviert. Klicken Sie auf die Karte.")
                  "success" (with_mode true m)
    end.

Definition exitCommentMode (m : Manager) : Manager :=
  with_pending None None (with_mode false m).

Definition toggleCommentMode (m : Manager) : Manager :=
  if isCommentMode m then exitCommentMode m else enterCommentMode m.

(** [_getPickedPosition(position)] *)
Definition _getPickedPosition (click : Click)
    : Manager -> option Cesium.Cartesian3 * Manager :=
  safeExecute
    (v <- gets viewer ;;
     match v with
     | None => throw TypeError
     | Some _ =>
         match pickPosition click with
         | Throw e => throw e
         | Return (Some pos) => ret (Some pos)
         | Return None => ret (pickEllipsoid click)
         end
     end)
    (Literal "Error getting picked position") None.

(** [_getFeatureName(feature)] *)
Definition _getFeatureName (feature : list (string * string))
    : Manager -> option string * Manager :=
  safeExecute
    (let props := keys feature in
     if existsb (String.eqb "Objektart") props then ret (lookup "Objektart" feature)
     else if existsb (String.eqb "Name") props then ret (lookup "Name" feature)
     else ret None)
    (Literal "Error getting feature name") None.

(** [handleCommentModeClick(click)]; a position is truthy when there is
    one. *)
Definition handleCommentModeClick (click : Click) : Manager -> unit * Manager :=
  safeExecute
    (v <- gets viewer ;;
     match v with
     | None => throw TypeError
     | Some _ =>
         found <-
           match picked_feature click with
           | Some feature =>
               cartesian <- call (_getPickedPosition click) ;;
               featureName <- call (_getFeatureName feature) ;;
               ret (cartesian, featureName)
           | None => ret (pickEllipsoid click, None)
           end ;;
         match fst found with
         | Some cartesian =>
             modify (with_pending (Some cartesian) (snd found)) ;;
             modify (showToast
                       (Literal ("Position ausgew" ++ String a_umlaut
                                   "hlt. Geben Sie einen Kommentar ein."))
                       "success")
         | None => ret tt
         end
     end)
    (Literal "Error handling comment mode click") tt.

Definition cancelComment (m : Manager) : Manager :=
  let m1 := match commentInput m with
            | Some _ => with_input (Some EmptyString) m
            | None => m
            end in
  showToast (Literal "Kommentar abgebrochen") "info" (with_pending None None m1).

(** The loop of [refreshCommentVisuals] over the comments. *)
Fixpoint add_visuals (l : list SceneComment) : M Manager unit :=
  match l with
  | [] => ret tt
  | c :: r => call (CommentsManager21.addCommentVisual c) ;; add_visuals r
  end.

Definition refreshCommentVisuals (m : Manager) : Manager :=
  match billboards m, labels m with
  | Some _, Some _ =>
      snd (safeExecute
             (modify (fun m => with_visuals (Some []) (labels m)
                                            (cachedCommentIcon m) m) ;;
              modify (fun m => with_visuals (billboards m) (Some [])
                                            (cachedCommentIcon m) m) ;;
              l <- gets currentSceneComments ;;
              add_visuals l)
             (Literal "Error refreshing comment visuals") tt m)
  | _, _ => m
  end.

(** [if (this.viewer && this.viewer.scene.requestRenderMode)
    this.viewer.scene.requestRender()] *)
Definition render_if_requested (m : Manager) : Manager :=
  match viewer m with
  | Some vw =>
      if requestRenderMode vw then
        with_viewer (Some {| requestRenderMode := true; renders := S (renders vw) |}) m
      else m
  | None => m
  end.

Definition loadSceneComments : Manager -> unit * Manager :=
  safeExecute
    (group <- gets currentGroup ;;
     match group with
     | None => modify (with_comments [])
     | Some name =>
         l <- on_api (V21.loadComments name) ;;
         modify (with_comments l) ;;
         modify refreshCommentVisuals ;;
         modify render_if_requested
     end)
    (Literal "Error loading scene comments") tt.

(** [deleteComment(commentId)], with the answer of [confirm].  The read of
    [this.currentGroup.name] is not inside a [safeExecute]. *)
Definition deleteComment (commentId : string) (confirmed : bool) : M Manager unit :=
  if negb confirmed then ret tt
  else
    group <- gets currentGroup ;;
    match group with
    | None => throw TypeError
    | Some name =>
        success <- on_api (V21.deleteComment commentId name) ;;
        if success then
          modify (fun m =>
            with_comments
              (filter (fun c => negb (String.eqb (id (stored c)) commentId))
                      (currentSceneComments m)) m) ;;
          modify refreshCommentVisuals ;;
          modify (showToast (Literal "BAWUtils.messages.COMMENT_DELETED") "success") ;;
          modify render_if_requested
        else
          modify (showToast (Literal ("Fehler beim L" ++ String o_umlaut
                                      "schen des Kommentars")) "error")
    end.

(** [clearAllData()], with the answer of [confirm]. *)
Definition clearAllData (STORAGE_VERSION : string) (confirmed : bool)
    (m : Manager) : Manager :=
  if negb confirmed then m
  else
    let m1 := with_api (V21.clearAllData STORAGE_VERSION (api m)) m in
    let m2 := with_comments [] m1 in
    let m3 := refreshCommentVisuals m2 in
    showToast (Literal "BAWUtils.messages.DATA_CLEARED") "success" m3.

End Workflow21.

(** ** Utilities 2.0.0: [HiddenFeaturesSystem]

    A tile feature is an object of the renderer: it has an identity, its
    properties, and a flag [show] that the system writes.  The flags of
    all features are one function of the state, so that two records of
    the list that hold the same feature share its flag.  Each record of
    the list is an object of its own, so [indexOf] of the record at an
    index is that index.  The toasts are recorded with their type and
    duration; the other writes to the page are left out. *)
Module HiddenFeatures.

Record TileFeature := {
  tile : nat;
  properties : list (string * string)
}.

(** [{ feature, name, id, timestamp }] *)
Record HiddenFeature := {
  feature : TileFeature;
  name : string;
  id : string;
  timestamp : string
}.

Record System := {
  show : nat -> bool;
  features : list HiddenFeature;
  isHideMode : bool;
  toasts : list (string * string * nat)
}.

Definition constructor (flags : nat -> bool) : System :=
  {| show := flags; features := []; isHideMode := false; toasts := [] |}.

Definition showToast (message type : string) (duration : nat) (s : System) : System :=
  {| show := show s; features := features s; isHideMode := isHideMode s;
     toasts := toasts s ++ [(message, type, duration)] |}.

Definition set_show (t : nat) (b : bool) (s : System) : System :=
  {| show := fun t' => if (t' =? t)%nat then b else show s t';
     features := features s; isHideMode := isHideMode s; toasts := toasts s |}.

Definition set_features (l : list HiddenFeature) (s : System) : System :=
  {| show := show s; features := l; isHideMode := isHideMode s;
     toasts := toasts s |}.

Definition toggleHideMode (s : System) : System :=
  let s1 := {| show := show s; features := features s;
               isHideMode := negb (isHideMode s); toasts := toasts s |} in
  if isHideMode s1 then
    showToast "Hide-Modus aktiviert - Klicken Sie auf Features zum Verstecken"
              "info" 3000 s1
  else showToast "Hide-Modus deaktiviert" "info" 2000 s1.

(** [feature.getProperty(k) || d] *)
Definition getProperty_or (f : TileFeature) (k : string) (d : string) : string :=
  match lookup k (properties f) with
  | Some v => if JS.truthy v then v else d
  | None => d
  end.

(** [hideFeature(feature)], with the values of [Date.now()] and of
    [new Date().toISOString()]; the argument is [None] for null and for a
    value that is not a tile feature. *)
Definition hideFeature (picked : option TileFeature) (Date_now : N) (now : string)
    (s : System) : System :=
  match picked with
  | None => s
  | Some f =>
      let name := getProperty_or f "name" "Unbenannt" in
      let objektId :=
        getProperty_or f "_213WehranlagenObjektIdentNr"
          (getProperty_or f "id" (JS.decimal Date_now)) in
      let s1 := set_show (tile f) false s in
      let hiddenFeature :=
        {| feature := f; name := name; id := objektId; timestamp := now |} in
      let s2 := set_features (features s1 ++ [hiddenFeature]) s1 in
      showToast ("Feature " ++ String JS.quote (name ++ String JS.quote " versteckt"))
                "success" 2000 s2
  end.

(** [handleClick(click, viewer)], with what [viewer.scene.pick] gives. *)
Definition handleClick (picked : option TileFeature) (Date_now : N) (now : string)
    (s : System) : System :=
  match picked with
  | Some f =>
      showToast "Feature versteckt" "success" 2000
                (hideFeature (Some f) Date_now now s)
  | None => showToast "Kein Feature zum Verstecken gefunden" "warning" 2000 s
  end.

(** [showFeature(hiddenFeature)] for the record at [index] of the list;
    its [feature] is a tile feature, which is truthy. *)
Definition showFeature (index : nat) (hiddenFeature : HiddenFeature) (s : System)
    : System :=
  let s1 := set_show (tile (feature hiddenFeature)) true s in
  let s2 := set_features (firstn index (features s1) ++ skipn (S index) (features s1))
                         s1 in
  showToast ("Feature " ++ String JS.quote
               (name hiddenFeature ++ String JS.quote " wiederhergestellt"))
            "success" 2000 s2.

Definition showFeatureByIndex (index : nat) (s : System) : System :=
  match nth_error (features s) index with
  | Some hiddenFeature => showFeature index hiddenFeature s
  | None => s
  end.

Definition showAll (s : System) : System :=
  let count := length (features s) in
  let s1 := fold_left (fun st h => set_show (tile (feature h)) true st)
                      (features s) s in
  let s2 := set_features [] s1 in
  if (0 <? count)%nat then
    showToast (JS.decimal (N.of_nat count) ++ " Features wiederhergestellt")
              "success" 3000 s2
  else s2.

(** Every feature of the list is hidden. *)
Definition listed_are_hidden (s : System) : Prop :=
  forall h, In h (features s) -> show s (tile (feature h)) = false.

(** A feature named Tor with the tile 7, a system with all features
    shown, and the system after that feature was hidden. *)
Definition example_feature : TileFeature :=
  {| tile := 7; properties := [("name", "Tor"); ("id", "42")] |}.

Definition all_shown : System := constructor (fun _ => true).

Definition one_hidden : System :=
  hideFeature (Some example_feature) 1700000000000 "2024-01-01T00:00:00.000Z"
              all_shown.

End HiddenFeatures.

(** ** Definitions for the further properties *)

(** A string without its double quotes. *)
Fixpoint strip_quotes (s : string) : string :=
  match s with
  | EmptyString => EmptyString
  | String c r =>
      if Ascii.eqb c JS.quote then strip_quotes r else String c (strip_quotes r)
  end.

(** A string in which no character satisfies [p]. *)
Fixpoint free_of (p : ascii -> bool) (s : string) : bool :=
  match s with
  | EmptyString => true
  | String c r => negb (p c) && free_of p r
  end.

Definition is_quote (c : ascii) : bool := Ascii.eqb c JS.quote.
Definition is_comma (c : ascii) : bool := Ascii.eqb c JS.comma.
Definition is_LF (c : ascii) : bool := Ascii.eqb c JS.LF.

(** The nine values that [_parseCSVLine] reads from the row of a comment. *)
Definition row_values (sceneName : string) (c : Comment) (px py pz : JS.number)
    : list string :=
  [ strip_quotes sceneName;
    strip_quotes (text c);
    JS.toFixed 6 px;
    JS.toFixed 6 py;
    JS.toFixed 6 pz;
    strip_quotes (or_empty (featureName c));
    timestamp c;
    id c;
    strip_quotes (user c) ].

(** The coordinate of a comment that has one. *)
Definition coordinate (v : option JS.number) : JS.number :=
  match v with Some n => n | None => JS.NaN end.

(** The line that [exportCSV] writes for a comment of a scene, and the
    values that [_parseCSVLine] reads from it. *)
Definition exported_row (e : string * Comment) : string :=
  JS.join "," (csv_row (fst e) (snd e)
                       (coordinate (position_x (snd e)))
                       (coordinate (position_y (snd e)))
                       (coordinate (position_z (snd e)))).

Definition exported_values (e : string * Comment) : list string :=
  row_values (fst e) (snd e)
             (coordinate (position_x (snd e)))
             (coordinate (position_y (snd e)))
             (coordinate (position_z (snd e))).

(** A comment one of whose coordinates is null. *)
Definition has_null_coordinate (c : Comment) : bool :=
  match position_x c, position_y c, position_z c with
  | Some _, Some _, Some _ => false
  | _, _, _ => true
  end.

(** A comment as it comes back from the CSV export: the coordinates through
    [toFixed(6)] and [parseFloat], an empty feature name as null, and the
    scene key as its scene. *)
Definition through_csv (sceneName : string) (c : Comment) : Comment :=
  {| id := id c;
     text := text c;
     position_x := option_map (fun v => JS.parseFloat (JS.toFixed 6 v)) (position_x c);
     position_y := option_map (fun v => JS.parseFloat (JS.toFixed 6 v)) (position_y c);
     position_z := option_map (fun v => JS.parseFloat (JS.toFixed 6 v)) (position_z c);
     featureName := or_null (featureName c);
     timestamp := timestamp c;
     user := user c;
     szene := sceneName |}.

(** The strings of a comment have no double quote and no line feed. *)
Definition plain_string (s : string) : bool :=
  free_of is_quote s && free_of is_LF s.

Definition plain_comment (c : Comment) : bool :=
  plain_string (text c) && plain_string (or_empty (featureName c)) &&
  plain_string (timestamp c) && plain_string (id c) && plain_string (user c).

(** A document that the CSV export and import can carry: every scene name
    and every string of every comment is plain, no scene name is a name
    inherited from [Object.prototype], and no coordinate is null. *)
Definition csv_portable (d : Document) : bool :=
  forallb (fun kv =>
             plain_string (fst kv) && negb (inherited (fst kv)) &&
             forallb (fun c => plain_comment c && negb (has_null_coordinate c))
                     (snd kv))
          (comments d).

(** A store with two comments in one scene, one with an empty feature
    name, and a scene without comments. *)
Definition portable_store : API :=
  set_comments
    [ ("Lock A",
       [ {| id := "17"; text := "Leak, at joint";
            position_x := Some (JS.of_Z 10); position_y := Some (JS.of_Z 20);
            position_z := Some (JS.of_Z 5);
            featureName := Some ""; timestamp := "2024-01-01T00:00:00.000Z";
            user := "Anna"; szene := "Lock A" |};
         {| id := "18"; text := "Gate";
            position_x := Some (JS.of_Z 1); position_y := Some (JS.of_Z 2);
            position_z := Some (JS.of_Z 3);
            featureName := Some "Tor"; timestamp := "2024-01-02T00:00:00.000Z";
            user := "Ben"; szene := "Lock A" |} ]);
      ("Weir", []) ]
    empty_store.

(** Every entry of the cache holds the comments of its scene as the
    document has them. *)
Definition coherent (st : API) : Prop :=
  Forall (fun kv => snd kv = scene_comments (fst kv) st) (_cache st).

(** The storage was never written and the document is the default one, or
    the storage holds the document. *)
Definition mirrored (version : string) (st : API) : Prop :=
  (localStorage st = None /\ data st = getDefaultData version) \/
  localStorage st = Some (Text (JSON_text (data st))).

(** An entry of the console that is not a storage error and not an
    import error; a console without such errors. *)
Definition quiet_entry (e : log_entry) : bool :=
  match e with
  | console_error ERROR_STORAGE _ => false
  | console_error ERROR_FILE_IMPORT _ => false
  | _ => true
  end.

Definition undisturbed (st : API) : Prop :=
  forallb quiet_entry (console st) = true.

(** One step of a store of version 2.1.0 and its surroundings, from a
    state to the state it leaves: a call of a method, or a change of the
    storage from accepting writes to refusing them or back.  [importData]
    is a step when it fails and when it installs a document of the
    durable schema, whose scene names are pairwise different as the names
    of an object that [JSON.parse] returns are; the states after an
    import of another value are not among those that the relation
    reaches.  The arrays that [loadComments] returns are those of the
    cache; a caller that changes them changes the cache, and such a
    change is no step of the relation. *)
Inductive method_step (version : string) : API -> API -> Prop :=
| step_loadComments sceneName st :
    method_step version st (snd (V21.loadComments sceneName st))
| step_saveComment sceneName commentText pos feature userName generatedId now st :
    method_step version st
      (snd (V21.saveComment sceneName commentText pos feature userName
                            generatedId now st))
| step_updateComment commentId newText sceneName now st :
    method_step version st
      (snd (V21.updateComment commentId newText sceneName now st))
| step_deleteComment commentId sceneName st :
    method_step version st (snd (V21.deleteComment commentId sceneName st))
| step_exportCSV st :
    method_step version st (snd (V21.exportCSV st))
| step_importCSV csvData st :
    method_step version st (snd (V21.importCSV csvData st))
| step_clearAllData st :
    method_step version st (V21.clearAllData version st)
| step_importData JSON_parse jsonData st ok st' :
    V21.importData JSON_parse jsonData st = Some (ok, st') ->
    NoDup (keys (comments (data st'))) ->
    method_step version st st'
| step_surroundings refuses st :
    method_step version st (storage_refuses refuses st).

(** What a step does to the cache: nothing; it empties it; or it adds one
    entry, for a scene that had none, with the comments of the document,
    after the oldest entry was dropped when the cache was full. *)
Inductive cache_effect (st st' : API) : Prop :=
| cache_kept : _cache st' = _cache st -> cache_effect st st'
| cache_emptied : _cache st' = [] -> cache_effect st st'
| cache_added sceneName :
    data st' = data st ->
    lookup sceneName (_cache st) = None ->
    _cache st' =
      Map_set sceneName (scene_comments sceneName st)
             (if (_maxCacheSize st <=? length (_cache st))%nat
              then tl (_cache st) else _cache st) ->
    cache_effect st st'.

(** What a step does to the state.  The limit of the cache is kept, scene
    names stay pairwise different, and the console grows.  When what is
    logged holds no storage error and no import error, then the document
    is as before or the cache was emptied, and the document and the
    storage are as before or the storage holds the new document. *)
Definition effect (st st' : API) : Prop :=
  _maxCacheSize st' = _maxCacheSize st /\
  (NoDup (keys (comments (data st))) -> NoDup (keys (comments (data st')))) /\
  cache_effect st st' /\
  exists log,
    console st' = console st ++ log /\
    (forallb quiet_entry log = true ->
     (data st' = data st \/ _cache st' = []) /\
     ((data st' = data st /\ localStorage st' = localStorage st) \/
      localStorage st' = Some (Text (JSON_text (data st'))))).

(** The states that a store reaches from its construction on an empty
    storage. *)
Inductive reachable (version : string) (size : nat) : API -> Prop :=
| reach_new : reachable version size (V21.constructor None version size)
| reach_step st st' :
    reachable version size st -> method_step version st st' ->
    reachable version size st'.

(** A store whose cache of one entry is full. *)
Definition full_cache_store : API :=
  snd (V21.loadComments "Lock A" (V21.constructor None "1.0" 1)).

(** A store that read the empty scene Lock A into its cache and then
    saved a comment to it while the storage refused the write. *)
Definition stale_store : API :=
  snd (V21.saveComment "Lock A" "Leak" example_position None "Anna"
         "1700000000000" "2023-11-14T22:13:20.000Z"
         (storage_refuses true (snd (V21.loadComments "Lock A" empty_store)))).

(** The billboard and the label that [addCommentVisual] adds for a
    comment. *)
Definition billboard_of (c : SceneComment) : Billboard :=
  {| billboard_position := position c;
     billboard_id := "comment_" ++ id (stored c) |}.

Definition label_of (c : SceneComment) : Label :=
  {| label_position := position c;
     label_text := if (30 <? String.length (text (stored c)))%nat
                   then (String.substring 0 30 (text (stored c)) ++ "...")%string
                   else text (stored c);
     label_id := "comment_label_" ++ id (stored c);
     label_show := false |}.

(** One billboard and one hidden label per comment of the list, in its
    order. *)
Definition markers_match (m : Manager) : Prop :=
  billboards m = Some (map billboard_of (currentSceneComments m)) /\
  labels m = Some (map label_of (currentSceneComments m)).

(** A click on a tile feature named Tor whose surface position resolves,
    and a click that hits nothing. *)
Definition click_on_feature : Click :=
  {| picked_feature := Some [("Name", "Tor 1"); ("Objektart", "Tor")];
     pickPosition := Return (Some example_position);
     pickEllipsoid := None |}.

Definition click_on_nothing : Click :=
  {| picked_feature := None; pickPosition := Return None; pickEllipsoid := None |}.

(** A manager ready to place a comment, with the text typed. *)
Definition ready_manager : Manager :=
  with_input (Some "  Leak at joint ") example_manager.

Unset Implicit Arguments.

(** ** Properties *)

(** *** Objects used as maps *)

Lemma lookup_replace_value {A} k k' (v : A) m :
  lookup k' (replace_value k v m) =
    if String.eqb k k' then option_map (fun _ => v) (lookup k m) else lookup k' m.
Proof.
  induction m as [|[k0 v0] m IH]; simpl.
  - now destruct (String.eqb k k').
  - destruct (String.eqb k0 k) eqn:E; simpl.
    + apply String.eqb_eq in E. subst k0.
      now destruct (String.eqb k k').
    + rewrite IH. destruct (String.eqb k k') eqn:E'; auto.
      apply String.eqb_eq in E'. subst k'. now rewrite E.
Qed.

Lemma lookup_define {A} k k' (v : A) m :
  lookup k m = None ->
  lookup k' (define k v m) = if String.eqb k k' then Some v else lookup k' m.
Proof.
  induction m as [|[k0 v0] m IH]; simpl; [reflexivity|].
  destruct (String.eqb k0 k) eqn:E; [discriminate|]. intros L.
  destruct (comes_before k k0); simpl; [reflexivity|].
  rewrite (IH L). destruct (String.eqb k k') eqn:E'; auto.
  apply String.eqb_eq in E'. subst k'. now rewrite E.
Qed.

Lemma lookup_assign {A} k k' (v : A) m :
  lookup k' (assign k v m) = if String.eqb k k' then Some v else lookup k' m.
Proof.
  unfold assign. destruct (lookup k m) as [w|] eqn:L.
  - rewrite lookup_replace_value, L. reflexivity.
  - now apply lookup_define.
Qed.

Lemma lookup_assign_same {A} k (v : A) m : lookup k (assign k v m) = Some v.
Proof. now rewrite lookup_assign, String.eqb_refl. Qed.

Lemma lookup_assign_other {A} k k' (v : A) m :
  k' <> k -> lookup k' (assign k v m) = lookup k' m.
Proof.
  intros Hne. rewrite lookup_assign.
  destruct (String.eqb k k') eqn:E; auto.
  apply String.eqb_eq in E. congruence.
Qed.

Lemma replace_value_id {A} k (v : A) m :
  lookup k m = Some v -> replace_value k v m = m.
Proof.
  induction m as [|[k' v'] m IH]; simpl; [discriminate|].
  destruct (String.eqb k' k) eqn:E.
  - now intros [= ->].
  - intros H. now rewrite IH.
Qed.

Lemma assign_lookup_id {A} k (v : A) m : lookup k m = Some v -> assign k v m = m.
Proof.
  intros H. unfold assign. rewrite H. now apply replace_value_id.
Qed.

Lemma keys_replace_value {A} k (v : A) m : keys (replace_value k v m) = keys m.
Proof.
  unfold keys. induction m as [|[k' v'] m IH]; simpl; auto.
  destruct (String.eqb k' k); simpl; auto. now rewrite IH.
Qed.

Lemma keys_assign_present {A} k (v w : A) m :
  lookup k m = Some w -> keys (assign k v m) = keys m.
Proof.
  intros H. unfold assign. rewrite H. apply keys_replace_value.
Qed.

(** A new name that is no array index comes last. *)
Lemma assign_new_name {A} k (v : A) m :
  lookup k m = None -> array_index k = None -> assign k v m = m ++ [(k, v)].
Proof.
  intros L I. unfold assign. rewrite L. clear L.
  induction m as [|[k' v'] m IH]; simpl; auto.
  unfold comes_before. rewrite I. now rewrite IH.
Qed.

(** Array indices are listed first and in ascending order, whatever the
    order of the assignments. *)
Lemma assign_orders_array_indices :
  keys (assign "2" tt (assign "b" tt (assign "10" tt (assign "a" tt []))))
  = ["2"; "10"; "a"; "b"].
Proof. reflexivity. Qed.

Lemma define_Permutation {A} k (v : A) m :
  Permutation (define k v m) ((k, v) :: m).
Proof.
  induction m as [|[k' v'] m IH]; simpl; auto.
  destruct (comes_before k k'); auto.
  rewrite IH. apply perm_swap.
Qed.

Lemma lookup_None_keys {A} k (m : list (string * A)) :
  lookup k m = None -> ~ In k (keys m).
Proof.
  induction m as [|[k' v'] m IH]; simpl; auto.
  destruct (String.eqb k' k) eqn:E; [discriminate|].
  intros L [->|Hin]; [now rewrite String.eqb_refl in E|now apply IH].
Qed.

Lemma NoDup_keys_assign {A} k (v : A) m :
  NoDup (keys m) -> NoDup (keys (assign k v m)).
Proof.
  destruct (lookup k m) as [w|] eqn:L.
  - now rewrite (keys_assign_present k v w m L).
  - unfold assign. rewrite L. intros N.
    apply (Permutation_NoDup (l := k :: keys m)).
    + symmetry. unfold keys.
      apply (Permutation_map fst (define_Permutation k v m)).
    + constructor; auto. now apply lookup_None_keys.
Qed.

(** [_cache.set] *)
Lemma lookup_Map_set_same {A} k (v : A) m : lookup k (Map_set k v m) = Some v.
Proof.
  induction m as [|[k' v'] m IH]; simpl.
  - now rewrite String.eqb_refl.
  - destruct (String.eqb k' k) eqn:E; simpl; rewrite E; auto.
Qed.

Lemma Map_set_absent {A} k (v : A) m :
  lookup k m = None -> Map_set k v m = m ++ [(k, v)].
Proof.
  induction m as [|[k' v'] m IH]; simpl; auto.
  destruct (String.eqb k' k); [discriminate|].
  intros H. now rewrite IH.
Qed.

Lemma set_comments_id st : set_comments (comments (data st)) st = st.
Proof. now destruct st as [[c r] ? ? ? ? ?]. Qed.

Lemma set_scene_id sceneName l st :
  scene sceneName st = Some l -> set_scene sceneName l st = st.
Proof.
  unfold scene, set_scene. intros H.
  rewrite (assign_lookup_id _ _ _ H). apply set_comments_id.
Qed.

Lemma filter_all {A} (p : A -> bool) l :
  (forall a, In a l -> p a = true) -> filter p l = l.
Proof.
  induction l as [|a l IH]; simpl; auto. intros H.
  rewrite (H a) by auto. f_equal. auto.
Qed.

Lemma filter_length_lt {A} (q : A -> bool) l :
  (length (filter (fun a => negb (q a)) l) <? length l)%nat = existsb q l.
Proof.
  induction l as [|a l IH]; simpl; auto.
  pose proof (filter_length_le (fun a => negb (q a)) l) as Hle.
  destruct (q a); simpl.
  - apply Nat.ltb_lt. lia.
  - exact IH.
Qed.

(** *** Running a method *)

Ltac run_method :=
  cbv [safeExecute bind gets modify ret throw call].

(** The same, with the calls of other methods kept. *)
Ltac run_body :=
  cbv [safeExecute bind gets modify ret throw].

(** [data.comments[sceneName]], case by case. *)
Lemma comments_at_own sceneName st l :
  scene sceneName st = Some l -> comments_at sceneName st = Own l.
Proof. unfold comments_at. now intros ->. Qed.

Lemma comments_at_cases sceneName st :
  (exists l, scene sceneName st = Some l /\ comments_at sceneName st = Own l) \/
  (scene sceneName st = None /\ inherited sceneName = true /\
   comments_at sceneName st = Inherited) \/
  (scene sceneName st = None /\ inherited sceneName = false /\
   comments_at sceneName st = Undefined).
Proof.
  unfold comments_at. destruct (scene sceneName st) as [l|]; eauto.
  destruct (inherited sceneName); auto.
Qed.

Lemma comments_at_set_scene sceneName l st :
  comments_at sceneName (set_scene sceneName l st) = Own l.
Proof.
  apply comments_at_own. unfold scene, set_scene. simpl.
  apply lookup_assign_same.
Qed.

Lemma comments_at_data sceneName st st' :
  data st' = data st -> comments_at sceneName st' = comments_at sceneName st.
Proof. unfold comments_at, scene. now intros ->. Qed.

(** *** [saveToStorage] *)

(** The call of [setItem] is counted; the document, the limit of the
    cache and the surroundings' willingness stay.  When the storage
    accepts the write it holds the text of the document and the cache is
    emptied; when it refuses, the storage and the cache stay and the
    storage error is logged. *)
Lemma after_save_spec st :
  data (after_save st) = data st /\
  _maxCacheSize (after_save st) = _maxCacheSize st /\
  setItem_throws (after_save st) = setItem_throws st /\
  setItem_calls (after_save st) = S (setItem_calls st) /\
  if setItem_throws st then
    _cache (after_save st) = _cache st /\
    localStorage (after_save st) = localStorage st /\
    console (after_save st) =
      console st ++ [console_error ERROR_STORAGE DOMException]
  else
    _cache (after_save st) = [] /\
    localStorage (after_save st) = Some (Text (JSON_text (data st))) /\
    console (after_save st) = console st.
Proof.
  unfold after_save, V21.saveToStorage, localStorage_setItem.
  cbv [safeExecute bind gets modify ret throw call].
  destruct (setItem_throws st) eqn:T; simpl; rewrite ?T; repeat split.
Qed.

Lemma after_save20_spec st :
  data (after_save20 st) = data st /\
  _maxCacheSize (after_save20 st) = _maxCacheSize st /\
  setItem_throws (after_save20 st) = setItem_throws st /\
  setItem_calls (after_save20 st) = S (setItem_calls st) /\
  if setItem_throws st then
    _cache (after_save20 st) = _cache st /\
    localStorage (after_save20 st) = localStorage st /\
    console (after_save20 st) =
      console st ++
      [console_error (Literal "Error saving to storage") DOMException]
  else
    _cache (after_save20 st) = [] /\
    localStorage (after_save20 st) = Some (Text (JSON_text (data st))) /\
    console (after_save20 st) = console st.
Proof.
  unfold after_save20, V20.saveToStorage, localStorage_setItem.
  cbv [safeExecute bind gets modify ret throw call].
  destruct (setItem_throws st) eqn:T; simpl; rewrite ?T; repeat split.
Qed.

Lemma call_saveToStorage st :
  call V21.saveToStorage st = (Return (fst (V21.saveToStorage st)), after_save st).
Proof.
  unfold call, after_save. now destruct (V21.saveToStorage st).
Qed.

Lemma call_saveToStorage20 st :
  call V20.saveToStorage st =
    (Return (fst (V20.saveToStorage st)), after_save20 st).
Proof.
  unfold call, after_save20. now destruct (V20.saveToStorage st).
Qed.

(** *** [deleteComment] *)

(** A scene that has no entry and whose name is not inherited: the body
    throws [ERROR_SCENE_NOT_FOUND]; [safeExecute] logs it and the method
    returns [false].  The document, the cache and the storage stay as
    they are. *)
Lemma deleteComment_scene_absent commentId sceneName st :
  comments_at sceneName st = Undefined ->
  V21.deleteComment commentId sceneName st =
    (false,
     console_log (console_error (Literal "Error deleting comment")
                                (Error ERROR_SCENE_NOT_FOUND)) st).
Proof.
  intros H. unfold V21.deleteComment. run_method. now rewrite H.
Qed.

(** A name that is inherited and is no scene of the document: [filter]
    is not a function of what is found there. *)
Lemma deleteComment_inherited commentId sceneName st :
  comments_at sceneName st = Inherited ->
  V21.deleteComment commentId sceneName st =
    (false,
     console_log (console_error (Literal "Error deleting comment") TypeError) st).
Proof.
  intros H. unfold V21.deleteComment. run_method. now rewrite H.
Qed.

(** A scene that exists, and no comment in it with the id: the method
    returns [false] and the whole state is unchanged; [setItem] is not
    called and nothing is logged. *)
Lemma deleteComment_id_absent commentId sceneName l st :
  scene sceneName st = Some l ->
  (forall c, In c l -> id c <> commentId) ->
  V21.deleteComment commentId sceneName st = (false, st).
Proof.
  intros H Hno. unfold V21.deleteComment. run_method.
  rewrite (comments_at_own _ _ _ H).
  assert (Hf : filter (fun c => negb (String.eqb (id c) commentId)) l = l).
  { apply filter_all. intros c Hc. apply negb_true_iff.
    apply String.eqb_neq. auto. }
  rewrite Hf, Nat.ltb_irrefl. now rewrite (set_scene_id _ _ _ H).
Qed.

(** A scene that holds a comment with the id: the comments with the id
    are removed, [saveToStorage] is called, and the result is [true],
    whether the storage accepted the write or not. *)
Lemma deleteComment_found commentId sceneName l st :
  scene sceneName st = Some l ->
  existsb (fun c => String.eqb (id c) commentId) l = true ->
  V21.deleteComment commentId sceneName st =
    (true,
     after_save
       (set_scene sceneName
          (filter (fun c => negb (String.eqb (id c) commentId)) l) st)).
Proof.
  intros H X. unfold V21.deleteComment. run_method.
  rewrite (comments_at_own _ _ _ H).
  rewrite (filter_length_lt (fun c => String.eqb (id c) commentId) l), X.
  unfold after_save. now destruct (V21.saveToStorage _).
Qed.

(** Version 2.0.0 writes to the storage and returns [true] whether or not
    a comment had the id. *)
Lemma V20_deleteComment_always_persists commentId sceneName l st :
  scene sceneName st = Some l ->
  let '(result, st') := V20.deleteComment commentId sceneName st in
  result = Return true /\ setItem_calls st' = S (setItem_calls st).
Proof.
  intros H. unfold V20.deleteComment. run_method.
  rewrite (comments_at_own _ _ _ H).
  destruct (V20.saveToStorage _) as [r st'] eqn:E.
  split; [reflexivity|].
  change st' with (snd (r, st')). rewrite <- E. fold (after_save20
    (set_scene sceneName
       (filter (fun c => negb (String.eqb (id c) commentId)) l) st)).
  now destruct (after_save20_spec
    (set_scene sceneName
       (filter (fun c => negb (String.eqb (id c) commentId)) l) st))
    as (_ & _ & _ & -> & _).
Qed.

(** C1.  On the example store, whose only scene is Lock A, the call of
    [deleteComment] of version 2.1.0 for a scene that has no entry does
    not fail: it completes and returns [false], the value it also returns
    when the scene exists and no comment has the id; the error
    [ERROR_SCENE_NOT_FOUND] is only logged.  Version 2.0.0 throws for the
    missing scene, but for an id that no comment has it returns [true] and
    calls [setItem]. *)
Theorem C1_deleteComment_missing_scene_returns_false :
  call (V21.deleteComment "c1" "missing") example_store =
    (Return false,
     console_log (console_error (Literal "Error deleting comment")
                                (Error ERROR_SCENE_NOT_FOUND)) example_store) /\
  fst (call (V21.deleteComment "c1" "missing") example_store)
    <> Throw (Error ERROR_SCENE_NOT_FOUND) /\
  call (V21.deleteComment "c1" "Lock A") example_store
    = (Return false, example_store) /\
  V20.deleteComment "c1" "missing" example_store
    = (Throw (Error (Literal "Scene not found")), example_store) /\
  fst (V20.deleteComment "c1" "Lock A" example_store) = Return true /\
  setItem_calls (snd (V20.deleteComment "c1" "Lock A" example_store)) =
    S (setItem_calls example_store).
Proof.
  repeat split; try (vm_compute; reflexivity). discriminate.
Qed.

(** *** The CSV round trip *)

(** C2.  The example store holds one comment, in scene Lock A, at
    (10, 20, 5), with the text that has a comma and two double quotes.
    [importCSV] of what [exportCSV] returns succeeds and gives back the
    id and the three coordinates, and a text that has lost its double
    quotes. *)
Lemma C2_csv_round_trip_drops_quotes :
  let '(csv, st1) := V21.exportCSV example_store in
  let '(ok, st2) := V21.importCSV csv st1 in
  ok = true /\
  map text (all_comments (data example_store)) = [text_with_quotes] /\
  map text (all_comments (data st2)) = ["He said, hi"] /\
  text_with_quotes <> "He said, hi" /\
  map id (all_comments (data st2)) = map id (all_comments (data example_store)) /\
  map (fun c => position (materialize c)) (all_comments (data st2)) =
    [example_position] /\
  V20.parseCSVLine (V21.quoted (V21._escapeCsvValue text_with_quotes)) =
    ["He said, hi"].
Proof.
  vm_compute. repeat split; try reflexivity. discriminate.
Qed.

(** *** [toFixed] *)

Lemma string_length_append (a b : string) :
  String.length (a ++ b) = (String.length a + String.length b)%nat.
Proof. induction a; simpl; auto. Qed.

Lemma all_digits_append (a b : string) :
  all_digits (a ++ b) = all_digits a && all_digits b.
Proof.
  induction a as [|c a IH]; simpl; auto.
  now rewrite IH, andb_assoc.
Qed.

Lemma digit_char_is_digit d : JS.is_digit (JS.digit_char d) = true.
Proof.
  unfold JS.digit_char.
  assert (H : (d mod 10 < 10)%N) by (apply N.mod_lt; discriminate).
  destruct (d mod 10)%N as [|p]; [reflexivity|].
  do 4 (destruct p as [p|p|]; try reflexivity; try lia).
Qed.

Lemma fixed_digits_length k n : String.length (JS.fixed_digits k n) = k.
Proof.
  revert n. induction k as [|k IH]; intros n; simpl; auto.
  rewrite string_length_append, IH. simpl. lia.
Qed.

Lemma fixed_digits_all_digits k n : all_digits (JS.fixed_digits k n) = true.
Proof.
  revert n. induction k as [|k IH]; intros n; simpl; auto.
  rewrite all_digits_append, IH. simpl.
  now rewrite digit_char_is_digit.
Qed.

Lemma string_of_uint_all_digits d :
  all_digits (NilEmpty.string_of_uint d) = true.
Proof. induction d; simpl; auto. Qed.

Lemma decimal_all_digits n : all_digits (JS.decimal n) = true.
Proof.
  unfold JS.decimal, NilZero.string_of_uint.
  destruct (N.to_uint n); try reflexivity; apply string_of_uint_all_digits.
Qed.

Lemma decimal_nonempty n : JS.decimal n <> "".
Proof.
  unfold JS.decimal, NilZero.string_of_uint.
  destruct (N.to_uint n); simpl; discriminate.
Qed.

(** [toFixed(6)] of a number that is finite and below [10^21] in magnitude
    has exactly six decimals. *)
Lemma toFixed_six_decimals x :
  below_1e21 x = true -> six_decimals (JS.toFixed 6 x).
Proof.
  destruct x as [s|s| |s m e]; try discriminate; intros H.
  - exists "", "0", "000000". repeat split; auto. discriminate.
  - cbn [below_1e21] in H. apply N.ltb_lt in H.
    assert (G : (10 ^ 21 <=? JS.magnitude_floor m e)%N = false)
      by (apply N.leb_gt; exact H).
    cbn [JS.toFixed]. rewrite G.
    exists (if s then "-" else ""),
           (JS.decimal (JS.scaled_round 6 m e / 10 ^ N.of_nat 6)),
           (JS.fixed_digits 6 (JS.scaled_round 6 m e)).
    repeat split;
      auto using decimal_nonempty, decimal_all_digits,
                 fixed_digits_all_digits, fixed_digits_length.
    destruct s; auto.
Qed.

(** *** [exportCSV] *)

Lemma wrapped_in_quotes_quoted s : wrapped_in_quotes (V21.quoted s) = true.
Proof.
  unfold V21.quoted, wrapped_in_quotes. simpl.
  rewrite string_length_append. simpl.
  replace (String.length s + 1)%nat with (S (String.length s)) by lia.
  assert (H : forall t : string,
             String.substring (String.length t) 1 (t ++ String JS.quote "")
             = String JS.quote "").
  { induction t; simpl; auto. }
  now rewrite H, String.eqb_refl.
Qed.

Lemma row_fields_Return sceneName c fields :
  V21.row_fields sceneName c = Return fields ->
  exists px py pz,
    position_x c = Some px /\ position_y c = Some py /\ position_z c = Some pz /\
    fields = csv_row sceneName c px py pz.
Proof.
  unfold V21.row_fields, V21.coordinate_toFixed.
  destruct (position_x c) as [px|], (position_y c) as [py|],
           (position_z c) as [pz|]; try discriminate.
  intros [= <-]. now exists px, py, pz.
Qed.

Lemma rows_of_Return es rows :
  V21.rows_of es = Return rows -> Forall2 is_row_of es rows.
Proof.
  revert rows. induction es as [|[sceneName c] es IH]; simpl; intros rows.
  - intros [= <-]. constructor.
  - destruct (V21.row_fields sceneName c) as [fields|] eqn:F; [|discriminate].
    destruct (V21.rows_of es) as [rs|]; [|discriminate].
    intros [= <-]. constructor; auto.
    destruct (row_fields_Return _ _ _ F) as (px & py & pz & ? & ? & ? & ->).
    exists px, py, pz. repeat split; auto.
    + intros i Hi. simpl in Hi.
      repeat (destruct Hi as [<-|Hi]; [apply wrapped_in_quotes_quoted|]).
      contradiction.
    + intros v _. apply toFixed_six_decimals.
Qed.

(** C3, as the code has it.  When [exportCSV] produces its lines, the
    first is the header and there is one data row per comment, scene after
    scene; each row is the join by commas of nine fields in the order
    scene, text, x, y, z, feature name, timestamp, id, author.  The six
    fields that are not coordinates are wrapped in double quotes; in
    scene, text, feature name and author every double quote is doubled,
    timestamp and id are written as they are.  The three coordinates are
    not quoted: each is [toFixed(6)] of the number, which has exactly six
    decimals when the number is finite and below [10^21] in magnitude. *)
Theorem C3_exportCSV_rows st lines :
  V21.exportCSV_lines (data st) = Return lines ->
  exists rows,
    lines = JS.join "," V21.headers :: rows /\
    Forall2 is_row_of (V21.entries (data st)) rows /\
    V21.exportCSV st = (JS.join (String JS.LF EmptyString) lines, st).
Proof.
  intros H. unfold V21.exportCSV. run_method. rewrite H.
  revert H. unfold V21.exportCSV_lines.
  destruct (V21.rows_of (V21.entries (data st))) as [rows|] eqn:R; [|discriminate].
  intros [= <-]. exists rows. repeat split.
  now apply rows_of_Return.
Qed.

(** The export of the example store: the header and one row. *)
Lemma C3_exportCSV_rows_witness :
  exists rows,
    [ JS.join "," V21.headers;
      JS.join "," (csv_row "Lock A" example_comment
                           (JS.of_Z 10) (JS.of_Z 20) (JS.of_Z 5)) ]
    = JS.join "," V21.headers :: rows /\
    Forall2 is_row_of (V21.entries (data example_store)) rows /\
    V21.exportCSV example_store =
      (JS.join (String JS.LF EmptyString)
         [ JS.join "," V21.headers;
           JS.join "," (csv_row "Lock A" example_comment
                                (JS.of_Z 10) (JS.of_Z 20) (JS.of_Z 5)) ],
       example_store).
Proof.
  apply (C3_exportCSV_rows example_store). vm_compute. reflexivity.
Defined.

(** C3, as stated, fails: in the row of the example comment the third
    field is the bare text 10.000000, which no double quotes wrap. *)
Lemma C3_coordinate_fields_are_not_quoted :
  all_comments (data example_store) = [example_comment] /\
  exists fields,
    V21.row_fields "Lock A" example_comment = Return fields /\
    nth 2 fields "" = "10.000000" /\
    ~ (forall f, In f fields -> wrapped_in_quotes f = true).
Proof.
  split; [reflexivity|].
  eexists. split; [reflexivity|]. split; [reflexivity|].
  intros H. specialize (H "10.000000").
  assert (F : wrapped_in_quotes "10.000000" = false) by reflexivity.
  rewrite H in F; [discriminate|].
  vm_compute. tauto.
Qed.

(** *** [importCSV] *)

Lemma replace_value_twice {A} k (v w : A) m :
  replace_value k v (replace_value k w m) = replace_value k v m.
Proof.
  induction m as [|[k' v'] m IH]; simpl; auto.
  destruct (String.eqb k' k) eqn:E; simpl; rewrite E; auto.
  now rewrite IH.
Qed.

Lemma replace_value_define {A} k (v w : A) m :
  lookup k m = None -> replace_value k v (define k w m) = define k v m.
Proof.
  induction m as [|[k' v'] m IH]; simpl.
  - now rewrite String.eqb_refl.
  - destruct (String.eqb k' k) eqn:E; [discriminate|]. intros L.
    destruct (comes_before k k'); simpl.
    + now rewrite String.eqb_refl.
    + now rewrite E, (IH L).
Qed.

Lemma assign_assign {A} k (v w : A) m : assign k v (assign k w m) = assign k v m.
Proof.
  unfold assign at 1. rewrite lookup_assign_same.
  unfold assign. destruct (lookup k m) eqn:L.
  - apply replace_value_twice.
  - now apply replace_value_define.
Qed.

Lemma set_comments_twice a b st :
  set_comments a (set_comments b st) = set_comments a st.
Proof. reflexivity. Qed.

(** One turn of the loop: a row of fewer than nine values is skipped; a
    row whose scene is an inherited name that is no scene of the document
    throws, because [push] is not a function of what is found there; any
    other row adds its comment. *)
Lemma import_line_spec line st :
  V21.import_line line st =
    if (9 <=? length (V21._parseCSVLine line))%nat then
      match comments_at (V21.at_index (V21._parseCSVLine line) 0) st with
      | Inherited => (Throw TypeError, st)
      | _ =>
          (Return tt,
           set_comments (add_row (comments (data st)) (V21._parseCSVLine line)) st)
      end
    else (Return tt, st).
Proof.
  unfold V21.import_line.
  destruct (9 <=? length (V21._parseCSVLine line))%nat; [|reflexivity].
  run_method.
  destruct (comments_at_cases (V21.at_index (V21._parseCSVLine line) 0) st)
    as [(l & S & C)|[(S & I & C)|(S & I & C)]]; rewrite C.
  - rewrite C. unfold add_row, set_scene. unfold scene in S. now rewrite S.
  - now rewrite C.
  - rewrite comments_at_set_scene.
    unfold add_row, set_scene. unfold scene in S. rewrite S.
    cbn [data set_comments set_data comments rest].
    now rewrite assign_assign.
Qed.

Lemma rows_named_safely_cons line lines :
  rows_named_safely (imported_rows (line :: lines)) ->
  ((9 <=? length (V21._parseCSVLine line))%nat = true ->
   inherited (V21.at_index (V21._parseCSVLine line) 0) = false) /\
  rows_named_safely (imported_rows lines).
Proof.
  unfold rows_named_safely, imported_rows. cbn [map filter]. intros H. split.
  - intros E. apply H. rewrite E. now left.
  - intros values Hin. apply H.
    destruct (9 <=? _)%nat; [now right|exact Hin].
Qed.

(** The loop over lines none of whose rows names an inherited scene. *)
Lemma import_lines_spec lines st :
  rows_named_safely (imported_rows lines) ->
  V21.import_lines lines st =
    (Return tt,
     set_comments (fold_left add_row (imported_rows lines) (comments (data st))) st).
Proof.
  revert st. induction lines as [|line lines IH]; intros st Hs.
  - simpl. now rewrite set_comments_id.
  - apply rows_named_safely_cons in Hs as [H1 Hs].
    cbn [V21.import_lines]. unfold bind at 1. rewrite import_line_spec.
    unfold imported_rows. cbn [map filter].
    destruct (9 <=? _)%nat eqn:E.
    + specialize (H1 eq_refl). unfold comments_at. rewrite H1.
      destruct (scene _ st); rewrite (IH _ Hs); reflexivity.
    + now rewrite (IH _ Hs).
Qed.

(** The loop over any lines: whether it ends or throws, it leaves a
    document with the same rest, and scene names that are pairwise
    different when they were. *)
Lemma import_lines_any lines : forall st,
  exists m,
    snd (V21.import_lines lines st) = set_comments m st /\
    (NoDup (keys (comments (data st))) -> NoDup (keys m)).
Proof.
  induction lines as [|line lines IH]; intros st.
  - exists (comments (data st)). simpl. now rewrite set_comments_id.
  - cbn [V21.import_lines]. unfold bind at 1. rewrite import_line_spec.
    destruct (9 <=? _)%nat.
    + destruct (comments_at _ st).
      * destruct (IH (set_comments (add_row (comments (data st))
                                     (V21._parseCSVLine line)) st)) as (m & E & N).
        exists m. rewrite E. split; [reflexivity|].
        intros H. apply N. cbn. unfold add_row. now apply NoDup_keys_assign.
      * exists (comments (data st)). simpl. now rewrite set_comments_id.
      * destruct (IH (set_comments (add_row (comments (data st))
                                     (V21._parseCSVLine line)) st)) as (m & E & N).
        exists m. rewrite E. split; [reflexivity|].
        intros H. apply N. cbn. unfold add_row. now apply NoDup_keys_assign.
    + apply IH.
Qed.

Lemma lookup_add_row s m values :
  lookup s (add_row m values) =
    if String.eqb (V21.at_index values 0) s
    then Some (match lookup s m with Some l => l | None => [] end
               ++ [V21.comment_of_values values])
    else lookup s m.
Proof.
  unfold add_row. destruct (String.eqb _ s) eqn:E.
  - apply String.eqb_eq in E. subst s. apply lookup_assign_same.
  - apply lookup_assign_other. apply String.eqb_neq in E. congruence.
Qed.

Lemma lookup_fold_add_row s rows m :
  lookup s (fold_left add_row rows m) =
    match rows_of_scene s rows with
    | [] => lookup s m
    | vs => Some (match lookup s m with Some l => l | None => [] end
                  ++ map V21.comment_of_values vs)
    end.
Proof.
  revert m. induction rows as [|v rows IH]; intros m; [reflexivity|].
  cbn [fold_left]. rewrite IH, lookup_add_row.
  unfold rows_of_scene. cbn [filter]. fold (rows_of_scene s rows).
  destruct (String.eqb (V21.at_index v 0) s).
  - destruct (rows_of_scene s rows); cbn [map].
    + reflexivity.
    + now rewrite <- app_assoc.
  - reflexivity.
Qed.

Lemma concat_replace_value k (l : list Comment) c m :
  lookup k m = Some l ->
  Permutation (concat (map snd (replace_value k (l ++ [c]) m)))
              (concat (map snd m) ++ [c]).
Proof.
  induction m as [|[k' v'] m IH]; simpl; [discriminate|].
  destruct (String.eqb k' k); simpl.
  - intros [= ->]. rewrite <- !app_assoc.
    apply Permutation_app_head, Permutation_app_comm.
  - intros H. rewrite <- app_assoc. apply Permutation_app_head. auto.
Qed.

Lemma concat_define k (l : list Comment) m :
  Permutation (concat (map snd (define k l m))) (concat (map snd m) ++ l).
Proof.
  rewrite (Permutation_map snd (define_Permutation k l m)). simpl.
  rewrite <- flat_map_concat_map. apply Permutation_app_comm.
Qed.

Lemma concat_assign_present k (l : list Comment) c m :
  lookup k m = Some l ->
  Permutation (concat (map snd (assign k (l ++ [c]) m)))
              (concat (map snd m) ++ [c]).
Proof.
  intros L. unfold assign. rewrite L. now apply concat_replace_value.
Qed.

Lemma concat_assign_absent k (l : list Comment) m :
  lookup k m = None ->
  Permutation (concat (map snd (assign k l m))) (concat (map snd m) ++ l).
Proof.
  intros L. unfold assign. rewrite L. apply concat_define.
Qed.

Lemma all_comments_add_row m values :
  Permutation (concat (map snd (add_row m values)))
              (concat (map snd m) ++ [V21.comment_of_values values]).
Proof.
  unfold add_row. destruct (lookup _ m) as [l|] eqn:L.
  - now apply concat_assign_present.
  - now apply concat_assign_absent.
Qed.

Lemma all_comments_fold_add_row rows m :
  Permutation (concat (map snd (fold_left add_row rows m)))
              (concat (map snd m) ++ map V21.comment_of_values rows).
Proof.
  revert m. induction rows as [|v rows IH]; intros m; simpl.
  - now rewrite app_nil_r.
  - rewrite IH. rewrite all_comments_add_row, <- app_assoc. reflexivity.
Qed.

(** [importCSV] on a text with fewer than two lines that are not blank. *)
Lemma importCSV_rejects csvData st :
  (length (V21.nonblank_lines csvData) < 2)%nat ->
  V21.importCSV csvData st =
    (false,
     console_log
       (console_error ERROR_FILE_IMPORT
          (Error (Literal "CSV must have at least a header and one data row")))
       st).
Proof.
  intros H. unfold V21.importCSV. run_method.
  apply Nat.ltb_lt in H. now rewrite H.
Qed.

(** The state in which [importCSV] ends, for a text that has at least two
    lines that are not blank and whose rows name no inherited scene. *)
Lemma importCSV_accepts csvData st header data_lines :
  V21.nonblank_lines csvData = header :: data_lines ->
  data_lines <> [] ->
  rows_named_safely (imported_rows data_lines) ->
  V21.importCSV csvData st =
    (true,
     cache_clear
       (after_save
          (set_comments (fold_left add_row (imported_rows data_lines) []) st))).
Proof.
  intros H Hne Hs. unfold V21.importCSV. rewrite H.
  destruct data_lines as [|l ls]; [contradiction|].
  cbn [length Nat.ltb Nat.leb skipn].
  unfold safeExecute, bind at 1, modify at 1.
  unfold bind at 1. rewrite (import_lines_spec _ _ Hs).
  unfold bind at 1. rewrite call_saveToStorage. reflexivity.
Qed.

Lemma V20_importCSV_accepts csvData st header data_lines :
  V21.nonblank_lines csvData = header :: data_lines ->
  data_lines <> [] ->
  rows_named_safely (imported_rows data_lines) ->
  V20.importCSV csvData st =
    (Return true,
     after_save20
       (set_comments (fold_left add_row (imported_rows data_lines) []) st)).
Proof.
  intros H Hne Hs. unfold V20.importCSV. rewrite H.
  destruct data_lines as [|l ls]; [contradiction|].
  cbn [length Nat.ltb Nat.leb skipn].
  unfold bind at 1, modify at 1.
  unfold bind at 1. rewrite (import_lines_spec _ _ Hs).
  unfold bind at 1. rewrite call_saveToStorage20. reflexivity.
Qed.

Lemma imported_rows_length data_lines :
  (length (imported_rows data_lines) <= length data_lines)%nat.
Proof.
  unfold imported_rows.
  rewrite <- (length_map V21._parseCSVLine data_lines).
  apply filter_length_le.
Qed.

(** A row of at least nine values stands for the comment that the loop
    of [importCSV] builds from it, in the scene of its first value; a
    shorter row stands for none. *)
Lemma comment_of_row_spec values :
  comment_of_row values =
    if (9 <=? length values)%nat
    then Some (V21.comment_of_values values) else None.
Proof.
  do 9 (destruct values as [|? values]; [reflexivity|]).
  cbn [comment_of_row length Nat.leb].
  unfold V21.comment_of_values, V21.at_index. cbn [nth].
  f_equal. f_equal. unfold or_null.
  now match goal with |- context [JS.truthy ?f] => destruct f end.
Qed.

Lemma comments_of_lines_spec data_lines :
  comments_of_lines data_lines =
    map V21.comment_of_values (imported_rows data_lines).
Proof.
  unfold comments_of_lines, imported_rows.
  induction data_lines as [|line lines IH]; [reflexivity|].
  cbn [flat_map map filter]. rewrite IH, comment_of_row_spec.
  now destruct (9 <=? _)%nat.
Qed.

Lemma comments_of_scene_spec s data_lines :
  comments_of_scene s data_lines =
    map V21.comment_of_values (rows_of_scene s (imported_rows data_lines)).
Proof.
  unfold comments_of_scene. rewrite comments_of_lines_spec.
  unfold rows_of_scene.
  induction (imported_rows data_lines) as [|v rows IH]; [reflexivity|].
  cbn [map filter].
  change (szene (V21.comment_of_values v)) with (V21.at_index v 0).
  destruct (String.eqb (V21.at_index v 0) s); cbn [map]; now rewrite IH.
Qed.

Lemma no_inherited_scene_rows data_lines :
  no_inherited_scene data_lines -> rows_named_safely (imported_rows data_lines).
Proof.
  unfold no_inherited_scene, rows_named_safely.
  rewrite comments_of_lines_spec. intros H values Hin.
  apply (H (V21.comment_of_values values)). now apply in_map.
Qed.

Lemma importCSV_imports_rows csvData st header data_lines :
  V21.nonblank_lines csvData = header :: data_lines ->
  data_lines <> [] ->
  no_inherited_scene data_lines ->
  imports_rows_of_nine csvData st data_lines.
Proof.
  intros H Hne Hs. apply no_inherited_scene_rows in Hs.
  unfold imports_rows_of_nine.
  rewrite (importCSV_accepts csvData st header data_lines H Hne Hs).
  rewrite (V20_importCSV_accepts csvData st header data_lines H Hne Hs).
  set (st1 := set_comments (fold_left add_row (imported_rows data_lines) []) st).
  destruct (after_save_spec st1) as (D & _ & _ & _ & S).
  destruct (after_save20_spec st1) as (D20 & _).
  cbn [fst snd]. unfold scene.
  change (data (cache_clear (after_save st1))) with (data (after_save st1)).
  change (localStorage (cache_clear (after_save st1)))
    with (localStorage (after_save st1)).
  change (console (cache_clear (after_save st1))) with (console (after_save st1)).
  rewrite D, D20.
  change (data st1)
    with {| comments := fold_left add_row (imported_rows data_lines) [];
            rest := rest (data st) |}.
  cbn [comments rest].
  split; [reflexivity|]. split; [|split; [|split; [|split; [|split; [|split]]]]].
  - intros s. rewrite lookup_fold_add_row, comments_of_scene_spec. cbn [lookup].
    destruct (rows_of_scene s (imported_rows data_lines)); reflexivity.
  - unfold all_comments. cbn [comments]. rewrite comments_of_lines_spec.
    apply (all_comments_fold_add_row (imported_rows data_lines) []).
  - unfold all_comments. cbn [comments].
    rewrite (Permutation_length
               (all_comments_fold_add_row (imported_rows data_lines) [])).
    cbn [map concat app]. rewrite length_map. apply imported_rows_length.
  - reflexivity.
  - reflexivity.
  - intros F. change (setItem_throws st1) with (setItem_throws st) in S.
    rewrite F in S. destruct S as (_ & S & C). split; assumption.
  - split; reflexivity.
Qed.

(** C10.  On the example store, [importCSV] of a text whose one data
    line has nine values and names the scene toString does not import the
    row: [push] is not a function of what the fresh object has under that
    name, the method returns [false] with a type error logged under the
    import error, and it leaves the document without any comment, while
    the storage still holds the former document; version 2.0.0 throws,
    with the document emptied as well.  A text with one row of nine
    values and one of two is imported with result [true], as one
    comment. *)
Theorem C10_importCSV_inherited_scene_aborts :
  length (V21._parseCSVLine
            "toString,Leak at joint,10.000000,20.000000,5.000000,,2024-01-01T00:00:00.000Z,17,Anna")
    = 9%nat /\
  all_comments (data example_store) = [example_comment] /\
  (let '(ok, st') := V21.importCSV csv_with_inherited_scene example_store in
   ok = false /\
   console st' = [console_error ERROR_FILE_IMPORT TypeError] /\
   comments (data st') = [] /\
   localStorage st' = localStorage example_store /\
   localStorage st' = Some (Text (JSON_text (data example_store)))) /\
  (let '(r, st') := V20.importCSV csv_with_inherited_scene example_store in
   r = Throw TypeError /\ comments (data st') = []) /\
  fst (V21.importCSV csv_with_short_row example_store) = true /\
  length (all_comments
            (data (snd (V21.importCSV csv_with_short_row example_store)))) = 1%nat.
Proof.
  vm_compute. repeat split; reflexivity.
Qed.

(** X30.  For a text with a header line and at least one more line that
    is not blank, and in which no row of nine values or more names a scene
    inherited from [Object.prototype], [importCSV] returns [true]; the
    document then holds exactly the comments that those rows stand for,
    each in its scene and in the order of the rows, and the rows with
    fewer values leave no trace. *)
Theorem importCSV_skips_short_rows csvData st header data_lines :
  V21.nonblank_lines csvData = header :: data_lines ->
  data_lines <> [] ->
  no_inherited_scene data_lines ->
  imports_rows_of_nine csvData st data_lines.
Proof. apply importCSV_imports_rows. Qed.

(** A text with one row of nine values and one of two: one comment is
    imported. *)
Lemma importCSV_skips_short_rows_witness :
  imports_rows_of_nine csv_with_short_row example_store
    [ "Lock A,Leak at joint,10.000000,20.000000,5.000000,,2024-01-01T00:00:00.000Z,17,Anna";
      "Lock A,too short" ].
Proof.
  apply (importCSV_skips_short_rows csv_with_short_row example_store
           "Szene,Kommentar,Position_X,Position_Y,Position_Z,Feature,Datum,ID,Benutzer").
  - vm_compute. reflexivity.
  - discriminate.
  - intros c [<-|[]]. reflexivity.
Defined.

(** *** [updateComment] *)

Lemma find_update_found (p : Comment -> bool) (f : Comment -> Comment) l c0 :
  find p l = Some c0 ->
  exists pre post,
    l = pre ++ c0 :: post /\ p c0 = true /\
    (forall c, In c pre -> p c = false) /\
    update_found p f l = pre ++ f c0 :: post.
Proof.
  induction l as [|c l IH]; simpl; [discriminate|].
  destruct (p c) eqn:E.
  - intros [= ->]. exists [], l. repeat split; auto. intros ? [].
  - intros H. destruct (IH H) as (pre & post & -> & Hp & Hpre & Hu).
    exists (c :: pre), post. repeat split; auto.
    + intros c' [<-|Hc]; auto.
    + simpl. now rewrite Hu.
Qed.

(** The outcomes of [updateComment], case by case. *)
Lemma updateComment_spec commentId newText sceneName now st :
  V21.updateComment commentId newText sceneName now st =
    match comments_at sceneName st with
    | Undefined =>
        (false, console_log (console_error (Literal "Error updating comment")
                                           (Error ERROR_SCENE_NOT_FOUND)) st)
    | Inherited =>
        (false, console_log (console_error (Literal "Error updating comment")
                                           TypeError) st)
    | Own l =>
        if existsb (fun c => String.eqb (id c) commentId) l then
          (true,
           after_save
             (set_scene sceneName
                (update_found (fun c => String.eqb (id c) commentId)
                              (edit newText now) l) st))
        else
          (false, console_log (console_error (Literal "Error updating comment")
                                             (Error ERROR_COMMENT_NOT_FOUND)) st)
    end.
Proof.
  unfold V21.updateComment. run_body.
  destruct (comments_at sceneName st) as [l| |]; try reflexivity.
  destruct (find (fun c => String.eqb (id c) commentId) l) eqn:F.
  - assert (X : existsb (fun c => String.eqb (id c) commentId) l = true).
    { apply existsb_exists. apply find_some in F. eauto. }
    rewrite X, call_saveToStorage. reflexivity.
  - assert (X : existsb (fun c => String.eqb (id c) commentId) l = false).
    { apply not_true_is_false. intros H. apply existsb_exists in H as (c & Hin & Hc).
      now rewrite (find_none _ _ F c Hin) in Hc. }
    now rewrite X.
Qed.

(** C6, as the code has it.  A successful [updateComment] finds the first
    comment of the scene with the id and replaces its text and its one
    timestamp; the id, the position, the feature name, the author and the
    scene of that comment are kept, the other comments of the scene keep
    their places and their fields, and so do the other scenes and the rest
    of the document. *)
Theorem C6_updateComment_frame commentId newText sceneName now st st' :
  V21.updateComment commentId newText sceneName now st = (true, st') ->
  exists pre c post,
    scene sceneName st = Some (pre ++ c :: post) /\
    id c = commentId /\
    (forall c0, In c0 pre -> id c0 <> commentId) /\
    scene sceneName st' = Some (pre ++ edit newText now c :: post) /\
    text (edit newText now c) = newText /\
    timestamp (edit newText now c) = now /\
    id (edit newText now c) = id c /\
    position_x (edit newText now c) = position_x c /\
    position_y (edit newText now c) = position_y c /\
    position_z (edit newText now c) = position_z c /\
    featureName (edit newText now c) = featureName c /\
    user (edit newText now c) = user c /\
    szene (edit newText now c) = szene c /\
    (forall s, s <> sceneName -> scene s st' = scene s st) /\
    keys (comments (data st')) = keys (comments (data st)) /\
    rest (data st') = rest (data st).
Proof.
  rewrite updateComment_spec.
  destruct (comments_at_cases sceneName st)
    as [(l & H & C)|[(H & I & C)|(H & I & C)]]; rewrite C; try discriminate.
  destruct (existsb _ l) eqn:X; [|discriminate].
  intros [= <-].
  destruct (find (fun c => String.eqb (id c) commentId) l) as [c|] eqn:F.
  2:{ apply existsb_exists in X as (c & Hin & Hc).
      now rewrite (find_none _ _ F c Hin) in Hc. }
  destruct (find_update_found _ (edit newText now) l c F)
    as (pre & post & -> & Hp & Hpre & Hu).
  exists pre, c, post. rewrite Hu.
  destruct (after_save_spec
              (set_scene sceneName (pre ++ edit newText now c :: post) st))
    as (D & _).
  unfold scene in *. rewrite D. unfold set_scene. simpl.
  rewrite lookup_assign_same.
  repeat split; auto.
  - now apply String.eqb_eq.
  - intros c0 Hc0. apply String.eqb_neq. auto.
  - intros s Hs. now apply lookup_assign_other.
  - eapply keys_assign_present. exact H.
Qed.

(** An edit of the comment of the example store. *)
Lemma C6_updateComment_frame_witness :
  exists pre c post,
    scene "Lock A" example_store = Some (pre ++ c :: post) /\
    id c = "1700000000000" /\
    text (edit "Leak repaired" "2024-02-02T00:00:00.000Z" c) = "Leak repaired".
Proof.
  destruct (C6_updateComment_frame "1700000000000" "Leak repaired" "Lock A"
              "2024-02-02T00:00:00.000Z" example_store _ eq_refl)
    as (pre & c & post & H1 & H2 & _ & _ & H3 & _).
  exists pre, c, post. auto.
Defined.

(** C6, as stated, fails: a comment has one timestamp, the one that
    [saveComment] set when the comment was created, and a successful
    [updateComment] overwrites it. *)
Lemma C6_updateComment_overwrites_creation_timestamp :
  fst edited_store = true /\
  map timestamp (all_comments (data example_store)) = ["2023-11-14T22:13:20.000Z"] /\
  map timestamp (all_comments (data (snd edited_store)))
    = ["2024-02-02T00:00:00.000Z"] /\
  map timestamp (all_comments (data (snd edited_store))) <>
    map timestamp (all_comments (data example_store)).
Proof.
  vm_compute. repeat split; try reflexivity. discriminate.
Qed.

(** *** [saveComment] and [loadComments] *)

Lemma truthy_nonempty s : s <> "" -> JS.truthy s = true.
Proof. destruct s; [congruence|reflexivity]. Qed.

(** The outcomes of [saveComment]: for an inherited name that is no
    scene of the document, [push] is not a function of what is found
    there, nothing is added and the result is null; otherwise the comment
    goes to the end of its scene, [saveToStorage] is called, and the
    record is returned, whether the storage accepted the write or not. *)
Lemma saveComment_spec sceneName commentText pos feature userName generatedId now st :
  let c := new_comment sceneName commentText pos feature userName generatedId now in
  V21.saveComment sceneName commentText pos feature userName generatedId now st =
    match comments_at sceneName st with
    | Inherited =>
        (None,
         console_log (console_error (Literal "Error saving comment") TypeError) st)
    | _ =>
        (Some {| stored := c; position := pos |},
         after_save
           (set_comments (push_comment sceneName c (comments (data st))) st))
    end.
Proof.
  unfold V21.saveComment, push_comment. run_body.
  fold (new_comment sceneName commentText pos feature userName generatedId now).
  destruct (comments_at_cases sceneName st)
    as [(l & S & C)|[(S & I & C)|(S & I & C)]]; rewrite C.
  - rewrite C, call_saveToStorage. unfold set_scene. unfold scene in S.
    now rewrite S.
  - now rewrite C.
  - rewrite comments_at_set_scene, call_saveToStorage.
    unfold set_scene. unfold scene in S. rewrite S.
    cbn [data set_comments set_data comments rest].
    now rewrite assign_assign.
Qed.

(** [loadComments], case by case: an empty name, a scene of the cache,
    and a scene that is read from the document and cached; for an
    inherited name that is no scene of the document, [map] is not a
    function of what is found there, the error is logged and the empty
    list is cached. *)
Lemma loadComments_spec sceneName st :
  V21.loadComments sceneName st =
    if negb (JS.truthy sceneName) then
      ([], console_log
             (console_warn (Literal "No scene name provided to loadComments")) st)
    else
      match lookup sceneName (_cache st) with
      | Some cached => (cached, st)
      | None =>
          (scene_comments sceneName st,
           set_cache
             (Map_set sceneName (scene_comments sceneName st)
                     (if (_maxCacheSize st <=? length (_cache st))%nat
                      then tl (_cache st) else _cache st))
             match comments_at sceneName st with
             | Inherited =>
                 console_log
                   (console_error
                      (Literal ("Error loading comments for scene: " ++ sceneName))
                      TypeError) st
             | _ => st
             end)
      end.
Proof.
  unfold V21.loadComments. destruct (negb (JS.truthy sceneName)); auto.
  destruct (lookup sceneName (_cache st)); auto.
  run_method. unfold scene_comments.
  destruct (comments_at_cases sceneName st)
    as [(l & S & C)|[(S & I & C)|(S & I & C)]]; rewrite C, S;
    unfold console_log, API_console; cbn [_maxCacheSize _cache];
    now destruct (_maxCacheSize st <=? length (_cache st))%nat.
Qed.

Lemma saveComment_reads_back st sceneKey text0 pos feature author generatedId now :
  sceneKey <> "" ->
  comments_at sceneKey st <> Inherited ->
  setItem_throws st = false \/ lookup sceneKey (_cache st) = None ->
  reads_back_new_record st sceneKey text0 pos feature author generatedId now.
Proof.
  intros Hne Hin Hc. unfold reads_back_new_record.
  rewrite saveComment_spec. cbv zeta.
  set (c := new_comment sceneKey text0 pos feature author generatedId now).
  set (st0 := set_comments (push_comment sceneKey c (comments (data st))) st).
  assert (S1 : scene sceneKey (after_save st0) =
               Some (match scene sceneKey st with Some l => l | None => [] end
                     ++ [c])).
  { destruct (after_save_spec st0) as (D & _). unfold scene. rewrite D.
    apply lookup_assign_same. }
  assert (L : lookup sceneKey (_cache (after_save st0)) = None).
  { destruct (after_save_spec st0) as (_ & _ & _ & _ & S).
    change (setItem_throws st0) with (setItem_throws st) in S.
    destruct (setItem_throws st).
    - destruct S as (-> & _). destruct Hc as [Hc|Hc]; [discriminate|exact Hc].
    - now destruct S as (-> & _). }
  assert (E : V21.saveComment sceneKey text0 pos feature author generatedId now st
              = (Some {| stored := c; position := pos |}, after_save st0)).
  { rewrite saveComment_spec. fold c. fold st0.
    destruct (comments_at sceneKey st); congruence. }
  rewrite saveComment_spec in E. cbv zeta in E. fold c in E. fold st0 in E.
  rewrite E.
  rewrite loadComments_spec, (truthy_nonempty _ Hne), L. cbn [negb].
  unfold scene_comments at 1. rewrite S1.
  eexists. split; [reflexivity|]. split.
  - unfold scene_comments. rewrite map_app. destruct pos; reflexivity.
  - repeat split; try reflexivity.
    cbn. destruct feature as [[|a f]|]; try reflexivity. congruence.
Qed.

(** C7.  On the example store, [saveComment] for the scene constructor,
    a name that every object inherits, saves nothing: [push] is not a
    function of what [data.comments] has under that name, the method
    returns null with a type error logged, and [loadComments] of the
    scene then returns the empty list.  And when the storage refuses the
    write while the scene is in the cache, [saveComment] returns the
    record and adds it to the document, but the cache is not emptied, and
    [loadComments] then returns the list without the record. *)
Theorem C7_saveComment_inherited_scene_name_saves_nothing :
  (let '(saved, st1) :=
     V21.saveComment "constructor" "Leak at joint" example_position None "Anna"
                     "1700000000001" "2024-01-01T00:00:00.000Z" example_store in
   saved = None /\
   st1 = console_log (console_error (Literal "Error saving comment") TypeError)
                     example_store /\
   fst (V21.loadComments "constructor" st1) = []) /\
  (let '(saved, st1) :=
     V21.saveComment "Lock A" "Leak at joint" example_position None "Anna"
                     "1700000000001" "2024-01-01T00:00:00.000Z"
                     cached_store_on_full_storage in
   exists record,
     saved = Some record /\
     scene "Lock A" st1 = Some [example_comment; stored record] /\
     fst (V21.loadComments "Lock A" st1) = [materialize example_comment]).
Proof.
  split.
  - vm_compute. repeat split; reflexivity.
  - vm_compute. eexists. repeat split; reflexivity.
Qed.

(** X29.  For a scene key that is not empty and is a scene of the
    document or no inherited name, and when the storage accepts the write or the
    scene is not in the cache: [saveComment] returns a record, and
    [loadComments] of the scene then returns the comments that the scene
    had, followed by exactly that record, whose fields are those of the
    call and whose id is the generated string. *)
Theorem saveComment_then_loadComments st sceneKey text0 pos feature author
    generatedId now :
  sceneKey <> "" ->
  comments_at sceneKey st <> Inherited ->
  setItem_throws st = false \/ lookup sceneKey (_cache st) = None ->
  reads_back_new_record st sceneKey text0 pos feature author generatedId now.
Proof. apply saveComment_reads_back. Qed.

(** A second comment in the scene of the example store. *)
Lemma saveComment_then_loadComments_witness :
  reads_back_new_record example_store "Lock A" "Leak at joint" example_position
                        None "Anna" "1700000000001" "2024-01-01T00:00:00.000Z".
Proof.
  apply saveComment_then_loadComments.
  - discriminate.
  - discriminate.
  - left. reflexivity.
Defined.

(** *** The placement workflow *)

(** C8.  With a pending position and an input that is empty or blank,
    [addComment] only shows the warning: the manager is the one before
    with that toast added, so the mode, the pending position and feature,
    the list of comments and the whole state of the store (document, cache,
    storage, number of writes, console) are as they were.  This holds in
    both versions. *)
Theorem C8_blank_text_is_rejected m pos value generatedId Date_now now :
  pendingPosition m = Some pos ->
  commentInput m = Some value ->
  JS.trim value = "" ->
  let m21 := CommentsManager21.addComment generatedId now m in
  let m20 := CommentsManager20.addComment Date_now now m in
  m21 = showToast COMMENT_NO_TEXT "warning" m /\
  m20 = showToast (Literal "Bitte geben Sie einen Kommentar ein") "warning" m /\
  api m21 = api m /\ api m20 = api m /\
  isCommentMode m21 = isCommentMode m /\ isCommentMode m20 = isCommentMode m /\
  pendingPosition m21 = Some pos /\ pendingPosition m20 = Some pos /\
  pendingFeature m21 = pendingFeature m /\ pendingFeature m20 = pendingFeature m /\
  currentSceneComments m21 = currentSceneComments m /\
  currentSceneComments m20 = currentSceneComments m.
Proof.
  intros Hp Hi Ht.
  assert (E21 : CommentsManager21.addComment generatedId now m
                = showToast COMMENT_NO_TEXT "warning" m).
  { unfold CommentsManager21.addComment. now rewrite Hi, Ht. }
  assert (E20 : CommentsManager20.addComment Date_now now m
                = showToast (Literal "Bitte geben Sie einen Kommentar ein")
                            "warning" m).
  { unfold CommentsManager20.addComment. rewrite Hp, Hi. simpl. now rewrite Ht. }
  cbv zeta. rewrite E21, E20. simpl. repeat split; auto.
Qed.

(** The example manager, whose input holds three spaces. *)
Lemma C8_blank_text_is_rejected_witness :
  CommentsManager21.addComment "1700000000001" "2024-01-01T00:00:00.000Z"
                               example_manager
  = showToast COMMENT_NO_TEXT "warning" example_manager /\
  api (CommentsManager20.addComment 1700000000001 "2024-01-01T00:00:00.000Z"
                                    example_manager)
  = example_store.
Proof.
  destruct (C8_blank_text_is_rejected example_manager example_position "   "
              "1700000000001" 1700000000001%N "2024-01-01T00:00:00.000Z"
              eq_refl eq_refl eq_refl)
    as (H1 & _ & _ & H4 & _).
  split; [exact H1 | exact H4].
Defined.

(** *** The ids of [saveComment] *)

Lemma to_uint_nonnil n : N.to_uint n <> Decimal.Nil.
Proof.
  destruct n; [discriminate|]. apply DecimalPos.Unsigned.to_uint_nonnil.
Qed.

(** [Date.now().toString()] is injective. *)
Lemma decimal_inj n n' : JS.decimal n = JS.decimal n' -> n = n'.
Proof.
  unfold JS.decimal. intros H.
  apply DecimalN.Unsigned.to_uint_inj.
  assert (E : forall m, NilZero.uint_of_string
                          (NilZero.string_of_uint (N.to_uint m))
                        = Some (N.to_uint m))
    by (intros m; apply NilZero.usu, to_uint_nonnil).
  pose proof (E n) as En. rewrite H, E in En. now injection En.
Qed.

Lemma all_comments_push sceneName c m :
  Permutation (concat (map snd (push_comment sceneName c m)))
              (concat (map snd m) ++ [c]).
Proof.
  unfold push_comment. destruct (lookup sceneName m) as [l|] eqn:L.
  - now apply concat_assign_present.
  - now apply concat_assign_absent.
Qed.

Lemma V20_saveComment_spec sceneName comment pos feature userName Date_now now st :
  let c := new_comment sceneName comment pos feature userName
                       (JS.decimal Date_now) now in
  V20.saveComment sceneName comment pos feature userName Date_now now st =
    match comments_at sceneName st with
    | Inherited => (Throw TypeError, st)
    | _ =>
        (Return {| stored := c; position := pos |},
         after_save20
           (set_comments (push_comment sceneName c (comments (data st))) st))
    end.
Proof.
  unfold V20.saveComment, push_comment. run_body.
  fold (new_comment sceneName comment pos feature userName (JS.decimal Date_now) now).
  destruct (comments_at_cases sceneName st)
    as [(l & S & C)|[(S & I & C)|(S & I & C)]]; rewrite C.
  - rewrite C, call_saveToStorage20. unfold set_scene. unfold scene in S.
    now rewrite S.
  - now rewrite C.
  - rewrite comments_at_set_scene, call_saveToStorage20.
    unfold set_scene. unfold scene in S. rewrite S.
    cbn [data set_comments set_data comments rest].
    now rewrite assign_assign.
Qed.

(** The ids of the document after one call: those it had, and the new
    one when the call saved a comment. *)
Lemma ids_after_save20 sceneName comment pos feature userName Date_now now st :
  let st' := snd (V20.saveComment sceneName comment pos feature userName
                                  Date_now now st) in
  ids st' = ids st \/ Permutation (ids st') (ids st ++ [JS.decimal Date_now]).
Proof.
  cbv zeta. rewrite V20_saveComment_spec. cbv zeta.
  assert (P : Permutation
                (ids (after_save20
                        (set_comments
                           (push_comment sceneName
                              (new_comment sceneName comment pos feature userName
                                           (JS.decimal Date_now) now)
                              (comments (data st))) st)))
                (ids st ++ [JS.decimal Date_now])).
  { unfold ids, all_comments.
    destruct (after_save20_spec
                (set_comments
                   (push_comment sceneName
                      (new_comment sceneName comment pos feature userName
                                   (JS.decimal Date_now) now)
                      (comments (data st))) st)) as (-> & _).
    cbn [data set_comments set_data comments].
    now rewrite (Permutation_map id (all_comments_push _ _ _)), map_app. }
  destruct (comments_at sceneName st); auto.
Qed.

Lemma ids_after_save21 sceneName text0 pos feature userName generatedId now st :
  let st' := snd (V21.saveComment sceneName text0 pos feature userName
                                  generatedId now st) in
  ids st' = ids st \/ Permutation (ids st') (ids st ++ [generatedId]).
Proof.
  cbv zeta. rewrite saveComment_spec. cbv zeta.
  assert (P : Permutation
                (ids (after_save
                        (set_comments
                           (push_comment sceneName
                              (new_comment sceneName text0 pos feature userName
                                           generatedId now)
                              (comments (data st))) st)))
                (ids st ++ [generatedId])).
  { unfold ids, all_comments.
    destruct (after_save_spec
                (set_comments
                   (push_comment sceneName
                      (new_comment sceneName text0 pos feature userName
                                   generatedId now)
                      (comments (data st))) st)) as (-> & _).
    cbn [data set_comments set_data comments].
    now rewrite (Permutation_map id (all_comments_push _ _ _)), map_app. }
  destruct (comments_at sceneName st); auto.
Qed.

(** The ids stay pairwise different through a sequence of calls when the
    ids of the document and the ids of the calls are pairwise different:
    a call adds its id, or adds nothing. *)
Lemma ids_run_saves calls : forall st,
  NoDup (ids st ++ map (fun c => JS.decimal (call_clock c)) calls) ->
  NoDup (ids (run_saves calls st)).
Proof.
  induction calls as [|c calls IH]; intros st H; simpl.
  - now rewrite app_nil_r in H.
  - apply IH. cbn [map] in H.
    destruct (ids_after_save20 (call_scene c) (call_text c) (call_position c)
                (call_feature c) (call_user c) (call_clock c) (call_now c) st)
      as [E|P].
    + rewrite E. now apply NoDup_remove_1 in H.
    + eapply Permutation_NoDup; [|exact H].
      rewrite P, <- app_assoc. reflexivity.
Qed.

Lemma ids_run_saves21 calls : forall st,
  NoDup (ids st ++ map call21_id calls) ->
  NoDup (ids (run_saves21 calls st)).
Proof.
  induction calls as [|c calls IH]; intros st H; simpl.
  - now rewrite app_nil_r in H.
  - apply IH. cbn [map] in H.
    destruct (ids_after_save21 (call21_scene c) (call21_text c)
                (call21_position c) (call21_feature c) (call21_user c)
                (call21_id c) (call21_now c) st)
      as [E|P].
    + rewrite E. now apply NoDup_remove_1 in H.
    + eapply Permutation_NoDup; [|exact H].
      rewrite P, <- app_assoc. reflexivity.
Qed.

(** In version 2.1.0 the ids of the document are among those that
    [generateId] returned: they are unique when those are. *)
Lemma ids_unique_if_generated_unique calls version size :
  NoDup (map call21_id calls) ->
  NoDup (ids (run_saves21 calls (V21.constructor None version size))).
Proof.
  intros H. apply ids_run_saves21. exact H.
Qed.

(** C5, as the code has it.  Starting from the empty document, after any
    sequence of [saveComment] calls whose readings of the clock are
    pairwise different, the ids of all comments of the document, whatever
    their scenes, are pairwise different. *)
Theorem C5_ids_unique_for_distinct_clock calls :
  NoDup (map call_clock calls) ->
  NoDup (ids (run_saves calls (V20.constructor None))).
Proof.
  intros H. apply ids_run_saves.
  change (ids (V20.constructor None)) with (@nil string). cbn [app].
  rewrite <- (map_map call_clock JS.decimal).
  apply Finite.Injective_map_NoDup; auto.
  intros a b. apply decimal_inj.
Qed.

(** Two calls a millisecond apart. *)
Lemma C5_ids_unique_for_distinct_clock_witness :
  NoDup (ids (run_saves next_millisecond (V20.constructor None))).
Proof.
  apply C5_ids_unique_for_distinct_clock.
  repeat constructor; simpl; intuition discriminate.
Defined.

(** C5, as stated, fails: two calls in the same millisecond, here in two
    scenes, give two comments with the same id. *)
Lemma C5_same_millisecond_same_id :
  ids (run_saves same_millisecond (V20.constructor None))
    = ["1700000000000"; "1700000000000"] /\
  ~ NoDup (ids (run_saves same_millisecond (V20.constructor None))).
Proof.
  split; [reflexivity|].
  intros H. change (NoDup ["1700000000000"; "1700000000000"]) in H.
  inversion H as [|? ? Hin _]. apply Hin. now left.
Qed.

(** *** [importData] and [exportJSON] *)

(** A text that does not parse, or whose value fails the check: the body
    throws, [safeExecute] logs the error under [ERROR_FILE_IMPORT], and
    the method returns [false]; document, cache and storage are not
    touched. *)
Lemma importData_rejects JSON_parse jsonData e st :
  V21.parse_and_check JSON_parse jsonData = Throw e ->
  V21.importData JSON_parse jsonData st =
    Some (false, console_log (console_error ERROR_FILE_IMPORT e) st).
Proof.
  intros H. unfold V21.importData. now rewrite H.
Qed.

(** A text whose value passes the check and is a document [d]. *)
Lemma importData_accepts JSON_parse jsonData parsed d st :
  V21.parse_and_check JSON_parse jsonData = Return parsed ->
  fromJSON parsed = Some d ->
  V21.importData JSON_parse jsonData st =
    Some (true, cache_clear (after_save (set_data d st))).
Proof.
  intros H F. unfold V21.importData. rewrite H, F.
  run_body. rewrite call_saveToStorage. reflexivity.
Qed.




(** What [importData] does on a text that [JSON.parse] refuses or whose
    value fails the check, for every parser, text and state: it logs
    the error and returns [false], and the document, the cache and the
    storage are as before.  The check fails with a [SyntaxError] when the
    text does not parse, with a [TypeError] when the value is null, and
    with [ERROR_INVALID_JSON] when [comments] is falsy or not of type
    object. *)
Lemma importData_failure JSON_parse jsonData e st :
  V21.parse_and_check JSON_parse jsonData = Throw e ->
  V21.importData JSON_parse jsonData st =
    Some (false, console_log (console_error ERROR_FILE_IMPORT e) st) /\
  match JSON_parse jsonData with
  | None => e = SyntaxError
  | Some JNull => e = TypeError
  | Some parsed =>
      e = Error ERROR_INVALID_JSON /\
      exists c, get_property "comments" parsed = Return c /\
                (truthy_value c = false \/ typeof_object c = false)
  end.
Proof.
  intros P. split; [now apply importData_rejects|].
  revert P. unfold V21.parse_and_check.
  destruct (JSON_parse jsonData) as [v|]; [|now intros [= <-]].
  destruct v as [|b|n|s|l|props]; cbn [get_property];
    try (now intros [= <-]);
    try (cbn; intros [= <-]; split; auto; exists None; auto).
  destruct (negb (truthy_value (lookup "comments" props))
            || negb (typeof_object (lookup "comments" props))) eqn:C;
    [|discriminate].
  intros [= <-]. split; auto. exists (lookup "comments" props). split; auto.
  apply orb_true_iff in C. destruct C as [C|C]; apply negb_true_iff in C; auto.
Qed.

(** C4, on the code.  The claim, and the documentation of the method
    ([@throws {Error} If JSON is invalid or data structure is wrong]),
    say that [importData] throws on invalid JSON and on a document
    without a [comments] object.  The method of version 2.1.0 does not:
    with a parser that knows the texts of the example, the call on a text
    that is no JSON, and the call on the text of an object without
    [comments], complete normally with [false], after logging the error
    under [ERROR_FILE_IMPORT]; the store is otherwise as before.  The
    method of version 2.0.0 throws on the same text. *)
Theorem C4_importData_failure_returns_false :
  V21.importData example_parser "no JSON" example_store =
    Some (false,
          console_log (console_error ERROR_FILE_IMPORT SyntaxError) example_store) /\
  V21.importData example_parser "{}" example_store =
    Some (false,
          console_log (console_error ERROR_FILE_IMPORT (Error ERROR_INVALID_JSON))
                      example_store) /\
  V20.importData example_parser "{}" example_store =
    Some (Throw (Error (Literal "Invalid data structure")), example_store).
Proof.
  repeat split; vm_compute; reflexivity.
Qed.

(** The text of an object whose [comments] is an array passes the check. *)
Lemma comments_array_passes_check :
  V21.parse_and_check example_parser comments_array_text
  = Return (JObj [("comments", JArr [])]).
Proof. vm_compute. reflexivity. Qed.

(** *** The JSON round trip *)






(** ** Further properties of the code *)

(** *** The lines of the CSV export, read back *)

Lemma string_app_assoc (a b c : string) : ((a ++ b) ++ c = a ++ (b ++ c))%string.
Proof. induction a; simpl; congruence. Qed.

Lemma string_app_nil_r (a : string) : (a ++ "" = a)%string.
Proof. induction a; simpl; congruence. Qed.

Lemma free_of_app p (a b : string) :
  free_of p (a ++ b) = free_of p a && free_of p b.
Proof.
  induction a as [|c a IH]; simpl; auto.
  rewrite IH. now rewrite andb_assoc.
Qed.

Lemma replace_quotes_free s :
  free_of is_quote s = true -> JS.replace_quotes s = s.
Proof.
  induction s as [|c s IH]; simpl; auto.
  unfold is_quote at 1. destruct (Ascii.eqb c JS.quote); simpl; try discriminate.
  intros H. now rewrite IH.
Qed.

Lemma strip_quotes_free s :
  free_of is_quote s = true -> strip_quotes s = s.
Proof.
  induction s as [|c s IH]; simpl; auto.
  unfold is_quote at 1. destruct (Ascii.eqb c JS.quote); simpl; try discriminate.
  intros H. now rewrite IH.
Qed.

(** Inside quotes, an escaped value is read up to its end with its double
    quotes dropped; commas are kept. *)
Lemma parse_chars_escaped s rest result current :
  V21.parse_chars (JS.replace_quotes s ++ rest) result current true =
  V21.parse_chars rest result (current ++ strip_quotes s) true.
Proof.
  revert current. induction s as [|c s IH]; intros current; simpl.
  - now rewrite string_app_nil_r.
  - destruct (Ascii.eqb c JS.quote) eqn:E; simpl.
    + apply IH.
    + rewrite E, andb_false_r, IH, string_app_assoc. reflexivity.
Qed.

Lemma quoted_app s rest :
  (V21.quoted s ++ rest = String JS.quote (s ++ String JS.quote rest))%string.
Proof.
  unfold V21.quoted. simpl. f_equal.
  rewrite string_app_assoc. reflexivity.
Qed.

Lemma parse_quoted_field s rest result :
  V21.parse_chars (V21.quoted (JS.replace_quotes s) ++ String JS.comma rest)
                  result "" false =
  V21.parse_chars rest (result ++ [strip_quotes s]) "" false.
Proof.
  rewrite quoted_app. simpl.
  rewrite parse_chars_escaped. reflexivity.
Qed.

Lemma parse_quoted_last s result :
  V21.parse_chars (V21.quoted (JS.replace_quotes s)) result "" false =
  result ++ [strip_quotes s].
Proof.
  rewrite <- (string_app_nil_r (V21.quoted _)), quoted_app. simpl.
  rewrite parse_chars_escaped. reflexivity.
Qed.

Lemma parse_bare_field f rest result current :
  free_of is_quote f = true -> free_of is_comma f = true ->
  V21.parse_chars (f ++ String JS.comma rest) result current false =
  V21.parse_chars rest (result ++ [(current ++ f)%string]) "" false.
Proof.
  revert current. induction f as [|c f IH]; intros current; simpl.
  - intros _ _. rewrite string_app_nil_r. reflexivity.
  - unfold is_quote at 1, is_comma at 1.
    destruct (Ascii.eqb c JS.quote); simpl; try discriminate.
    destruct (Ascii.eqb c JS.comma); simpl; try discriminate.
    intros Hq Hc. rewrite (IH _ Hq Hc), string_app_assoc. reflexivity.
Qed.

Lemma comma_app (r : string) : ("," ++ r = String JS.comma r)%string.
Proof. reflexivity. Qed.

(** **** The characters of [toFixed] *)

Lemma free_of_digits p s :
  (forall c, JS.is_digit c = true -> p c = false) ->
  all_digits s = true -> free_of p s = true.
Proof.
  intros Hp. induction s as [|c s IH]; simpl; auto.
  intros H. apply andb_true_iff in H as [Hc Hs].
  now rewrite (Hp _ Hc), IH.
Qed.

Lemma free_of_toString_large p X :
  (forall c, JS.is_digit c = true -> p c = false) ->
  p "."%char = false -> p "e"%char = false -> p "+"%char = false ->
  free_of p (JS.toString_large X) = true.
Proof.
  intros Hd Hp He Hplus. unfold JS.toString_large.
  destruct (JS.shortest 17 1 (String.length (JS.decimal X)) X) as [[s k] n].
  rewrite free_of_app. simpl. rewrite He, Hplus. simpl.
  rewrite (free_of_digits p _ Hd (decimal_all_digits _)), andb_true_r.
  pose proof (fixed_digits_all_digits k s) as D.
  destruct (JS.fixed_digits k s) as [|c [|c' r]]; simpl in *; auto.
  - apply andb_true_iff in D as [Dc _]. now rewrite (Hd _ Dc).
  - apply andb_true_iff in D as [Dc D]. rewrite (Hd _ Dc), Hp. simpl.
    apply (free_of_digits p (String c' r) Hd D).
Qed.

Lemma free_of_toFixed p x :
  (forall c, JS.is_digit c = true -> p c = false) ->
  p "."%char = false -> p "e"%char = false -> p "+"%char = false ->
  p "-"%char = false ->
  free_of p "NaN" = true -> free_of p "Infinity" = true ->
  free_of p (JS.toFixed 6 x) = true.
Proof.
  intros Hd Hp He Hplus Hm HN HI.
  assert (F : forall n, free_of p ("." ++ JS.fixed_digits 6 n) = true).
  { intros n. rewrite free_of_app. simpl free_of at 1. rewrite Hp. simpl.
    apply (free_of_digits p _ Hd (fixed_digits_all_digits 6 n)). }
  destruct x as [s| [|] | | s m e]; unfold JS.toFixed.
  - rewrite free_of_app, F. simpl. now rewrite (Hd "0"%char eq_refl).
  - simpl in *. now rewrite Hm, HI.
  - exact HI.
  - exact HN.
  - rewrite free_of_app.
    assert (S : free_of p (if s then "-" else "") = true)
      by (destruct s; simpl; [now rewrite Hm|reflexivity]).
    rewrite S, andb_true_l.
    destruct (10 ^ 21 <=? JS.magnitude_floor m e)%N.
    + now apply free_of_toString_large.
    + rewrite free_of_app, F, andb_true_r.
      apply (free_of_digits p _ Hd (decimal_all_digits _)).
Qed.

Lemma digit_is_not_special c :
  JS.is_digit c = true ->
  is_quote c = false /\ is_comma c = false /\ is_LF c = false.
Proof.
  destruct c as [[] [] [] [] [] [] [] []]; vm_compute; intuition congruence.
Qed.

Lemma toFixed_plain x :
  free_of is_quote (JS.toFixed 6 x) = true /\
  free_of is_comma (JS.toFixed 6 x) = true /\
  free_of is_LF (JS.toFixed 6 x) = true.
Proof.
  repeat split; apply free_of_toFixed; try reflexivity;
    intros c Hc; apply digit_is_not_special in Hc; tauto.
Qed.

(** X1.  A value written by [_escapeCsvValue] between double quotes is
    read by [_parseCSVLine] as one value, whatever commas, line feeds or
    double quotes it holds: the value without its double quotes.  It is
    the value itself exactly when it holds no double quote. *)
Theorem parse_escaped_value_strips_quotes (value : string) :
  V21._parseCSVLine (V21.quoted (V21._escapeCsvValue value)) = [strip_quotes value] /\
  (if free_of is_quote value
   then strip_quotes value = value
   else String.length (strip_quotes value) < String.length value).
Proof.
  split.
  - unfold V21._parseCSVLine, V21._escapeCsvValue. now rewrite parse_quoted_last.
  - destruct (free_of is_quote value) eqn:F.
    + now apply strip_quotes_free.
    + assert (L : String.length (strip_quotes value) <= String.length value).
      { clear F. induction value as [|c s IH]; simpl; auto.
        destruct (Ascii.eqb c JS.quote); simpl; lia. }
      revert F L. induction value as [|c s IH]; simpl; try discriminate.
      unfold is_quote at 1.
      assert (L' : String.length (strip_quotes s) <= String.length s).
      { clear. induction s as [|c s IH]; simpl; auto.
        destruct (Ascii.eqb c JS.quote); simpl; lia. }
      destruct (Ascii.eqb c JS.quote); simpl; intros F _.
      * lia.
      * specialize (IH F L'). lia.
Qed.

Lemma parse_csv_row sceneName c px py pz :
  free_of is_quote (timestamp c) = true ->
  free_of is_quote (id c) = true ->
  V21._parseCSVLine (JS.join "," (csv_row sceneName c px py pz)) =
    row_values sceneName c px py pz.
Proof.
  intros Ht Hi. unfold V21._parseCSVLine, csv_row, row_values.
  replace (V21.quoted (timestamp c))
    with (V21.quoted (JS.replace_quotes (timestamp c)))
    by now rewrite (replace_quotes_free _ Ht).
  replace (V21.quoted (id c))
    with (V21.quoted (JS.replace_quotes (id c)))
    by now rewrite (replace_quotes_free _ Hi).
  cbn [JS.join].
  rewrite !comma_app.
  destruct (toFixed_plain px) as (Qx & Cx & _).
  destruct (toFixed_plain py) as (Qy & Cy & _).
  destruct (toFixed_plain pz) as (Qz & Cz & _).
  rewrite !parse_quoted_field.
  rewrite (parse_bare_field _ _ _ _ Qx Cx), (parse_bare_field _ _ _ _ Qy Cy),
          (parse_bare_field _ _ _ _ Qz Cz).
  rewrite !parse_quoted_field, parse_quoted_last.
  rewrite (strip_quotes_free _ Ht), (strip_quotes_free _ Hi).
  reflexivity.
Qed.

(** X2.  The line that [exportCSV] writes for a comment is read by
    [_parseCSVLine] as exactly nine values when the timestamp and the id,
    which are written without escaping, hold no double quote: the scene,
    the text, the feature name and the author without their double
    quotes, the three coordinates as [toFixed(6)] wrote them, and the
    timestamp and the id.  Commas inside the texts do not split them. *)
Theorem exported_row_parses_to_nine_values sceneName c px py pz :
  free_of is_quote (timestamp c) = true ->
  free_of is_quote (id c) = true ->
  V21._parseCSVLine (JS.join "," (csv_row sceneName c px py pz)) =
    row_values sceneName c px py pz.
Proof. apply parse_csv_row. Qed.

Lemma exported_row_parses_to_nine_values_witness :
  V21._parseCSVLine
    (JS.join "," (csv_row "Lock A" example_comment
                          (JS.of_Z 10) (JS.of_Z 20) (JS.of_Z 5))) =
  row_values "Lock A" example_comment (JS.of_Z 10) (JS.of_Z 20) (JS.of_Z 5).
Proof.
  apply (exported_row_parses_to_nine_values "Lock A" example_comment);
    reflexivity.
Defined.

(** **** Lines and rows *)

Lemma split_nonempty sep s : JS.split sep s <> [].
Proof.
  induction s as [|c s IH]; simpl; try discriminate.
  destruct (Ascii.eqb c sep); try discriminate.
  destruct (JS.split sep s); discriminate.
Qed.

Lemma split_LF_free s : free_of is_LF s = true -> JS.split JS.LF s = [s].
Proof.
  induction s as [|c s IH]; simpl; auto.
  unfold is_LF at 1. destruct (Ascii.eqb c JS.LF); simpl; try discriminate.
  intros H. now rewrite (IH H).
Qed.

Lemma split_LF_app a rest :
  free_of is_LF a = true ->
  JS.split JS.LF (a ++ String JS.LF rest) = a :: JS.split JS.LF rest.
Proof.
  induction a as [|c a IH]; simpl; auto.
  unfold is_LF at 1. destruct (Ascii.eqb c JS.LF); simpl; try discriminate.
  intros H. now rewrite (IH H).
Qed.

Lemma split_join_lines l :
  l <> [] -> Forall (fun s => free_of is_LF s = true) l ->
  JS.split JS.LF (JS.join (String JS.LF "") l) = l.
Proof.
  induction l as [|a l IH]; [congruence|].
  intros _ F. inversion F as [|? ? Fa Fl]; subst.
  destruct l as [|b l].
  - simpl. now apply split_LF_free.
  - change (JS.join (String JS.LF "") (a :: b :: l))
      with (a ++ String JS.LF (JS.join (String JS.LF "") (b :: l)))%string.
    rewrite (split_LF_app _ _ Fa). f_equal. apply IH; [discriminate|exact Fl].
Qed.

Lemma trim_starts c r : JS.is_ws c = false -> JS.truthy (JS.trim (String c r)) = true.
Proof.
  intros H. unfold JS.trim. simpl JS.trimStart. rewrite H.
  simpl. rewrite H. now destruct (JS.trimEnd r).
Qed.

Lemma exported_row_nonblank e : JS.truthy (JS.trim (exported_row e)) = true.
Proof.
  unfold exported_row, csv_row. cbn [JS.join]. rewrite quoted_app.
  now apply trim_starts.
Qed.

Lemma free_of_quoted p s :
  p JS.quote = false -> free_of p (V21.quoted s) = free_of p s.
Proof.
  intros H. unfold V21.quoted. simpl. rewrite H. simpl.
  rewrite free_of_app. simpl. rewrite H. simpl. apply andb_true_r.
Qed.

Lemma plain_string_spec s :
  plain_string s = true -> free_of is_quote s = true /\ free_of is_LF s = true.
Proof. unfold plain_string. intros H. now apply andb_true_iff in H. Qed.

Lemma plain_comment_spec c :
  plain_comment c = true ->
  plain_string (text c) = true /\ plain_string (or_empty (featureName c)) = true /\
  plain_string (timestamp c) = true /\ plain_string (id c) = true /\
  plain_string (user c) = true.
Proof.
  unfold plain_comment. intros H.
  do 4 (apply andb_true_iff in H as [H ?]). repeat split; assumption.
Qed.

Lemma exported_row_one_line e :
  plain_string (fst e) = true -> plain_comment (snd e) = true ->
  free_of is_LF (exported_row e) = true.
Proof.
  intros Hs Hc. apply plain_string_spec in Hs as [Qs Ls].
  apply plain_comment_spec in Hc as (Ht & Hf & Hd & Hi & Hu).
  apply plain_string_spec in Ht as [Qt Lt]. apply plain_string_spec in Hf as [Qf Lf].
  apply plain_string_spec in Hd as [Qd Ld]. apply plain_string_spec in Hi as [Qi Li].
  apply plain_string_spec in Hu as [Qu Lu].
  unfold exported_row, csv_row. cbn [JS.join].
  rewrite !(replace_quotes_free _ Qs), !(replace_quotes_free _ Qt),
          !(replace_quotes_free _ Qf), !(replace_quotes_free _ Qu).
  rewrite !free_of_app, !free_of_quoted by reflexivity.
  rewrite Ls, Lt, Lf, Ld, Li, Lu.
  destruct (toFixed_plain (coordinate (position_x (snd e)))) as (_ & _ & ->).
  destruct (toFixed_plain (coordinate (position_y (snd e)))) as (_ & _ & ->).
  destruct (toFixed_plain (coordinate (position_z (snd e)))) as (_ & _ & ->).
  reflexivity.
Qed.

Lemma row_fields_complete sceneName c :
  has_null_coordinate c = false ->
  V21.row_fields sceneName c =
    Return (csv_row sceneName c (coordinate (position_x c))
                    (coordinate (position_y c)) (coordinate (position_z c))).
Proof.
  unfold has_null_coordinate, V21.row_fields, csv_row.
  destruct (position_x c), (position_y c), (position_z c); simpl;
    try discriminate; reflexivity.
Qed.

Lemma row_fields_null sceneName c :
  has_null_coordinate c = true -> V21.row_fields sceneName c = Throw TypeError.
Proof.
  unfold has_null_coordinate, V21.row_fields.
  destruct (position_x c), (position_y c), (position_z c); simpl;
    try discriminate; reflexivity.
Qed.

Lemma rows_of_outcome es :
  V21.rows_of es =
    if existsb (fun e => has_null_coordinate (snd e)) es
    then Throw TypeError
    else Return (map exported_row es).
Proof.
  induction es as [|[s c] es IH]; simpl; auto.
  destruct (has_null_coordinate c) eqn:E; simpl.
  - now rewrite (row_fields_null _ _ E).
  - rewrite (row_fields_complete _ _ E), IH.
    now destruct (existsb _ es).
Qed.

Lemma entries_comments d : map snd (V21.entries d) = all_comments d.
Proof.
  unfold V21.entries, all_comments.
  induction (comments d) as [|[k l] m IH]; simpl; auto.
  rewrite map_app, IH, map_map. simpl. now rewrite map_id.
Qed.

Lemma existsb_map {A B} (f : A -> B) p l :
  existsb p (map f l) = existsb (fun a => p (f a)) l.
Proof. induction l; simpl; congruence. Qed.

Lemma exportCSV_spec st :
  V21.exportCSV st =
    (if existsb has_null_coordinate (all_comments (data st))
     then ("Error",
           console_log (console_error (Literal "Error exporting CSV") TypeError) st)
     else (JS.join (String JS.LF "")
             (JS.join "," V21.headers :: map exported_row (V21.entries (data st))),
           st)) /\
  length (map exported_row (V21.entries (data st))) = length (all_comments (data st)).
Proof.
  split.
  - unfold V21.exportCSV, V21.exportCSV_lines. run_method.
    rewrite rows_of_outcome, <- entries_comments, existsb_map.
    now destruct (existsb _ (V21.entries (data st))).
  - now rewrite <- entries_comments, !length_map.
Qed.

(** X3.  [exportCSV] fails exactly when a comment of the document has a
    null coordinate: it then logs a type error, returns the text Error and
    changes nothing else.  Otherwise it changes nothing and returns the
    header line followed by one line per comment of the document, scene
    after scene. *)
Theorem exportCSV_outcomes st :
  V21.exportCSV st =
    (if existsb has_null_coordinate (all_comments (data st))
     then ("Error",
           console_log (console_error (Literal "Error exporting CSV") TypeError) st)
     else (JS.join (String JS.LF "")
             (JS.join "," V21.headers :: map exported_row (V21.entries (data st))),
           st)) /\
  length (map exported_row (V21.entries (data st))) = length (all_comments (data st)).
Proof. apply exportCSV_spec. Qed.

Lemma entries_nil d : all_comments d = [] -> V21.entries d = [].
Proof.
  intros H. rewrite <- entries_comments in H.
  now destruct (V21.entries d).
Qed.

(** X4.  The CSV export of a store without comments is not accepted back:
    it is the header line alone, and [importCSV] wants a data row; the
    import returns false, logs the error and leaves the document, the
    storage and the cache as they are. *)
Theorem empty_export_is_not_imported st :
  all_comments (data st) = [] ->
  let '(csv, st1) := V21.exportCSV st in
  csv = JS.join "," V21.headers /\
  V21.importCSV csv st1 =
    (false,
     console_log
       (console_error ERROR_FILE_IMPORT
          (Error (Literal "CSV must have at least a header and one data row")))
       st).
Proof.
  intros H. destruct (exportCSV_spec st) as [E _].
  rewrite H in E. simpl in E. rewrite (entries_nil _ H) in E. rewrite E.
  split; [reflexivity|]. apply importCSV_rejects. vm_compute. lia.
Qed.

Lemma empty_export_is_not_imported_witness :
  let '(csv, st1) := V21.exportCSV empty_store in
  csv = JS.join "," V21.headers /\
  V21.importCSV csv st1 =
    (false,
     console_log
       (console_error ERROR_FILE_IMPORT
          (Error (Literal "CSV must have at least a header and one data row")))
       empty_store).
Proof. apply (empty_export_is_not_imported empty_store). reflexivity. Defined.

(** **** The round trip of a document *)

Lemma filter_entries_scene s (m : list (string * list Comment)) :
  NoDup (keys m) ->
  filter (fun e => String.eqb (fst e) s)
         (flat_map (fun kv => map (pair (fst kv)) (snd kv)) m) =
  map (pair s) (match lookup s m with Some l => l | None => [] end).
Proof.
  induction m as [|[k l] m IH]; simpl; auto.
  intros N. inversion N as [|? ? Hk Nm]; subst.
  rewrite filter_app, (IH Nm).
  destruct (String.eqb k s) eqn:E.
  - apply String.eqb_eq in E. subst k.
    assert (L : lookup s m = None).
    { clear -Hk. induction m as [|[k' l'] m IH]; simpl; auto.
      destruct (String.eqb k' s) eqn:E.
      - apply String.eqb_eq in E. subst. exfalso. apply Hk. now left.
      - apply IH. intros H. apply Hk. now right. }
    rewrite L. simpl. rewrite app_nil_r.
    apply filter_all. intros [k c] Hin. apply in_map_iff in Hin as (c' & Hc & _).
    inversion Hc; subst. simpl. apply String.eqb_refl.
  - replace (filter _ (map (pair k) l)) with (@nil (string * Comment)); auto.
    symmetry. clear -E. induction l as [|c l IH]; simpl; auto. now rewrite E.
Qed.

Lemma comment_of_exported_values s c :
  plain_string s = true -> plain_comment c = true ->
  has_null_coordinate c = false ->
  V21.at_index (exported_values (s, c)) 0 = s /\
  V21.comment_of_values (exported_values (s, c)) = through_csv s c.
Proof.
  intros Hs Hc Hn. apply plain_string_spec in Hs as [Qs _].
  apply plain_comment_spec in Hc as (Ht & Hf & Hd & Hi & Hu).
  apply plain_string_spec in Ht as [Qt _]. apply plain_string_spec in Hf as [Qf _].
  apply plain_string_spec in Hu as [Qu _].
  unfold exported_values, row_values, V21.comment_of_values, V21.at_index,
    through_csv. simpl.
  rewrite (strip_quotes_free _ Qs), (strip_quotes_free _ Qt),
          (strip_quotes_free _ Qf), (strip_quotes_free _ Qu).
  split; [reflexivity|].
  unfold has_null_coordinate in Hn.
  destruct (position_x c), (position_y c), (position_z c); try discriminate.
  simpl. f_equal. now destruct (featureName c).
Qed.

Lemma portable_entries d :
  csv_portable d = true ->
  Forall (fun e => plain_string (fst e) = true /\ plain_comment (snd e) = true /\
                   has_null_coordinate (snd e) = false) (V21.entries d).
Proof.
  unfold csv_portable, V21.entries.
  induction (comments d) as [|[k l] m IH]; simpl; auto.
  intros H. apply andb_true_iff in H as [H Hm].
  apply andb_true_iff in H as [Hk Hl].
  apply andb_true_iff in Hk as [Hk _].
  apply Forall_app. split; [|now apply IH].
  apply Forall_forall. intros [k' c] Hin.
  apply in_map_iff in Hin as (c' & Hc & Hin). inversion Hc; subst. simpl.
  rewrite forallb_forall in Hl. specialize (Hl _ Hin).
  apply andb_true_iff in Hl as [P N]. apply negb_true_iff in N. auto.
Qed.

Lemma portable_names d :
  csv_portable d = true ->
  Forall (fun e => inherited (fst e) = false) (V21.entries d).
Proof.
  unfold csv_portable, V21.entries.
  induction (comments d) as [|[k l] m IH]; simpl; auto.
  intros H. apply andb_true_iff in H as [H Hm].
  apply andb_true_iff in H as [Hk _].
  apply andb_true_iff in Hk as [_ Hk]. apply negb_true_iff in Hk.
  apply Forall_app. split; [|now apply IH].
  apply Forall_forall. intros [k' c] Hin.
  apply in_map_iff in Hin as (c' & Hc & Hin). now inversion Hc; subst.
Qed.

Lemma imported_exported_rows es :
  Forall (fun e => plain_string (fst e) = true /\ plain_comment (snd e) = true /\
                   has_null_coordinate (snd e) = false) es ->
  imported_rows (map exported_row es) = map exported_values es.
Proof.
  unfold imported_rows. induction 1 as [|e es (Hs & Hc & Hn) F IH]; [reflexivity|].
  apply plain_comment_spec in Hc as (_ & _ & Hd & Hi & _).
  apply plain_string_spec in Hd as [Qd _]. apply plain_string_spec in Hi as [Qi _].
  assert (E : V21._parseCSVLine (exported_row e) = exported_values e)
    by apply (parse_csv_row _ _ _ _ _ Qd Qi).
  cbn [map filter]. rewrite E, IH. reflexivity.
Qed.

Lemma nonblank_exported_lines es :
  Forall (fun e => plain_string (fst e) = true /\ plain_comment (snd e) = true /\
                   has_null_coordinate (snd e) = false) es ->
  V21.nonblank_lines
    (JS.join (String JS.LF "") (JS.join "," V21.headers :: map exported_row es)) =
  JS.join "," V21.headers :: map exported_row es.
Proof.
  intros F. unfold V21.nonblank_lines. rewrite split_join_lines.
  - apply filter_all. intros line [<-|Hin]; [reflexivity|].
    apply in_map_iff in Hin as (e & <- & _). apply exported_row_nonblank.
  - discriminate.
  - constructor; [reflexivity|].
    apply Forall_forall. intros line Hin.
    apply in_map_iff in Hin as (e & <- & Hin).
    rewrite Forall_forall in F. destruct (F _ Hin) as (Hs & Hc & _).
    now apply exported_row_one_line.
Qed.

Lemma rows_of_scene_exported s es :
  Forall (fun e => plain_string (fst e) = true /\ plain_comment (snd e) = true /\
                   has_null_coordinate (snd e) = false) es ->
  rows_of_scene s (map exported_values es) =
  map exported_values (filter (fun e => String.eqb (fst e) s) es).
Proof.
  unfold rows_of_scene.
  induction 1 as [|[k c] es (Hs & Hc & Hn) F IH]; [reflexivity|].
  destruct (comment_of_exported_values k c Hs Hc Hn) as [E _].
  cbn [map filter fst]. rewrite E, IH.
  now destruct (String.eqb k s).
Qed.

Lemma through_csv_values s l :
  (forall c, In c l -> plain_string s = true /\ plain_comment c = true /\
                       has_null_coordinate c = false) ->
  map V21.comment_of_values (map exported_values (map (pair s) l)) =
  map (through_csv s) l.
Proof.
  induction l as [|c l IH]; intros H; [reflexivity|].
  destruct (H c (or_introl eq_refl)) as (Hs & Hc & Hn).
  destruct (comment_of_exported_values s c Hs Hc Hn) as [_ E].
  cbn [map]. rewrite E, IH; auto.
  intros c' Hin. apply H. now right.
Qed.

Lemma exported_rows_named_safely es :
  Forall (fun e => plain_string (fst e) = true /\ plain_comment (snd e) = true /\
                   has_null_coordinate (snd e) = false) es ->
  Forall (fun e => inherited (fst e) = false) es ->
  rows_named_safely (map exported_values es).
Proof.
  intros F I values Hin. apply in_map_iff in Hin as ([k c] & <- & Hin).
  rewrite Forall_forall in F, I.
  destruct (F _ Hin) as (Hs & Hc & Hn).
  destruct (comment_of_exported_values k c Hs Hc Hn) as [E _].
  rewrite E. apply (I _ Hin).
Qed.

Lemma csv_round_trip_scenes st :
  csv_portable (data st) = true ->
  NoDup (keys (comments (data st))) ->
  all_comments (data st) <> [] ->
  let '(csv, st1) := V21.exportCSV st in
  let '(ok, st2) := V21.importCSV csv st1 in
  ok = true /\
  (forall s, scene s st2 =
             match scene s st with
             | Some (c :: l) => Some (map (through_csv s) (c :: l))
             | _ => None
             end) /\
  rest (data st2) = rest (data st) /\
  _cache st2 = [] /\
  if setItem_throws st then
    localStorage st2 = localStorage st /\
    console st2 = console st ++ [console_error ERROR_STORAGE DOMException]
  else
    localStorage st2 = Some (Text (JSON_text (data st2))) /\
    console st2 = console st.
Proof.
  intros P N Hne. pose proof (portable_entries _ P) as F.
  pose proof (portable_names _ P) as I.
  destruct (exportCSV_spec st) as [E _].
  assert (X : existsb has_null_coordinate (all_comments (data st)) = false).
  { rewrite <- entries_comments, existsb_map.
    clear -F. induction F as [|e es (_ & _ & Hn) F IH]; simpl; auto.
    now rewrite Hn. }
  rewrite X in E. rewrite E.
  assert (Hrows : map exported_row (V21.entries (data st)) <> []).
  { intros Hnil. apply Hne. rewrite <- entries_comments.
    destruct (V21.entries (data st)); [reflexivity|discriminate]. }
  assert (Hs : rows_named_safely
                 (imported_rows (map exported_row (V21.entries (data st))))).
  { rewrite (imported_exported_rows _ F).
    now apply exported_rows_named_safely. }
  rewrite (importCSV_accepts _ st _ _ (nonblank_exported_lines _ F) Hrows Hs).
  rewrite (imported_exported_rows _ F).
  set (m := fold_left add_row (map exported_values (V21.entries (data st))) []).
  destruct (after_save_spec (set_comments m st)) as (D & _ & _ & _ & S).
  change (setItem_throws (set_comments m st)) with (setItem_throws st) in S.
  unfold cache_clear, set_cache, scene.
  cbn [data _cache localStorage console]. rewrite D.
  split; [reflexivity|]. split; [|split; [reflexivity|split; [reflexivity|]]].
  - intros s. cbn [set_comments set_data data comments]. subst m.
    rewrite lookup_fold_add_row, (rows_of_scene_exported _ _ F).
    unfold V21.entries in *. rewrite (filter_entries_scene _ _ N).
    destruct (lookup s (comments (data st))) as [[|c l]|] eqn:L; try reflexivity.
    assert (T : map V21.comment_of_values
                  (map exported_values (map (pair s) (c :: l))) =
                map (through_csv s) (c :: l)).
    { apply through_csv_values.
      intros c' Hin. rewrite Forall_forall in F.
      apply (F (s, c')).
      assert (In (s, c') (filter (fun e => String.eqb (fst e) s)
                (flat_map (fun kv => map (pair (fst kv)) (snd kv))
                          (comments (data st))))) as Hf.
      { rewrite (filter_entries_scene _ _ N), L. now apply in_map. }
      now apply filter_In in Hf as [Hf _]. }
    rewrite <- T. reflexivity.
  - destruct (setItem_throws st); destruct S as (_ & L & C); split; auto.
Qed.

(** X5.  The CSV round trip of a document that CSV can carry.  When no
    scene name and no string of a comment holds a double quote or a line
    feed, no scene name is a name that objects inherit from
    [Object.prototype], no coordinate is null, the scene names are
    pairwise different and there is at least one comment, [importCSV]
    accepts what [exportCSV] wrote, and every scene that had comments has
    them again, in their order, with the same id, text, timestamp and
    author, with the coordinates that [parseFloat] reads from
    [toFixed(6)], with an empty feature name read as null, and with the
    scene key as their scene.  A scene that had no comment is gone.  The
    rest of the document is kept and the cache is empty.  When the
    storage takes the write, it holds the new document and nothing is
    logged; when it refuses, it holds what it held and the storage error
    is the one line logged. *)
Theorem csv_round_trip_of_portable_document st :
  csv_portable (data st) = true ->
  NoDup (keys (comments (data st))) ->
  all_comments (data st) <> [] ->
  let '(csv, st1) := V21.exportCSV st in
  let '(ok, st2) := V21.importCSV csv st1 in
  ok = true /\
  (forall s, scene s st2 =
             match scene s st with
             | Some (c :: l) => Some (map (through_csv s) (c :: l))
             | _ => None
             end) /\
  rest (data st2) = rest (data st) /\
  _cache st2 = [] /\
  if setItem_throws st then
    localStorage st2 = localStorage st /\
    console st2 = console st ++ [console_error ERROR_STORAGE DOMException]
  else
    localStorage st2 = Some (Text (JSON_text (data st2))) /\
    console st2 = console st.
Proof. apply csv_round_trip_scenes. Qed.

Lemma csv_round_trip_of_portable_document_witness :
  let '(csv, st1) := V21.exportCSV portable_store in
  let '(ok, st2) := V21.importCSV csv st1 in
  ok = true /\
  (forall s, scene s st2 =
             match scene s portable_store with
             | Some (c :: l) => Some (map (through_csv s) (c :: l))
             | _ => None
             end) /\
  rest (data st2) = rest (data portable_store) /\
  _cache st2 = [] /\
  localStorage st2 = Some (Text (JSON_text (data st2))) /\
  console st2 = console portable_store.
Proof.
  apply (csv_round_trip_of_portable_document portable_store).
  - reflexivity.
  - repeat constructor; simpl; intuition discriminate.
  - discriminate.
Defined.

(** The names that objects inherit are why the round trip asks for
    more than plain strings: the store whose one scene is named
    [toString] exports a line that [importCSV] does not take back. *)
Lemma csv_round_trip_inherited_scene_name :
  let st := set_comments [("toString", [example_comment])] empty_store in
  let '(csv, st1) := V21.exportCSV st in
  fst (V21.importCSV csv st1) = false.
Proof. vm_compute. reflexivity. Qed.

Lemma parse_chars_unquoted line result current :
  free_of is_quote line = true ->
  V21.parse_chars line result current false =
  result ++ match JS.split JS.comma line with
            | h :: t => (current ++ h)%string :: t
            | [] => [current]
            end.
Proof.
  revert result current. induction line as [|c r IH]; intros result current; simpl.
  - intros _. now rewrite string_app_nil_r.
  - unfold is_quote at 1.
    destruct (Ascii.eqb c JS.quote); simpl; try discriminate.
    intros H. destruct (Ascii.eqb c JS.comma); simpl.
    + rewrite (IH _ _ H), string_app_nil_r, <- app_assoc. simpl.
      pose proof (split_nonempty JS.comma r).
      destruct (JS.split JS.comma r); [congruence|reflexivity].
    + rewrite (IH _ _ H).
      pose proof (split_nonempty JS.comma r).
      destruct (JS.split JS.comma r); [congruence|].
      now rewrite string_app_assoc.
Qed.

(** X6.  On a line without double quotes [_parseCSVLine] does what
    [split] does at the commas: the values are the pieces between the
    commas, empty pieces included, with their white space kept. *)
Theorem parseCSVLine_without_quotes_is_split line :
  free_of is_quote line = true ->
  V21._parseCSVLine line = JS.split JS.comma line.
Proof.
  intros H. unfold V21._parseCSVLine. rewrite (parse_chars_unquoted _ _ _ H).
  pose proof (split_nonempty JS.comma line).
  destruct (JS.split JS.comma line); [congruence|reflexivity].
Qed.

Lemma parseCSVLine_without_quotes_is_split_witness :
  V21._parseCSVLine "Lock A,too short" = JS.split JS.comma "Lock A,too short".
Proof. apply (parseCSVLine_without_quotes_is_split "Lock A,too short"). reflexivity. Defined.

(** *** The states that the store reaches *)

Lemma NoDup_keys_fold_add_row rows m :
  NoDup (keys m) -> NoDup (keys (fold_left add_row rows m)).
Proof.
  revert m. induction rows as [|r rows IH]; intros m N; simpl; auto.
  apply IH. now apply NoDup_keys_assign.
Qed.

Lemma deleteComment_spec commentId sceneName st :
  V21.deleteComment commentId sceneName st =
    match comments_at sceneName st with
    | Undefined =>
        (false, console_log (console_error (Literal "Error deleting comment")
                                           (Error ERROR_SCENE_NOT_FOUND)) st)
    | Inherited =>
        (false, console_log (console_error (Literal "Error deleting comment")
                                           TypeError) st)
    | Own l =>
        if existsb (fun c => String.eqb (id c) commentId) l then
          (true,
           after_save
             (set_scene sceneName
                (filter (fun c => negb (String.eqb (id c) commentId)) l) st))
        else (false, st)
    end.
Proof.
  destruct (comments_at_cases sceneName st)
    as [(l & S & C)|[(S & I & C)|(S & I & C)]]; rewrite C.
  - destruct (existsb (fun c => String.eqb (id c) commentId) l) eqn:X.
    + now apply deleteComment_found.
    + apply (deleteComment_id_absent _ _ l); auto.
      intros c Hin Hc. apply not_true_iff_false in X. apply X.
      apply existsb_exists. exists c. split; auto. now apply String.eqb_eq.
  - now apply deleteComment_inherited.
  - now apply deleteComment_scene_absent.
Qed.

(** **** What one step does *)

Lemma effect_none st : effect st st.
Proof.
  split; [reflexivity|]. split; [auto|]. split; [now apply cache_kept|].
  exists []. split; [now rewrite app_nil_r|].
  intros _. split; [now left|left; now split].
Qed.

Lemma effect_log e st : effect st (console_log e st).
Proof.
  split; [reflexivity|]. split; [auto|]. split; [now apply cache_kept|].
  exists [e]. split; [reflexivity|].
  intros _. split; [now left|left; now split].
Qed.

Lemma effect_surroundings refuses st : effect st (storage_refuses refuses st).
Proof.
  split; [reflexivity|]. split; [auto|]. split; [now apply cache_kept|].
  exists []. split; [simpl; now rewrite app_nil_r|].
  intros _. split; [now left|left; now split].
Qed.

(** A write: the document is replaced and [saveToStorage] is called,
    and the cache may be emptied before or after. *)
Lemma effect_save st st1 :
  _maxCacheSize st1 = _maxCacheSize st ->
  _cache st1 = _cache st \/ _cache st1 = [] ->
  localStorage st1 = localStorage st ->
  console st1 = console st ->
  (NoDup (keys (comments (data st))) -> NoDup (keys (comments (data st1)))) ->
  effect st (after_save st1) /\ effect st (cache_clear (after_save st1)).
Proof.
  intros Mx Ca Lo Co N.
  destruct (after_save_spec st1) as (D & Mx' & _ & _ & S).
  unfold effect, cache_clear, set_cache.
  cbn [data _cache _maxCacheSize localStorage console].
  rewrite D, Mx', Mx.
  destruct (setItem_throws st1); destruct S as (C & L & K); rewrite C, L, K, Co.
  - assert (E : cache_effect st (after_save st1)).
    { destruct Ca as [Ca|Ca]; [apply cache_kept|apply cache_emptied]; congruence. }
    split; (split; [reflexivity|]; split; [exact N|]; split;
            [|exists [console_error ERROR_STORAGE DOMException];
              split; [reflexivity|discriminate]]).
    + exact E.
    + now apply cache_emptied.
  - split; (split; [reflexivity|]; split; [exact N|]; split;
            [now apply cache_emptied
            |exists []; split; [now rewrite app_nil_r|];
             intros _; split; [now right|now right]]).
Qed.

Lemma effect_write st d :
  (NoDup (keys (comments (data st))) -> NoDup (keys (comments d))) ->
  effect st (after_save (set_data d st)) /\
  effect st (cache_clear (after_save (set_data d st))).
Proof. intros N. apply effect_save; auto. Qed.

(** An import that fails on the way: the document has changed, the cache
    is as it was, and the import error is logged. *)
Lemma effect_failed_import e m st :
  (NoDup (keys (comments (data st))) -> NoDup (keys m)) ->
  effect st (console_log (console_error ERROR_FILE_IMPORT e) (set_comments m st)).
Proof.
  intros N. split; [reflexivity|]. split; [exact N|].
  split; [now apply cache_kept|].
  exists [console_error ERROR_FILE_IMPORT e]. split; [reflexivity|discriminate].
Qed.

Lemma effect_loadComments sceneName st :
  effect st (snd (V21.loadComments sceneName st)).
Proof.
  rewrite loadComments_spec.
  destruct (negb (JS.truthy sceneName)); [apply effect_log|].
  destruct (lookup sceneName (_cache st)) eqn:L; [apply effect_none|].
  cbn [snd].
  assert (E : exists log,
             (comments_at sceneName st = Inherited \/ log = []) /\
             forallb quiet_entry log = true /\
             match comments_at sceneName st with
             | Inherited =>
                 console_log
                   (console_error
                      (Literal ("Error loading comments for scene: " ++ sceneName))
                      TypeError) st
             | _ => st
             end =
             {| data := data st; _cache := _cache st;
                _maxCacheSize := _maxCacheSize st;
                localStorage := localStorage st;
                setItem_throws := setItem_throws st;
                setItem_calls := setItem_calls st;
                console := console st ++ log |}).
  { destruct (comments_at sceneName st); eexists;
      (split; [|split]); try reflexivity; auto;
      rewrite ?app_nil_r; now destruct st. }
  destruct E as (log & _ & Q & ->).
  split; [reflexivity|]. split; [auto|]. split.
  - now apply (cache_added _ _ sceneName).
  - exists log. split; [reflexivity|].
    intros _. split; [now left|left; now split].
Qed.

Lemma effect_importCSV csvData st : effect st (snd (V21.importCSV csvData st)).
Proof.
  destruct (V21.nonblank_lines csvData) as [|header [|line lines]] eqn:L.
  - rewrite importCSV_rejects by (rewrite L; simpl; lia). apply effect_log.
  - rewrite importCSV_rejects by (rewrite L; simpl; lia). apply effect_log.
  - unfold V21.importCSV. rewrite L.
    cbn [length Nat.ltb Nat.leb skipn].
    unfold safeExecute, bind at 1, modify at 1. unfold bind at 1.
    destruct (import_lines_any (line :: lines) (set_comments [] st))
      as (m & E & N).
    destruct (V21.import_lines (line :: lines) (set_comments [] st))
      as [[[]|e] st1]; cbn [snd] in E; subst st1.
    + unfold bind at 1. rewrite call_saveToStorage. cbn [snd].
      rewrite set_comments_twice. apply effect_write.
      intros _. apply N. constructor.
    + cbn [snd]. rewrite set_comments_twice. apply effect_failed_import.
      intros _. apply N. constructor.
Qed.

Lemma method_step_effect version st st' :
  method_step version st st' -> effect st st'.
Proof.
  intros [sceneName st0|sceneName commentText pos feature userName generatedId now st0
         |commentId newText sceneName now st0|commentId sceneName st0|st0
         |csvData st0|st0|JSON_parse jsonData st0 ok st1 H N|refuses st0].
  - apply effect_loadComments.
  - rewrite saveComment_spec.
    destruct (comments_at sceneName st0); cbn [snd];
      try apply effect_log; apply effect_write; cbn [comments];
      apply NoDup_keys_assign.
  - rewrite updateComment_spec.
    destruct (comments_at sceneName st0) as [l| |]; try apply effect_log.
    destruct (existsb _ l); [|apply effect_log]. cbn [snd].
    apply effect_write. cbn [comments]. apply NoDup_keys_assign.
  - rewrite deleteComment_spec.
    destruct (comments_at sceneName st0) as [l| |]; try apply effect_log.
    destruct (existsb _ l); [|apply effect_none]. cbn [snd].
    apply effect_write. cbn [comments]. apply NoDup_keys_assign.
  - destruct (exportCSV_spec st0) as [-> _].
    destruct (existsb _ _); [apply effect_log|apply effect_none].
  - apply effect_importCSV.
  - unfold V21.clearAllData. apply effect_save; auto.
    intros _. constructor.
  - destruct (V21.parse_and_check JSON_parse jsonData) as [parsed|e] eqn:P.
    + destruct (fromJSON parsed) as [d|] eqn:F.
      * rewrite (importData_accepts _ _ _ _ st0 P F) in H.
        inversion H; subst. apply effect_write. intros _.
        destruct (after_save_spec (set_data d st0)) as (D & _).
        unfold cache_clear, set_cache in N. cbn [data] in N.
        now rewrite D in N.
      * unfold V21.importData in H. rewrite P, F in H. discriminate.
    + rewrite (importData_rejects _ _ _ st0 P) in H.
      inversion H; subst. apply effect_log.
  - apply effect_surroundings.
Qed.

(** **** What the steps keep *)

Lemma lookup_In {A} k (v : A) m : lookup k m = Some v -> In (k, v) m.
Proof.
  induction m as [|[k' v'] m IH]; simpl; [discriminate|].
  destruct (String.eqb k' k) eqn:E.
  - apply String.eqb_eq in E. intros H. inversion H; subst. now left.
  - intros H. right. auto.
Qed.

Lemma Forall_Map_set {A} (P : string * A -> Prop) k v m :
  Forall P m -> P (k, v) -> (forall w, P (k, w) -> P (k, v)) ->
  Forall P (Map_set k v m).
Proof.
  intros F Pv _. induction F as [|[k' v'] m Pk F IH]; simpl.
  - now repeat constructor.
  - destruct (String.eqb k' k) eqn:E.
    + apply String.eqb_eq in E. subst. now constructor.
    + now constructor.
Qed.

Lemma Forall_tl {A} (P : A -> Prop) l : Forall P l -> Forall P (tl l).
Proof. intros [|]; simpl; auto. Qed.

(** A console without storage and import errors had none before the
    step, and the step logged none. *)
Lemma effect_undisturbed st st' :
  effect st st' -> undisturbed st' ->
  undisturbed st /\
  (data st' = data st \/ _cache st' = []) /\
  ((data st' = data st /\ localStorage st' = localStorage st) \/
   localStorage st' = Some (Text (JSON_text (data st')))).
Proof.
  unfold undisturbed. intros (_ & _ & _ & log & -> & Q) U.
  rewrite forallb_app in U. apply andb_true_iff in U as [U1 U2].
  split; auto.
Qed.

Lemma effect_coherent st st' :
  effect st st' -> undisturbed st' -> coherent st -> coherent st'.
Proof.
  intros E U C. destruct (effect_undisturbed _ _ E U) as (_ & [D|D] & _).
  - destruct E as (_ & _ & [K|K|s _ L K] & _); unfold coherent, scene_comments, scene;
      rewrite K, D.
    + exact C.
    + constructor.
    + apply Forall_Map_set; auto.
      destruct (_maxCacheSize st <=? length (_cache st))%nat; auto.
      now apply Forall_tl.
  - unfold coherent. rewrite D. constructor.
Qed.

Lemma effect_mirrored version st st' :
  effect st st' -> undisturbed st' -> mirrored version st -> mirrored version st'.
Proof.
  intros E U M. destruct (effect_undisturbed _ _ E U) as (_ & _ & [[D L]|L]).
  - unfold mirrored. now rewrite D, L.
  - now right.
Qed.

Lemma effect_keys st st' :
  effect st st' -> NoDup (keys (comments (data st))) ->
  NoDup (keys (comments (data st'))).
Proof. intros (_ & N & _). exact N. Qed.

Lemma lookup_tl_None {A} k (m : list (string * A)) :
  lookup k m = None -> lookup k (tl m) = None.
Proof.
  destruct m as [|[k' v] m]; simpl; auto.
  now destruct (String.eqb k' k).
Qed.

Lemma effect_cache_size st st' :
  effect st st' ->
  (length (_cache st) <= Nat.max 1 (_maxCacheSize st))%nat ->
  (length (_cache st') <= Nat.max 1 (_maxCacheSize st'))%nat /\
  _maxCacheSize st' = _maxCacheSize st.
Proof.
  intros (Mx & _ & [K|K|s _ L K] & _) C; rewrite Mx, K;
    (split; [|reflexivity]); simpl; auto; try lia.
  destruct (_maxCacheSize st <=? length (_cache st))%nat eqn:E.
  - apply Nat.leb_le in E.
    rewrite (Map_set_absent _ _ _ (lookup_tl_None _ _ L)), length_app. simpl.
    destruct (_maxCacheSize st), (_cache st); simpl in *; lia.
  - apply Nat.leb_gt in E.
    rewrite (Map_set_absent _ _ _ L), length_app. simpl.
    destruct (_maxCacheSize st); simpl in *; lia.
Qed.

Lemma reachable_invariants version size st :
  reachable version size st ->
  NoDup (keys (comments (data st))) /\
  (length (_cache st) <= Nat.max 1 size)%nat /\ _maxCacheSize st = size /\
  (undisturbed st -> coherent st /\ mirrored version st).
Proof.
  induction 1 as [|st st' R (N & B & Mx & I) S].
  - split; [constructor|]. split; [simpl; lia|]. split; [reflexivity|].
    intros _. split; [constructor|left; now split].
  - apply method_step_effect in S.
    rewrite <- Mx in B. destruct (effect_cache_size _ _ S B) as [B' Mx'].
    split; [now apply (effect_keys st)|].
    split; [rewrite Mx', Mx in B'; exact B'|].
    split; [now rewrite Mx'|].
    intros U. destruct (effect_undisturbed _ _ S U) as (U0 & _).
    destruct (I U0) as [C Mi].
    split; [now apply (effect_coherent st)|now apply (effect_mirrored version st)].
Qed.

Lemma loadComments_current sceneName st :
  coherent st -> JS.truthy sceneName = true ->
  fst (V21.loadComments sceneName st) = scene_comments sceneName st /\
  data (snd (V21.loadComments sceneName st)) = data st.
Proof.
  intros C T. rewrite loadComments_spec, T. simpl negb. cbv iota.
  destruct (lookup sceneName (_cache st)) as [cached|] eqn:L.
  - split; [|reflexivity]. simpl.
    apply lookup_In in L. unfold coherent in C. rewrite Forall_forall in C.
    apply (C _ L).
  - split; [reflexivity|]. cbn [snd set_cache data].
    now destruct (comments_at sceneName st).
Qed.



(** Without the condition on the console the cache can be stale: the
    store below is reached by a call of [loadComments], a refusal of the
    storage and a call of [saveComment], and [loadComments] then returns
    the empty list for a scene that holds a comment. *)
Lemma loadComments_stale_after_storage_error :
  reachable "1.0" 50 stale_store /\
  fst (V21.loadComments "Lock A" stale_store) = [] /\
  scene_comments "Lock A" stale_store <> [].
Proof.
  split; [|split; [reflexivity|discriminate]].
  apply (@reach_step "1.0" 50
           (storage_refuses true (snd (V21.loadComments "Lock A" empty_store))) _).
  - apply (@reach_step "1.0" 50 (snd (V21.loadComments "Lock A" empty_store)) _).
    + apply (@reach_step "1.0" 50 empty_store _).
      * apply reach_new.
      * apply step_loadComments.
    + apply step_surroundings.
  - apply step_saveComment.
Qed.









(** X10.  The cache stays within its limit: in every state that the
    store reaches it holds at most [CACHE_MAX_SIZE] entries, and at most
    one when the limit is zero. *)
Theorem cache_stays_within_its_limit version size st :
  reachable version size st ->
  (length (_cache st) <= Nat.max 1 size)%nat /\ _maxCacheSize st = size.
Proof.
  intros R. now destruct (reachable_invariants version size st R) as (_ & B & Mx & _).
Qed.

Lemma cache_stays_within_its_limit_witness :
  (length (_cache (snd (V21.loadComments "Weir" full_cache_store))) <= Nat.max 1 1)%nat /\
  _maxCacheSize (snd (V21.loadComments "Weir" full_cache_store)) = 1%nat.
Proof.
  apply (cache_stays_within_its_limit "1.0" 1).
  apply (@reach_step "1.0" 1 full_cache_store _).
  - apply (@reach_step "1.0" 1 (V21.constructor None "1.0" 1) _).
    + apply reach_new.
    + apply step_loadComments.
  - apply step_loadComments.
Defined.

(** X11.  When the cache is full, [loadComments] of a scene that is not
    cached drops the oldest entry and puts the new one last; a second call
    for the same scene is answered from the cache and changes nothing. *)
Theorem loadComments_evicts_the_oldest_entry sceneName st :
  JS.truthy sceneName = true ->
  lookup sceneName (_cache st) = None ->
  (_maxCacheSize st <= length (_cache st))%nat ->
  let '(comments, st1) := V21.loadComments sceneName st in
  comments = scene_comments sceneName st /\
  _cache st1 = tl (_cache st) ++ [(sceneName, comments)] /\
  V21.loadComments sceneName st1 = (comments, st1).
Proof.
  intros T L F. rewrite loadComments_spec, T, L. simpl negb. cbv iota.
  apply Nat.leb_le in F. rewrite F.
  split; [reflexivity|]. split.
  - simpl. apply Map_set_absent. now apply lookup_tl_None.
  - rewrite loadComments_spec, T. simpl negb. cbv iota. simpl _cache.
    now rewrite lookup_Map_set_same.
Qed.

Lemma loadComments_evicts_the_oldest_entry_witness :
  let '(comments, st1) := V21.loadComments "Weir" full_cache_store in
  comments = scene_comments "Weir" full_cache_store /\
  _cache st1 = tl (_cache full_cache_store) ++ [("Weir", comments)] /\
  V21.loadComments "Weir" st1 = (comments, st1).
Proof.
  apply (loadComments_evicts_the_oldest_entry "Weir" full_cache_store);
    [reflexivity|reflexivity|simpl; lia].
Defined.

(** *** Deleting, editing, clearing and counting *)

Lemma existsb_false_forall {A} (p : A -> bool) l :
  existsb p l = false -> forall a, In a l -> p a = false.
Proof.
  intros H a Hin. apply not_true_is_false. intros Hp.
  apply not_true_iff_false in H. apply H. apply existsb_exists. eauto.
Qed.

Lemma scene_after_save s st : scene s (after_save st) = scene s st.
Proof.
  unfold scene. now destruct (after_save_spec st) as (-> & _).
Qed.

Lemma scene_after_save20 s st : scene s (after_save20 st) = scene s st.
Proof.
  unfold scene. now destruct (after_save20_spec st) as (-> & _).
Qed.


Lemma deleteComment_post commentId sceneName st l :
  scene sceneName st = Some l ->
  let '(deleted, st1) := V21.deleteComment commentId sceneName st in
  (forall c, In c (match scene sceneName st1 with Some l1 => l1 | None => [] end)
             <-> In c l /\ id c <> commentId) /\
  (forall s, s <> sceneName -> scene s st1 = scene s st) /\
  V21.deleteComment commentId sceneName st1 = (false, st1).
Proof.
  intros S. rewrite deleteComment_spec, (comments_at_own _ _ _ S).
  destruct (existsb (fun c => String.eqb (id c) commentId) l) eqn:X.
  - set (l' := filter (fun c => negb (String.eqb (id c) commentId)) l).
    assert (S1 : scene sceneName (after_save (set_scene sceneName l' st))
                 = Some l').
    { rewrite scene_after_save. apply lookup_assign_same. }
    split; [|split].
    + intros c. rewrite S1. unfold l'. rewrite filter_In, negb_true_iff.
      split; intros [Hin Hc]; split; auto.
      * intros E. apply String.eqb_eq in E. congruence.
      * apply not_true_is_false. intros E. now apply String.eqb_eq in E.
    + intros s Hs. rewrite scene_after_save.
      apply lookup_assign_other. exact Hs.
    + apply (deleteComment_id_absent _ _ l' _ S1).
      intros c Hin. unfold l' in Hin. apply filter_In in Hin as [_ Hc].
      apply negb_true_iff in Hc. intros E. apply String.eqb_eq in E. congruence.
  - pose proof (existsb_false_forall _ _ X) as Hall.
    assert (Hne : forall c, In c l -> id c <> commentId).
    { intros c Hin E. apply String.eqb_eq in E. rewrite (Hall c Hin) in E.
      discriminate. }
    split; [|split].
    + intros c. rewrite S. split; [intros Hin; split; auto|tauto].
    + reflexivity.
    + now apply (deleteComment_id_absent _ _ l).
Qed.

(** X12.  After [deleteComment] on a scene of the document, the scene
    holds exactly its former comments with another id, so every comment
    with the id is gone and no comment with another id is; the other
    scenes are as before; and a second call with the same arguments
    finds nothing: it returns false and changes nothing. *)
Theorem deleteComment_removes_the_id commentId sceneName st l :
  scene sceneName st = Some l ->
  let '(deleted, st1) := V21.deleteComment commentId sceneName st in
  (forall c, In c (match scene sceneName st1 with Some l1 => l1 | None => [] end)
             <-> In c l /\ id c <> commentId) /\
  (forall s, s <> sceneName -> scene s st1 = scene s st) /\
  V21.deleteComment commentId sceneName st1 = (false, st1).
Proof. apply deleteComment_post. Qed.

Lemma deleteComment_removes_the_id_witness :
  let '(deleted, st1) := V21.deleteComment "1700000000000" "Lock A" example_store in
  (forall c, In c (match scene "Lock A" st1 with Some l1 => l1 | None => [] end)
             <-> In c [example_comment] /\ id c <> "1700000000000") /\
  (forall s, s <> "Lock A" -> scene s st1 = scene s example_store) /\
  V21.deleteComment "1700000000000" "Lock A" st1 = (false, st1).
Proof.
  apply (deleteComment_removes_the_id "1700000000000" "Lock A" example_store
           [example_comment]).
  reflexivity.
Defined.

(** X13.  The outcomes of [updateComment].  It never throws.  For a
    name that is no scene of the document it logs the scene-not-found
    error, or a type error when the name is one that objects inherit
    from [Object.prototype]; for a scene without a comment of the id it
    logs the comment-not-found error; in these cases it returns false
    and changes nothing else.  Otherwise it returns true after one call
    of [setItem]: when the storage takes the write, it holds the new
    document, the cache is empty and nothing is logged; when it refuses,
    the storage and the cache are as before and the storage error is
    logged. *)
Theorem updateComment_outcomes commentId newText sceneName now st :
  match comments_at sceneName st with
  | Undefined =>
      V21.updateComment commentId newText sceneName now st =
        (false, console_log (console_error (Literal "Error updating comment")
                                           (Error ERROR_SCENE_NOT_FOUND)) st)
  | Inherited =>
      V21.updateComment commentId newText sceneName now st =
        (false, console_log (console_error (Literal "Error updating comment")
                                           TypeError) st)
  | Own l =>
      if existsb (fun c => String.eqb (id c) commentId) l then
        exists st',
          V21.updateComment commentId newText sceneName now st = (true, st') /\
          setItem_calls st' = S (setItem_calls st) /\
          if setItem_throws st then
            localStorage st' = localStorage st /\
            _cache st' = _cache st /\
            console st' =
              console st ++ [console_error ERROR_STORAGE DOMException]
          else
            localStorage st' = Some (Text (JSON_text (data st'))) /\
            _cache st' = [] /\
            console st' = console st
      else
        V21.updateComment commentId newText sceneName now st =
          (false, console_log (console_error (Literal "Error updating comment")
                                             (Error ERROR_COMMENT_NOT_FOUND)) st)
  end.
Proof.
  rewrite updateComment_spec.
  destruct (comments_at sceneName st) as [l| |]; try reflexivity.
  destruct (existsb _ l); [|reflexivity].
  eexists. split; [reflexivity|].
  match goal with |- context [after_save ?x] =>
    destruct (after_save_spec x) as (D & _ & _ & Calls & S);
    change (setItem_throws x) with (setItem_throws st) in S
  end.
  split; [exact Calls|]. rewrite D.
  destruct (setItem_throws st); destruct S as (C & L & K); auto.
Qed.

Lemma clearAllData_data version st :
  data (V21.clearAllData version st) = getDefaultData version.
Proof.
  unfold V21.clearAllData.
  fold (after_save (cache_clear (set_data (getDefaultData version) st))).
  now destruct (after_save_spec
                  (cache_clear (set_data (getDefaultData version) st))) as (-> & _).
Qed.

(** X14.  [clearAllData] leaves the default document: no scene and no
    comment, whatever was stored before.  The cache is empty, [getStats]
    reports zero comments and zero scenes, and [loadComments] returns the
    empty list for every scene, also for one that was cached before.
    When the storage takes the write, it holds the default document and
    nothing is logged; when it refuses, it holds what it held and the
    storage error is logged. *)
Theorem clearAllData_empties_the_store version st :
  let st' := V21.clearAllData version st in
  data st' = getDefaultData version /\
  _cache st' = [] /\
  V21.getStats st' =
    {| totalComments := 0; scenes := 0; scenesWithComments := [] |} /\
  (forall sceneName, fst (V21.loadComments sceneName st') = []) /\
  if setItem_throws st then
    localStorage st' = localStorage st /\
    console st' = console st ++ [console_error ERROR_STORAGE DOMException]
  else
    localStorage st' = Some (Text (getDefaultData version)) /\
    console st' = console st.
Proof.
  cbv zeta. unfold V21.clearAllData.
  fold (after_save (cache_clear (set_data (getDefaultData version) st))).
  destruct (after_save_spec (cache_clear (set_data (getDefaultData version) st)))
    as (D & _ & _ & _ & S).
  change (setItem_throws (cache_clear (set_data (getDefaultData version) st)))
    with (setItem_throws st) in S.
  cbn [cache_clear set_cache set_data data _cache localStorage console] in D, S.
  assert (C : _cache (after_save
                        (cache_clear (set_data (getDefaultData version) st))) = []).
  { destruct (setItem_throws st); now destruct S as (C & _). }
  split; [exact D|]. split; [exact C|]. split; [|split].
  - unfold V21.getStats, scene. now rewrite D.
  - intros sceneName. rewrite loadComments_spec.
    destruct (negb (JS.truthy sceneName)); [reflexivity|].
    rewrite C. cbn [lookup fst]. unfold scene_comments, scene. now rewrite D.
  - destruct (setItem_throws st); destruct S as (_ & L & K); auto.
Qed.





(** *** The manager: markers, placing and deleting *)

Lemma add_visuals_spec l : forall m bs ls,
  billboards m = Some bs -> labels m = Some ls ->
  Workflow21.add_visuals l m =
    (Return tt,
     match l with
     | [] => m
     | _ => with_visuals (Some (bs ++ map billboard_of l))
                         (Some (ls ++ map label_of l)) true m
     end).
Proof.
  induction l as [|c r IH]; intros m bs ls Hb Hl; [reflexivity|].
  destruct m as [a mode pp pf cur b lb icon vw grp usr inp ts].
  simpl in Hb, Hl. subst b lb.
  cbn [Workflow21.add_visuals]. unfold bind at 1.
  unfold call, CommentsManager21.addCommentVisual, addCommentVisual_body.
  run_method. cbn.
  erewrite IH; [|reflexivity|reflexivity].
  destruct r as [|c' r']; cbn.
  - reflexivity.
  - unfold with_visuals. cbn. now rewrite <- !app_assoc.
Qed.

Lemma refreshCommentVisuals_spec m bs ls :
  billboards m = Some bs -> labels m = Some ls ->
  Workflow21.refreshCommentVisuals m =
    with_visuals (Some (map billboard_of (currentSceneComments m)))
                 (Some (map label_of (currentSceneComments m)))
                 (match currentSceneComments m with
                  | [] => cachedCommentIcon m
                  | _ => true
                  end) m.
Proof.
  intros Hb Hl. unfold Workflow21.refreshCommentVisuals. rewrite Hb, Hl.
  destruct m as [a mode pp pf cur b lb icon vw grp usr inp ts].
  run_method. cbn.
  erewrite add_visuals_spec; [|reflexivity|reflexivity].
  now destruct cur.
Qed.

(** X16.  [refreshCommentVisuals] rebuilds the markers from the list of
    the manager: afterwards there is exactly one billboard and one hidden
    label per comment of [currentSceneComments], in its order, each
    tagged with the id of its comment, whatever the collections held
    before.  Nothing else of the manager changes but the cached icon. *)
Theorem refreshCommentVisuals_one_marker_per_comment m bs ls :
  billboards m = Some bs -> labels m = Some ls ->
  let m' := Workflow21.refreshCommentVisuals m in
  markers_match m' /\
  map billboard_id (match billboards m' with Some b => b | None => [] end) =
    map (fun c => ("comment_" ++ id (stored c))%string) (currentSceneComments m) /\
  currentSceneComments m' = currentSceneComments m /\
  api m' = api m /\ toasts m' = toasts m /\ isCommentMode m' = isCommentMode m.
Proof.
  intros Hb Hl. cbv zeta. rewrite (refreshCommentVisuals_spec m bs ls Hb Hl).
  unfold markers_match. cbn. rewrite map_map. repeat split.
Qed.

Lemma refreshCommentVisuals_one_marker_per_comment_witness :
  let m' := Workflow21.refreshCommentVisuals example_manager in
  markers_match m' /\
  map billboard_id (match billboards m' with Some b => b | None => [] end) =
    map (fun c => ("comment_" ++ id (stored c))%string)
        (currentSceneComments example_manager) /\
  currentSceneComments m' = currentSceneComments example_manager /\
  api m' = api example_manager /\ toasts m' = toasts example_manager /\
  isCommentMode m' = isCommentMode example_manager.
Proof.
  apply (refreshCommentVisuals_one_marker_per_comment example_manager [] []);
    reflexivity.
Defined.

Lemma addComment21_success m value pos name bs ls vw generatedId now :
  commentInput m = Some value -> JS.trim value <> "" ->
  pendingPosition m = Some pos -> currentGroup m = Some name ->
  comments_at name (api m) <> Inherited ->
  setItem_throws (api m) = false ->
  billboards m = Some bs -> labels m = Some ls -> viewer m = Some vw ->
  let record :=
    {| stored := new_comment name (JS.trim value) pos (pendingFeature m)
                             (userName m) generatedId now;
       position := pos |} in
  let m' := CommentsManager21.addComment generatedId now m in
  api m' = snd (V21.saveComment name (JS.trim value) pos (pendingFeature m)
                                (userName m) generatedId now (api m)) /\
  currentSceneComments m' = currentSceneComments m ++ [record] /\
  billboards m' = Some (bs ++ [billboard_of record]) /\
  labels m' = Some (ls ++ [label_of record]) /\
  pendingPosition m' = None /\ pendingFeature m' = None /\
  commentInput m' = Some "" /\
  isCommentMode m' = isCommentMode m /\
  toasts m' = toasts m ++ [(COMMENT_SAVED, "success")].
Proof.
  intros Hi Ht Hp Hg Hn _ Hb Hl Hv.
  destruct m as [a mode pp pf cur b lb icon v grp usr inp ts].
  simpl in *. subst.
  unfold CommentsManager21.addComment. cbn [commentInput pendingPosition].
  rewrite (truthy_nonempty _ Ht). cbn [negb].
  unfold on_api, CommentsManager21.addCommentVisual, addCommentVisual_body,
    request_render.
  run_method. cbn [api currentGroup pendingFeature userName].
  rewrite saveComment_spec.
  destruct (comments_at name a); [|contradiction|];
    destruct vw as [[|] n]; cbn; repeat split.
Qed.

(** X17.  Placing a comment in version 2.1.0.  With a text that is not
    blank, a chosen position, a scene whose name is a scene of the
    document or is not one that objects inherit from [Object.prototype],
    a storage that takes the write, the two marker collections and a
    viewer, [addComment] saves the comment with the trimmed text, the
    chosen position and feature and the author of the manager, and
    leaves the store as [saveComment] leaves it; puts the record at the
    end of the list of the manager; adds one billboard and one label for
    it; clears the input and the chosen position; shows the saved toast;
    and stays in comment mode. *)
Theorem addComment_places_the_comment m value pos name bs ls vw generatedId now :
  commentInput m = Some value -> JS.trim value <> "" ->
  pendingPosition m = Some pos -> currentGroup m = Some name ->
  comments_at name (api m) <> Inherited ->
  setItem_throws (api m) = false ->
  billboards m = Some bs -> labels m = Some ls -> viewer m = Some vw ->
  let record :=
    {| stored := new_comment name (JS.trim value) pos (pendingFeature m)
                             (userName m) generatedId now;
       position := pos |} in
  let m' := CommentsManager21.addComment generatedId now m in
  api m' = snd (V21.saveComment name (JS.trim value) pos (pendingFeature m)
                                (userName m) generatedId now (api m)) /\
  currentSceneComments m' = currentSceneComments m ++ [record] /\
  billboards m' = Some (bs ++ [billboard_of record]) /\
  labels m' = Some (ls ++ [label_of record]) /\
  pendingPosition m' = None /\ pendingFeature m' = None /\
  commentInput m' = Some "" /\
  isCommentMode m' = isCommentMode m /\
  toasts m' = toasts m ++ [(COMMENT_SAVED, "success")].
Proof. apply addComment21_success. Qed.

Lemma addComment_places_the_comment_witness :
  let record :=
    {| stored := new_comment "Lock A" "Leak at joint" example_position (Some "Tor")
                             "Anna" "1700000000001" "2024-01-01T00:00:00.000Z";
       position := example_position |} in
  let m' := CommentsManager21.addComment "1700000000001"
              "2024-01-01T00:00:00.000Z" ready_manager in
  api m' = snd (V21.saveComment "Lock A" "Leak at joint" example_position
                                (Some "Tor") "Anna" "1700000000001"
                                "2024-01-01T00:00:00.000Z" example_store) /\
  currentSceneComments m' = [] ++ [record] /\
  billboards m' = Some ([] ++ [billboard_of record]) /\
  labels m' = Some ([] ++ [label_of record]) /\
  pendingPosition m' = None /\ pendingFeature m' = None /\
  commentInput m' = Some "" /\
  isCommentMode m' = true /\
  toasts m' = [] ++ [(COMMENT_SAVED, "success")].
Proof.
  apply (addComment_places_the_comment ready_manager "  Leak at joint "
           example_position "Lock A" [] []
           {| requestRenderMode := true; renders := 0 |});
    try reflexivity; vm_compute; discriminate.
Defined.

Lemma addComment20_success m value pos name bs ls Date_now now :
  commentInput m = Some value -> JS.trim value <> "" ->
  userName m <> "" ->
  pendingPosition m = Some pos -> currentGroup m = Some name ->
  comments_at name (api m) <> Inherited ->
  billboards m = Some bs -> labels m = Some ls ->
  let record :=
    {| stored := new_comment name (JS.trim value) pos (pendingFeature m)
                             (userName m) (JS.decimal Date_now) now;
       position := pos |} in
  let m' := CommentsManager20.addComment Date_now now m in
  scene name (api m') =
    Some (match scene name (api m) with Some l => l | None => [] end
          ++ [stored record]) /\
  currentSceneComments m' = currentSceneComments m ++ [record] /\
  billboards m' = Some (bs ++ [billboard_of record]) /\
  labels m' = Some (ls ++ [label_of record]) /\
  pendingPosition m' = None /\ pendingFeature m' = None /\
  commentInput m' = Some "" /\
  isCommentMode m' = false /\
  toasts m' = toasts m ++ [(Literal "Kommentar gespeichert!", "success")].
Proof.
  intros Hi Ht Hu Hp Hg Hn Hb Hl.
  destruct m as [a mode pp pf cur b lb icon v grp usr inp ts].
  simpl in *. subst.
  unfold CommentsManager20.addComment. cbn [commentInput pendingPosition option_map or_empty].
  rewrite (truthy_nonempty _ Ht). cbn [negb userName].
  rewrite (truthy_nonempty _ Hu). cbn [negb currentGroup].
  unfold on_api_throwing, addCommentVisual_body, CommentsManager20.exitCommentMode.
  run_method. cbn [api pendingFeature userName].
  rewrite V20_saveComment_spec.
  destruct (comments_at name a); [|contradiction|];
    cbn -[after_save20]; repeat split;
    rewrite scene_after_save20; apply lookup_assign_same.
Qed.

(** X18.  Placing a comment in version 2.0.0.  With a text that is not
    blank, an author, a chosen position, a scene whose name is a scene of
    the document or is not one that objects inherit from
    [Object.prototype], and the two marker collections, [addComment]
    stores the comment at the end of its scene with the trimmed text and
    the clock value as id, adds the record to the list of the manager and
    one billboard and one label for it, clears the input and the chosen
    position, shows the saved toast, and leaves comment mode.  This is so
    whether the storage takes the write or refuses it. *)
Theorem addComment_of_version_2_0_leaves_comment_mode m value pos name bs ls
    Date_now now :
  commentInput m = Some value -> JS.trim value <> "" ->
  userName m <> "" ->
  pendingPosition m = Some pos -> currentGroup m = Some name ->
  comments_at name (api m) <> Inherited ->
  billboards m = Some bs -> labels m = Some ls ->
  let record :=
    {| stored := new_comment name (JS.trim value) pos (pendingFeature m)
                             (userName m) (JS.decimal Date_now) now;
       position := pos |} in
  let m' := CommentsManager20.addComment Date_now now m in
  scene name (api m') =
    Some (match scene name (api m) with Some l => l | None => [] end
          ++ [stored record]) /\
  currentSceneComments m' = currentSceneComments m ++ [record] /\
  billboards m' = Some (bs ++ [billboard_of record]) /\
  labels m' = Some (ls ++ [label_of record]) /\
  pendingPosition m' = None /\ pendingFeature m' = None /\
  commentInput m' = Some "" /\
  isCommentMode m' = false /\
  toasts m' = toasts m ++ [(Literal "Kommentar gespeichert!", "success")].
Proof. apply addComment20_success. Qed.

Lemma addComment_of_version_2_0_leaves_comment_mode_witness :
  let record :=
    {| stored := new_comment "Lock A" "Leak at joint" example_position (Some "Tor")
                             "Anna" (JS.decimal 1700000000001)
                             "2024-01-01T00:00:00.000Z";
       position := example_position |} in
  let m' := CommentsManager20.addComment 1700000000001
              "2024-01-01T00:00:00.000Z" ready_manager in
  scene "Lock A" (api m') =
    Some (match scene "Lock A" (api ready_manager) with
          | Some l => l | None => [] end ++ [stored record]) /\
  currentSceneComments m' = [] ++ [record] /\
  billboards m' = Some ([] ++ [billboard_of record]) /\
  labels m' = Some ([] ++ [label_of record]) /\
  pendingPosition m' = None /\ pendingFeature m' = None /\
  commentInput m' = Some "" /\
  isCommentMode m' = false /\
  toasts m' = [] ++ [(Literal "Kommentar gespeichert!", "success")].
Proof.
  apply (addComment_of_version_2_0_leaves_comment_mode ready_manager
           "  Leak at joint " example_position "Lock A" [] []);
    try reflexivity; vm_compute; discriminate.
Defined.

Lemma loadSceneComments_spec m name bs ls :
  currentGroup m = Some name -> JS.truthy name = true ->
  coherent (api m) ->
  billboards m = Some bs -> labels m = Some ls ->
  let m' := snd (Workflow21.loadSceneComments m) in
  currentSceneComments m' = scene_comments name (api m) /\
  markers_match m' /\
  data (api m') = data (api m) /\
  toasts m' = toasts m /\
  pendingPosition m' = pendingPosition m.
Proof.
  intros Hg Ht C Hb Hl.
  destruct (loadComments_current name (api m) C Ht) as [E D].
  destruct m as [a mode pp pf cur b lb icon v grp usr inp ts].
  simpl in *. subst.
  unfold Workflow21.loadSceneComments, on_api. run_method.
  cbn [currentGroup api].
  destruct (V21.loadComments name a) as [l st1]. simpl in E, D. subst l.
  erewrite refreshCommentVisuals_spec; [|reflexivity|reflexivity].
  unfold markers_match, Workflow21.render_if_requested.
  destruct v as [[[|] n]|]; cbn; auto.
Qed.

(** X19.  [loadSceneComments] shows the scene of the manager: on a store
    whose cache is not stale, with the two marker collections, the list
    of the manager becomes the comments of the current scene as the
    document has them, and the markers are rebuilt to one billboard and
    one label per comment of that list.  The document, the toasts and a
    chosen position are left alone. *)
Theorem loadSceneComments_shows_the_scene m name bs ls :
  currentGroup m = Some name -> JS.truthy name = true ->
  coherent (api m) ->
  billboards m = Some bs -> labels m = Some ls ->
  let m' := snd (Workflow21.loadSceneComments m) in
  currentSceneComments m' = scene_comments name (api m) /\
  markers_match m' /\
  data (api m') = data (api m) /\
  toasts m' = toasts m /\
  pendingPosition m' = pendingPosition m.
Proof. apply loadSceneComments_spec. Qed.

Lemma loadSceneComments_shows_the_scene_witness :
  let m' := snd (Workflow21.loadSceneComments example_manager) in
  currentSceneComments m' = scene_comments "Lock A" (api example_manager) /\
  markers_match m' /\
  data (api m') = data (api example_manager) /\
  toasts m' = toasts example_manager /\
  pendingPosition m' = pendingPosition example_manager.
Proof.
  apply (loadSceneComments_shows_the_scene example_manager "Lock A" [] []);
    try reflexivity.
  constructor.
Defined.

Lemma manager_deleteComment_spec m commentId name bs ls l :
  currentGroup m = Some name ->
  billboards m = Some bs -> labels m = Some ls ->
  scene name (api m) = Some l ->
  Workflow21.deleteComment commentId false m = (Return tt, m) /\
  let '(r, m') := Workflow21.deleteComment commentId true m in
  r = Return tt /\
  if existsb (fun c => String.eqb (id c) commentId) l then
    scene name (api m') =
      Some (filter (fun c => negb (String.eqb (id c) commentId)) l) /\
    currentSceneComments m' =
      filter (fun c => negb (String.eqb (id (stored c)) commentId))
             (currentSceneComments m) /\
    markers_match m' /\
    toasts m' =
      toasts m ++ [(Literal "BAWUtils.messages.COMMENT_DELETED", "success")]
  else
    m' = showToast (Literal ("Fehler beim L" ++ String o_umlaut
                               "schen des Kommentars")) "error" m.
Proof.
  intros Hg Hb Hl Hs. split; [reflexivity|].
  destruct m as [a mode pp pf cur b lb icon v grp usr inp ts].
  simpl in *. subst.
  unfold Workflow21.deleteComment, on_api. run_method. cbn [negb currentGroup api].
  rewrite deleteComment_spec, (comments_at_own _ _ _ Hs).
  destruct (existsb (fun c => String.eqb (id c) commentId) l).
  - cbv iota beta. cbn [currentSceneComments with_api].
    erewrite refreshCommentVisuals_spec; [|reflexivity|reflexivity].
    unfold markers_match, Workflow21.render_if_requested.
    split; [reflexivity|].
    destruct v as [[[|] n]|]; cbn -[after_save]; repeat split;
      rewrite scene_after_save; apply lookup_assign_same.
  - split; reflexivity.
Qed.

(** X20.  Deleting through the manager, with a scene and the two marker
    collections.  When the user declines the confirmation nothing
    changes.  When the user confirms and the scene holds a comment with
    the id, the comment leaves the document and the list of the manager,
    the markers are rebuilt to match the list, and the deleted toast is
    shown.  When the scene holds no such comment only the error toast is
    shown. *)
Theorem manager_deleteComment_outcomes m commentId name bs ls l :
  currentGroup m = Some name ->
  billboards m = Some bs -> labels m = Some ls ->
  scene name (api m) = Some l ->
  Workflow21.deleteComment commentId false m = (Return tt, m) /\
  let '(r, m') := Workflow21.deleteComment commentId true m in
  r = Return tt /\
  if existsb (fun c => String.eqb (id c) commentId) l then
    scene name (api m') =
      Some (filter (fun c => negb (String.eqb (id c) commentId)) l) /\
    currentSceneComments m' =
      filter (fun c => negb (String.eqb (id (stored c)) commentId))
             (currentSceneComments m) /\
    markers_match m' /\
    toasts m' =
      toasts m ++ [(Literal "BAWUtils.messages.COMMENT_DELETED", "success")]
  else
    m' = showToast (Literal ("Fehler beim L" ++ String o_umlaut
                               "schen des Kommentars")) "error" m.
Proof. apply manager_deleteComment_spec. Qed.

Lemma manager_deleteComment_outcomes_witness :
  Workflow21.deleteComment "1700000000000" false example_manager
    = (Return tt, example_manager) /\
  let '(r, m') := Workflow21.deleteComment "1700000000000" true example_manager in
  r = Return tt /\
  if existsb (fun c => String.eqb (id c) "1700000000000") [example_comment] then
    scene "Lock A" (api m') =
      Some (filter (fun c => negb (String.eqb (id c) "1700000000000"))
                   [example_comment]) /\
    currentSceneComments m' =
      filter (fun c => negb (String.eqb (id (stored c)) "1700000000000"))
             (currentSceneComments example_manager) /\
    markers_match m' /\
    toasts m' =
      toasts example_manager ++
      [(Literal "BAWUtils.messages.COMMENT_DELETED", "success")]
  else
    m' = showToast (Literal ("Fehler beim L" ++ String o_umlaut
                               "schen des Kommentars")) "error" example_manager.
Proof.
  apply (manager_deleteComment_outcomes example_manager "1700000000000" "Lock A"
           [] [] [example_comment]); reflexivity.
Defined.

Lemma existsb_keys {A} k (f : list (string * A)) :
  existsb (String.eqb k) (keys f) =
    match lookup k f with Some _ => true | None => false end.
Proof.
  induction f as [|[k' v] f IH]; simpl; auto.
  rewrite (String.eqb_sym k k'). now destruct (String.eqb k' k).
Qed.

(** X21.  A click on a tile feature whose surface position resolves
    chooses that position, and as the feature name the property
    Objektart of the feature, or its property Name when it has no
    Objektart, or null when it has neither; the toast that asks for the
    text is shown and nothing else changes. *)
Theorem click_on_a_feature_chooses_position_and_name m vw click feature pos :
  viewer m = Some vw ->
  picked_feature click = Some feature ->
  pickPosition click = Return (Some pos) ->
  Workflow21.handleCommentModeClick click m =
    (tt,
     showToast
       (Literal ("Position ausgew" ++ String a_umlaut
                   "hlt. Geben Sie einen Kommentar ein."))
       "success"
       (with_pending (Some pos)
          (match lookup "Objektart" feature with
           | Some v => Some v
           | None => lookup "Name" feature
           end) m)).
Proof.
  intros Hv Hf Hp.
  unfold Workflow21.handleCommentModeClick, Workflow21._getPickedPosition,
    Workflow21._getFeatureName.
  run_method. rewrite Hv, Hf, Hp, !existsb_keys.
  destruct (lookup "Objektart" feature); cbv beta iota; rewrite ?Hv;
    [reflexivity|].
  destruct (lookup "Name" feature); cbv beta iota; rewrite ?Hv; reflexivity.
Qed.

Lemma click_on_a_feature_chooses_position_and_name_witness :
  Workflow21.handleCommentModeClick click_on_feature example_manager =
    (tt,
     showToast
       (Literal ("Position ausgew" ++ String a_umlaut
                   "hlt. Geben Sie einen Kommentar ein."))
       "success"
       (with_pending (Some example_position)
          (match lookup "Objektart" [("Name", "Tor 1"); ("Objektart", "Tor")] with
           | Some v => Some v
           | None => lookup "Name" [("Name", "Tor 1"); ("Objektart", "Tor")]
           end) example_manager)).
Proof.
  apply (click_on_a_feature_chooses_position_and_name example_manager
           {| requestRenderMode := true; renders := 0 |} click_on_feature);
    reflexivity.
Defined.

(** X22.  A click for which the renderer resolves no position, neither
    on the surface nor on the ellipsoid, changes nothing: the position
    and the feature chosen before stay, and no toast is shown. *)
Theorem click_without_position_changes_nothing m vw click :
  viewer m = Some vw ->
  pickPosition click = Return None ->
  pickEllipsoid click = None ->
  Workflow21.handleCommentModeClick click m = (tt, m).
Proof.
  intros Hv Hp He.
  unfold Workflow21.handleCommentModeClick, Workflow21._getPickedPosition,
    Workflow21._getFeatureName.
  run_method. rewrite Hv, Hp, He.
  destruct (picked_feature click) as [feature|]; [|reflexivity].
  rewrite !existsb_keys.
  destruct (lookup "Objektart" feature); cbv beta iota; rewrite ?Hv;
    [reflexivity|].
  destruct (lookup "Name" feature); cbv beta iota; rewrite ?Hv; reflexivity.
Qed.

Lemma click_without_position_changes_nothing_witness :
  Workflow21.handleCommentModeClick click_on_nothing example_manager
    = (tt, example_manager).
Proof.
  apply (click_without_position_changes_nothing example_manager
           {| requestRenderMode := true; renders := 0 |} click_on_nothing);
    reflexivity.
Defined.

(** X23.  After [cancelComment] or [exitCommentMode] no comment is saved
    until a position is chosen again: [addComment] then leaves the
    document, the storage, the list of the manager and the markers as
    they were, in both versions, whatever text is typed. *)
Theorem nothing_is_saved_after_cancel_or_exit m generatedId Date_now now value :
  let typed m0 := with_input (Some value) m0 in
  let m1 := CommentsManager21.addComment generatedId now
              (typed (Workflow21.cancelComment m)) in
  let m2 := CommentsManager21.addComment generatedId now
              (typed (Workflow21.exitCommentMode m)) in
  let m3 := CommentsManager20.addComment Date_now now
              (typed (CommentsManager20.exitCommentMode m)) in
  (api m1 = api m /\ currentSceneComments m1 = currentSceneComments m /\
   billboards m1 = billboards m /\ labels m1 = labels m) /\
  (api m2 = api m /\ currentSceneComments m2 = currentSceneComments m /\
   billboards m2 = billboards m /\ labels m2 = labels m) /\
  (api m3 = api m /\ currentSceneComments m3 = currentSceneComments m /\
   billboards m3 = billboards m /\ labels m3 = labels m).
Proof.
  destruct m as [a mode pp pf cur b lb icon v grp usr inp ts].
  cbv zeta. unfold CommentsManager21.addComment, CommentsManager20.addComment,
    Workflow21.cancelComment, Workflow21.exitCommentMode,
    CommentsManager20.exitCommentMode.
  destruct inp; cbn; destruct (JS.truthy (JS.trim value)); cbn; repeat split.
Qed.

(** X24.  Entering comment mode.  From outside comment mode,
    [toggleCommentMode] after [setUserName] and [setCurrentGroup] enters
    comment mode exactly when the name has a character that is not white
    space and the group is not null; a missing, empty or blank name keeps
    the manager out of comment mode. *)
Theorem comment_mode_needs_a_name_and_a_scene name group m :
  isCommentMode m = false ->
  isCommentMode
    (Workflow21.toggleCommentMode
       (Workflow21.setCurrentGroup group (Workflow21.setUserName name m))) =
    match name with
    | Some n => JS.truthy (JS.trim n)
    | None => false
    end &&
    match group with
    | Some _ => true
    | None => false
    end.
Proof.
  intros H. unfold Workflow21.toggleCommentMode.
  change (isCommentMode
            (Workflow21.setCurrentGroup group (Workflow21.setUserName name m)))
    with (isCommentMode m).
  rewrite H. unfold Workflow21.enterCommentMode.
  change (currentGroup
            (Workflow21.setCurrentGroup group (Workflow21.setUserName name m)))
    with group.
  change (userName
            (Workflow21.setCurrentGroup group (Workflow21.setUserName name m)))
    with (match name with
          | Some n => if JS.truthy n then JS.trim n else EmptyString
          | None => EmptyString
          end).
  destruct name as [[|c n]|]; try exact H.
  cbn [JS.truthy].
  destruct (JS.truthy (JS.trim (String c n))); cbn [negb andb]; [|exact H].
  destruct group; [reflexivity|exact H].
Qed.

Lemma comment_mode_needs_a_name_and_a_scene_witness :
  isCommentMode
    (Workflow21.toggleCommentMode
       (Workflow21.setCurrentGroup (Some "Lock A")
          (Workflow21.setUserName (Some "   ") (with_mode false example_manager)))) =
    match Some "   " with
    | Some n => JS.truthy (JS.trim n)
    | None => false
    end &&
    match Some "Lock A" with
    | Some _ => true
    | None => false
    end.
Proof.
  apply (comment_mode_needs_a_name_and_a_scene (Some "   ") (Some "Lock A")
           (with_mode false example_manager)).
  reflexivity.
Defined.

(** X25.  Clearing through the manager, with the two marker collections.
    When the user declines the confirmation nothing changes.  When the
    user confirms, the document is the default one, the list of the
    manager and both marker collections are empty, and the cleared toast
    is shown; comment mode and a chosen position are left as they are. *)
Theorem manager_clearAllData_outcomes version m bs ls :
  billboards m = Some bs -> labels m = Some ls ->
  Workflow21.clearAllData version false m = m /\
  let m' := Workflow21.clearAllData version true m in
  data (api m') = getDefaultData version /\
  currentSceneComments m' = [] /\
  billboards m' = Some [] /\ labels m' = Some [] /\
  toasts m' = toasts m ++ [(Literal "BAWUtils.messages.DATA_CLEARED", "success")] /\
  isCommentMode m' = isCommentMode m /\
  pendingPosition m' = pendingPosition m.
Proof.
  intros Hb Hl. split; [reflexivity|].
  destruct m as [a mode pp pf cur b lb icon v grp usr inp ts].
  simpl in *. subst.
  unfold Workflow21.clearAllData. cbn [negb].
  cbv zeta. erewrite refreshCommentVisuals_spec; [|reflexivity|reflexivity].
  cbn -[V21.clearAllData]. repeat split. apply clearAllData_data.
Qed.

Lemma manager_clearAllData_outcomes_witness :
  Workflow21.clearAllData "1.0" false example_manager = example_manager /\
  let m' := Workflow21.clearAllData "1.0" true example_manager in
  data (api m') = getDefaultData "1.0" /\
  currentSceneComments m' = [] /\
  billboards m' = Some [] /\ labels m' = Some [] /\
  toasts m' = toasts example_manager ++
              [(Literal "BAWUtils.messages.DATA_CLEARED", "success")] /\
  isCommentMode m' = isCommentMode example_manager /\
  pendingPosition m' = pendingPosition example_manager.
Proof.
  apply (manager_clearAllData_outcomes "1.0" example_manager [] []); reflexivity.
Defined.

(** *** Hidden features *)

Lemma hidden_fold_show l : forall s t,
  HiddenFeatures.show
    (fold_left (fun st h =>
                  HiddenFeatures.set_show
                    (HiddenFeatures.tile (HiddenFeatures.feature h)) true st) l s) t =
  if existsb (fun h => (HiddenFeatures.tile (HiddenFeatures.feature h) =? t)%nat) l
  then true else HiddenFeatures.show s t.
Proof.
  induction l as [|h l IH]; intros s t; simpl; auto.
  rewrite IH. simpl. rewrite (Nat.eqb_sym t).
  destruct (HiddenFeatures.tile (HiddenFeatures.feature h) =? t)%nat;
    now destruct (existsb _ l).
Qed.

Lemma hidden_fold_features l : forall s,
  HiddenFeatures.features
    (fold_left (fun st h =>
                  HiddenFeatures.set_show
                    (HiddenFeatures.tile (HiddenFeatures.feature h)) true st) l s) =
  HiddenFeatures.features s /\
  HiddenFeatures.toasts
    (fold_left (fun st h =>
                  HiddenFeatures.set_show
                    (HiddenFeatures.tile (HiddenFeatures.feature h)) true st) l s) =
  HiddenFeatures.toasts s.
Proof.
  induction l as [|h l IH]; intros s; simpl; auto.
  destruct (IH (HiddenFeatures.set_show
                  (HiddenFeatures.tile (HiddenFeatures.feature h)) true s)) as [F T].
  now rewrite F, T.
Qed.

Lemma showAll_features_nil s :
  HiddenFeatures.features (HiddenFeatures.showAll s) = [].
Proof.
  unfold HiddenFeatures.showAll.
  now destruct (0 <? length (HiddenFeatures.features s))%nat.
Qed.

(** X26.  [showAll] restores everything: afterwards the list is empty,
    every feature that was in the list is shown, and the flag of every
    other feature is as before.  A toast with the number of restored
    features is shown exactly when the list was not empty. *)
Theorem showAll_restores_every_listed_feature s :
  let s' := HiddenFeatures.showAll s in
  HiddenFeatures.features s' = [] /\
  (forall h, In h (HiddenFeatures.features s) ->
     HiddenFeatures.show s' (HiddenFeatures.tile (HiddenFeatures.feature h)) = true) /\
  (forall t,
     (forall h, In h (HiddenFeatures.features s) ->
        HiddenFeatures.tile (HiddenFeatures.feature h) <> t) ->
     HiddenFeatures.show s' t = HiddenFeatures.show s t) /\
  HiddenFeatures.toasts s' =
    match HiddenFeatures.features s with
    | [] => HiddenFeatures.toasts s
    | _ => HiddenFeatures.toasts s ++
           [((JS.decimal (N.of_nat (length (HiddenFeatures.features s))) ++
              " Features wiederhergestellt")%string, "success", 3000%nat)]
    end.
Proof.
  cbv zeta. unfold HiddenFeatures.showAll.
  set (l := HiddenFeatures.features s).
  assert (Sh : forall t,
    HiddenFeatures.show
      (if (0 <? length l)%nat
       then HiddenFeatures.showToast
              (JS.decimal (N.of_nat (length l)) ++ " Features wiederhergestellt")
              "success" 3000
              (HiddenFeatures.set_features []
                 (fold_left (fun st h =>
                    HiddenFeatures.set_show
                      (HiddenFeatures.tile (HiddenFeatures.feature h)) true st) l s))
       else HiddenFeatures.set_features []
              (fold_left (fun st h =>
                 HiddenFeatures.set_show
                   (HiddenFeatures.tile (HiddenFeatures.feature h)) true st) l s)) t =
    if existsb (fun h => (HiddenFeatures.tile (HiddenFeatures.feature h) =? t)%nat) l
    then true else HiddenFeatures.show s t).
  { intros t. rewrite <- hidden_fold_show. now destruct (0 <? length l)%nat. }
  split; [now destruct (0 <? length l)%nat|].
  split; [|split].
  - intros h Hin. rewrite Sh.
    assert (X : existsb (fun h0 =>
                  (HiddenFeatures.tile (HiddenFeatures.feature h0) =?
                   HiddenFeatures.tile (HiddenFeatures.feature h))%nat) l = true).
    { apply existsb_exists. exists h. split; auto. apply Nat.eqb_refl. }
    now rewrite X.
  - intros t Hnot. rewrite Sh.
    assert (X : existsb (fun h =>
                  (HiddenFeatures.tile (HiddenFeatures.feature h) =? t)%nat) l = false).
    { apply not_true_is_false. intros E. apply existsb_exists in E as (h & Hin & E).
      apply Nat.eqb_eq in E. now apply (Hnot h). }
    now rewrite X.
  - destruct (hidden_fold_features l s) as [_ T].
    destruct l as [|h l']; simpl length; cbn [Nat.ltb Nat.leb].
    + reflexivity.
    + change (0 <? S (length l'))%nat with true. cbv iota.
      unfold HiddenFeatures.showToast, HiddenFeatures.set_features.
      cbn [HiddenFeatures.toasts]. now rewrite T.
Qed.

Lemma firstn_skipn_last {A} (l : list A) (a : A) :
  firstn (length l) (l ++ [a]) ++ skipn (S (length l)) (l ++ [a]) = l.
Proof.
  induction l as [|b l IH]; [reflexivity|].
  change (b :: (firstn (length l) (l ++ [a]) ++ skipn (S (length l)) (l ++ [a]))
          = b :: l).
  now rewrite IH.
Qed.

(** X27.  Hiding a feature and then showing the last record of the list
    undoes the hiding in the list: the list is as before, and the feature
    is shown, also when it was hidden before; the flag of every other
    feature is as before.  The record that [hideFeature] adds is named by
    the property name of the feature, or Unbenannt when that is missing
    or empty. *)
Theorem hide_then_show_last_restores_the_list f Date_now now s :
  let s1 := HiddenFeatures.hideFeature (Some f) Date_now now s in
  let s2 := HiddenFeatures.showFeatureByIndex
              (length (HiddenFeatures.features s)) s1 in
  HiddenFeatures.show s1 (HiddenFeatures.tile f) = false /\
  map HiddenFeatures.name (HiddenFeatures.features s1) =
    map HiddenFeatures.name (HiddenFeatures.features s) ++
    [match lookup "name" (HiddenFeatures.properties f) with
     | Some (String c r) => String c r
     | _ => "Unbenannt"
     end] /\
  HiddenFeatures.features s2 = HiddenFeatures.features s /\
  HiddenFeatures.show s2 (HiddenFeatures.tile f) = true /\
  (forall t, t <> HiddenFeatures.tile f ->
     HiddenFeatures.show s2 t = HiddenFeatures.show s t).
Proof.
  cbv zeta. unfold HiddenFeatures.showFeatureByIndex, HiddenFeatures.hideFeature.
  cbn [HiddenFeatures.features HiddenFeatures.showToast HiddenFeatures.set_features
       HiddenFeatures.set_show HiddenFeatures.show].
  rewrite nth_error_app2 by lia. rewrite Nat.sub_diag. cbn [nth_error].
  unfold HiddenFeatures.showFeature.
  cbn [HiddenFeatures.features HiddenFeatures.showToast HiddenFeatures.set_features
       HiddenFeatures.set_show HiddenFeatures.show HiddenFeatures.feature].
  rewrite Nat.eqb_refl, firstn_skipn_last.
  repeat split.
  - rewrite map_app. simpl. f_equal. unfold HiddenFeatures.getProperty_or.
    now destruct (lookup "name" (HiddenFeatures.properties f)) as [[|c r]|].
  - intros t Ht. apply Nat.eqb_neq in Ht. now rewrite Ht.
Qed.

Lemma In_firstn_skipn {A} (l : list A) i x :
  In x (firstn i l ++ skipn (S i) l) -> In x l.
Proof.
  intros H. apply in_app_or in H as [H|H].
  - rewrite <- (firstn_skipn i l). apply in_or_app. now left.
  - rewrite <- (firstn_skipn (S i) l). apply in_or_app. now right.
Qed.

Lemma NoDup_map_firstn_skipn {A B} (g : A -> B) (l : list A) : forall i h x,
  NoDup (map g l) -> nth_error l i = Some h ->
  In x (firstn i l ++ skipn (S i) l) -> g x <> g h.
Proof.
  induction l as [|a l IH]; intros i h x N E Hin; [now destruct i|].
  inversion N as [|? ? Ha Nl]; subst.
  destruct i as [|i]; simpl in *.
  - inversion E; subst. intros Eq. apply Ha. rewrite <- Eq. now apply in_map.
  - destruct Hin as [->|Hin].
    + intros Eq. apply Ha. rewrite Eq. apply in_map.
      now apply nth_error_In in E.
    + now apply (IH i).
Qed.

(** X28.  That every feature of the list is hidden is kept by
    [hideFeature], and is kept by [showFeatureByIndex] when no feature is
    in the list twice; after [showAll] it holds for the empty list. *)
Theorem listed_features_stay_hidden s picked Date_now now index :
  HiddenFeatures.listed_are_hidden s ->
  HiddenFeatures.listed_are_hidden
    (HiddenFeatures.hideFeature picked Date_now now s) /\
  (NoDup (map (fun h => HiddenFeatures.tile (HiddenFeatures.feature h))
              (HiddenFeatures.features s)) ->
   HiddenFeatures.listed_are_hidden (HiddenFeatures.showFeatureByIndex index s)) /\
  HiddenFeatures.listed_are_hidden (HiddenFeatures.showAll s).
Proof.
  unfold HiddenFeatures.listed_are_hidden. intros H. split; [|split].
  - destruct picked as [f|]; [|exact H]. simpl. intros h Hin.
    destruct (HiddenFeatures.tile (HiddenFeatures.feature h)
              =? HiddenFeatures.tile f)%nat eqn:E; [reflexivity|].
    apply in_app_or in Hin as [Hin|[<-|[]]]; [now apply H|].
    simpl in E. rewrite Nat.eqb_refl in E. discriminate.
  - intros N. unfold HiddenFeatures.showFeatureByIndex.
    destruct (nth_error (HiddenFeatures.features s) index) as [h0|] eqn:E; [|exact H].
    simpl. intros h Hin.
    pose proof (NoDup_map_firstn_skipn
                  (fun h => HiddenFeatures.tile (HiddenFeatures.feature h))
                  _ _ _ _ N E Hin) as Hne.
    apply Nat.eqb_neq in Hne. simpl in Hne. rewrite Hne.
    apply H. now apply (In_firstn_skipn _ index).
  - intros h Hin. exfalso.
    rewrite (showAll_features_nil s) in Hin. exact Hin.
Qed.

Lemma listed_features_stay_hidden_witness :
  HiddenFeatures.listed_are_hidden
    (HiddenFeatures.hideFeature (Some HiddenFeatures.example_feature) 1700000000001
       "2024-01-01T00:00:01.000Z" HiddenFeatures.one_hidden) /\
  (NoDup (map (fun h => HiddenFeatures.tile (HiddenFeatures.feature h))
              (HiddenFeatures.features HiddenFeatures.one_hidden)) ->
   HiddenFeatures.listed_are_hidden
     (HiddenFeatures.showFeatureByIndex 0 HiddenFeatures.one_hidden)) /\
  HiddenFeatures.listed_are_hidden (HiddenFeatures.showAll HiddenFeatures.one_hidden).
Proof.
  apply (listed_features_stay_hidden HiddenFeatures.one_hidden
           (Some HiddenFeatures.example_feature) 1700000000001
           "2024-01-01T00:00:01.000Z" 0).
  intros h [<-|[]]. reflexivity.
Defined.
